(** * The annotation workflow of [app.py]

    A shallow embedding of the sentence segmenter, the corpus sampler, the
    worklist construction, the cursor navigation and the annotation
    persistence of the tense annotation tool, with the properties of the
    design document checked against them.

    Python values are modelled as follows.
    - [str] is a sequence of Unicode code points: [list N].
    - [int] is [Z] where the code subtracts, [nat] for counters and sizes.
    - a dict with a fixed key set is a record; a list is a [list].
    - [st.session_state], the table behind [supabase] and what is drawn on
      the page are fields of one explicit state, threaded through a small
      state-and-exception monad; the corpus file, the shuffle of the sampler,
      the clock and the store's answer are the environment of a run. *)

From Stdlib Require Import String Ascii NArith ZArith Bool Arith Lia.
From Stdlib Require Import List Permutation.
Import ListNotations.

(** ** Python strings *)

Definition str := list N.

(** A string literal of the source, code point by code point. *)
Definition py (s : string) : str := map N_of_ascii (list_ascii_of_string s).

Definition str_eq_dec : forall a b : str, {a = b} + {a <> b} :=
  list_eq_dec N.eq_dec.

Definition str_eqb (a b : str) : bool := if str_eq_dec a b then true else false.

(** Truth value of a Python sequence: non-empty. *)
Definition truthy {A} (l : list A) : bool :=
  match l with [] => false | _ :: _ => true end.

(** [s.startswith(prefix)]. *)
Fixpoint startswith (prefix s : str) : bool :=
  match prefix, s with
  | [], _ => true
  | _ :: _, [] => false
  | p :: prefix', c :: s' => (p =? c)%N && startswith prefix' s'
  end.

(** [str.isspace] on one code point: the code points CPython's
    [_PyUnicode_IsWhitespace] accepts, which are the ones [str.strip()]
    removes. *)
Definition isspace (c : N) : bool :=
  ((9 <=? c) && (c <=? 13) || (28 <=? c) && (c <=? 32)
   || (c =? 133) || (c =? 160) || (c =? 5760)
   || (8192 <=? c) && (c <=? 8202)
   || (c =? 8232) || (c =? 8233) || (c =? 8239) || (c =? 8287)
   || (c =? 12288))%N.

Fixpoint lstrip (s : str) : str :=
  match s with
  | [] => []
  | c :: s' => if isspace c then lstrip s' else s
  end.

Definition rstrip (s : str) : str := rev (lstrip (rev s)).

(** [s.strip()]: leading and trailing whitespace removed. *)
Definition strip (s : str) : str := rstrip (lstrip s).

(** ** Sentence segmenter: [split_into_sentences] *)

(** [char in '.!?'] for a one-character [char]. *)
Definition is_terminal (char : N) : bool :=
  ((char =? 46) || (char =? 33) || (char =? 63))%N.

(** One iteration of [for char in text], on the pair
    [(sentences, current)]. *)
Definition segment_step (acc : list str * str) (char : N) : list str * str :=
  let '(sentences, current) := acc in
  let current := current ++ [char] in
  if is_terminal char && (0 <? length current) then
    (sentences ++ [strip current], [])
  else
    (sentences, current).

Definition split_into_sentences (text : str) : list str :=
  let '(sentences, current) := fold_left segment_step text ([], []) in
  if truthy current then sentences ++ [strip current] else sentences.

(** ** Data model *)

(** A row of the corpus [DataFrame] read from [public/sampled_data.csv]. The
    text is taken to be a [str], as the segmenter requires. *)
Module Row.
Record t := mk {
    text_corrected : str;
    cefr : str;
    learner_id : str
}.
End Row.

Definition DataFrame := list Row.t.

(** An element of [processed_data]: one sentence of one sampled row. *)
Module Unit.
Record t := mk {
    text_corrected : str;
    sentence : str;
    sentence_index : nat;
    cefr : str;
    learner_id : str
}.
End Unit.

(** The dict [data] that [save_annotation] inserts into table
    ["annotations"]. *)
Module Annotation.
Record t := mk {
    annotator_id : str;
    sentence : str;
    target_tense : str;
    notes : str;
    cefr_level : str;
    original_text : str;
    learner_id : str;
    created_at : str
}.
End Annotation.

(** ** Constants *)

Definition CEFR_LEVELS : list str :=
  [py "A1"; py "A2"; py "B1"; py "B2"; py "C1"].

Definition TENSE_CATEGORIES : list (str * list str) :=
  [ (py "Simple Forms",
      [py "Present Simple"; py "Past Simple"; py "Future Simple (will)";
       py "Future Simple (going to)"]);
    (py "Continuous Forms",
      [py "Present Continuous"; py "Past Continuous"; py "Future Continuous"]);
    (py "Perfect Forms",
      [py "Present Perfect"; py "Past Perfect"; py "Future Perfect";
       py "Present Perfect Continuous"; py "Past Perfect Continuous";
       py "Future Perfect Continuous"]);
    (py "Modal Forms",
      [py "Modal Present (would/could/might/should)";
       py "Modal Past (would have/could have)"]);
    (py "Other Structures",
      [py "Conditional (if clause)"; py "To-infinitive"; py "Bare infinitive";
       py "Gerund (-ing form)"; py "Multiple Verbs"]) ].

Definition TENSE_OPTIONS : list str :=
  flat_map snd TENSE_CATEGORIES.

(** [f"------ {category} ------"], the header line of a category in the
    tense select box. *)
Definition category_header (category : str) : str :=
  py "------ " ++ category ++ py " ------".

(** The choices of the select box "Select Tense" (lines 472-475). *)
Definition tense_options : list str :=
  fold_left
    (fun options '(category, tenses) =>
       (options ++ [category_header category]) ++ tenses)
    TENSE_CATEGORIES [ [] ].

(** ** Corpus sampler *)

(** [df[df['cefr'] == cefr_level]]. *)
Definition select_level (df : DataFrame) (cefr_level : str) : DataFrame :=
  filter (fun row => str_eqb (Row.cefr row) cefr_level) df.

(** numpy's random state as far as [DataFrame.sample] consults it:
    [permutation m] is the shuffle of [0 .. m-1] that the next draw uses. *)
Definition RandomState := nat -> list nat.

Definition shuffles (permutation : RandomState) : Prop :=
  forall m, Permutation (permutation m) (seq 0 m).

Inductive Exception :=
| ValueError   (* sample larger than the population *)
| IndexError   (* position out of range *)
| TypeError    (* [len(None)] *)
| APIError.    (* the store refused the insert *)

(** [frame.take(indices)]: the rows at the given positions, in that order. *)
Fixpoint take (frame : DataFrame) (indices : list nat) : option DataFrame :=
  match indices with
  | [] => Some []
  | i :: rest =>
      match nth_error frame i, take frame rest with
      | Some row, Some rows => Some (row :: rows)
      | _, _ => None
      end
  end.

(** [frame.sample(n=n)], without replacement: [choice(len, size=n,
    replace=False)] is [permutation(len)[:n]] and raises [ValueError] when
    [n] exceeds the population. *)
Definition sample (permutation : RandomState) (n : nat) (frame : DataFrame)
  : Exception + DataFrame :=
  if length frame <? n then inl ValueError
  else match take frame (firstn n (permutation (length frame))) with
       | Some rows => inr rows
       | None => inl IndexError
       end.

(** Line 379: [df[df['cefr'] == cefr_level].sample(n=min(sample_size, len(df)))]. *)
Definition sampler (permutation : RandomState) (df : DataFrame)
    (cefr_level : str) (sample_size : nat) : Exception + DataFrame :=
  sample permutation (Nat.min sample_size (length df)) (select_level df cefr_level).

(** ** Annotation units (lines 380-391) *)

Definition enumerate {A} (l : list A) : list (nat * A) :=
  combine (seq 0 (length l)) l.

(** The inner loop: one unit appended per sentence of [row]. *)
Definition append_units (processed_data : list Unit.t) (row : Row.t)
  : list Unit.t :=
  fold_left
    (fun processed_data '(idx, sentence) =>
       processed_data ++
       [ Unit.mk (Row.text_corrected row) sentence idx
                 (Row.cefr row) (Row.learner_id row) ])
    (enumerate (split_into_sentences (Row.text_corrected row)))
    processed_data.

(** The outer loop over [filtered_df.iterrows()], from [processed_data = []]. *)
Definition processed_data (filtered_df : DataFrame) : list Unit.t :=
  fold_left append_units filtered_df [].

(** ** State and effects *)

(** What the script draws with [st.error], [st.success] and [st.warning]. *)
Inductive Message :=
| error_select_level        (* "Please select a CEFR level" *)
| error_loading_data        (* "Error loading data: ..." *)
| success_data_loaded       (* "Data loaded successfully!" *)
| warning_select_tense      (* "Please select a tense before saving." *)
| success_annotation_saved  (* "Annotation saved!" *)
| error_select_valid_tense  (* "Please select a valid tense before saving." *)
| error_saving_annotation.  (* "Error saving annotation: ..." *)

(** The keys of [st.session_state] that the annotator interface uses.
    [filtered_data] is [None] until the first load. *)
Record Session := mkSession {
  annotator_id : str;
  current_index : Z;
  filtered_data : option (list Unit.t)
}.

(** The session, table ["annotations"] of the store, every insert sent to
    it, and the messages drawn so far. *)
Record State := mkState {
  session_state : Session;
  annotations : list Annotation.t;
  insert_calls : list Annotation.t;
  page : list Message
}.

(** What a run of the script finds outside itself: the corpus file as
    [pd.read_csv] parses it ([None] when reading raises), the shuffle of the
    sampler, the clock, and whether the store takes a record. *)
Record Env := mkEnv {
  sampled_data_csv : option DataFrame;
  permutation : RandomState;
  now_isoformat : str;
  store_accepts : Annotation.t -> bool
}.

(** How a block of the script ends. [Return] is the [return] of [main],
    [Rerun] is [st.rerun()]; neither is caught by [except Exception]. *)
Inductive Result (A : Type) :=
| Ok (a : A)
| Raise (e : Exception)
| Return
| Rerun.
Arguments Ok {A} a.
Arguments Raise {A} e.
Arguments Return {A}.
Arguments Rerun {A}.

Definition M (A : Type) : Type := State -> Result A * State.

Definition ret {A} (a : A) : M A := fun s => (Ok a, s).

Definition bind {A B} (c : M A) (k : A -> M B) : M B :=
  fun s =>
    match c s with
    | (Ok a, s') => k a s'
    | (Raise e, s') => (Raise e, s')
    | (Return, s') => (Return, s')
    | (Rerun, s') => (Rerun, s')
    end.

Declare Scope py_scope.
Delimit Scope py_scope with py.
Notation "x <- c ;; k" := (bind c (fun x => k))
  (at level 61, c at next level, right associativity) : py_scope.
Notation "c ;; k" := (bind c (fun _ => k))
  (at level 61, right associativity) : py_scope.
Local Open Scope py_scope.

Definition raise {A} (e : Exception) : M A := fun s => (Raise e, s).
Definition return_ {A} : M A := fun s => (Return, s).
Definition st_rerun {A} : M A := fun s => (Rerun, s).

(** [try: body except Exception as e: handler]. *)
Definition try_except {A} (body : M A) (handler : Exception -> M A) : M A :=
  fun s =>
    match body s with
    | (Raise e, s') => handler e s'
    | r => r
    end.

Definition when (b : bool) (c : M unit) : M unit :=
  if b then c else ret tt.

Definition get_session : M Session := fun s => (Ok (session_state s), s).

Definition set_current_index (i : Z) : M unit :=
  fun s =>
    let ss := session_state s in
    (Ok tt, mkState (mkSession (annotator_id ss) i (filtered_data ss))
                    (annotations s) (insert_calls s) (page s)).

Definition set_filtered_data (data : list Unit.t) : M unit :=
  fun s =>
    let ss := session_state s in
    (Ok tt, mkState (mkSession (annotator_id ss) (current_index ss) (Some data))
                    (annotations s) (insert_calls s) (page s)).

Definition draw (m : Message) : M unit :=
  fun s =>
    (Ok tt, mkState (session_state s) (annotations s) (insert_calls s)
                    (page s ++ [m])).

(** [supabase.table("annotations").insert(data).execute()]: one call to the
    store, which appends the record or raises. *)
Definition insert_execute (env : Env) (data : Annotation.t) : M unit :=
  fun s =>
    if store_accepts env data then
      (Ok tt, mkState (session_state s) (annotations s ++ [data])
                      (insert_calls s ++ [data]) (page s))
    else
      (Raise APIError, mkState (session_state s) (annotations s)
                               (insert_calls s ++ [data]) (page s)).

(** [l[i]] for a Python list: negative positions count from the end. *)
Definition getitem {A} (l : list A) (i : Z) : M A :=
  let n := Z.of_nat (length l) in
  let pos := if (i <? 0)%Z then (n + i)%Z else i in
  if ((0 <=? pos) && (pos <? n))%Z then
    match nth_error l (Z.to_nat pos) with
    | Some a => ret a
    | None => raise IndexError
    end
  else raise IndexError.

(** [len(x)] where [x] may be [None]. *)
Definition len {A} (x : option (list A)) : M Z :=
  match x with
  | Some l => ret (Z.of_nat (length l))
  | None => raise TypeError
  end.

(** Truth value of [st.session_state.filtered_data]. *)
Definition loaded (x : option (list Unit.t)) : bool :=
  match x with
  | Some l => truthy l
  | None => false
  end.

(** ** [load_data] and [save_annotation] *)

Definition load_data (env : Env) : M (option DataFrame) :=
  match sampled_data_csv env with
  | Some df => ret (Some df)
  | None => draw error_loading_data ;; ret None
  end.

Definition save_annotation (env : Env)
    (text : str) (sentence_index : nat) (tense cefr_level user_id : str)
    (notes original_text learner_id : str) : M bool :=
  try_except
    (let data :=
       Annotation.mk user_id text tense notes cefr_level original_text
                     learner_id (now_isoformat env) in
     insert_execute env data ;;
     ret true)
    (fun e => draw error_saving_annotation ;; ret false).

(** ** The annotator interface of [main] *)

(** The widget values of one run. A button is [true] only in the run that
    its click triggered. *)
Record Widgets := mkWidgets {
  load_button : bool;
  cefr_level : str;
  sample_size : nat;
  selected_tense : str;
  notes : str;
  prev_button : bool;
  save_button : bool;
  next_button : bool
}.

Definition lift {A} (r : Exception + A) : M A :=
  match r with
  | inl e => raise e
  | inr a => ret a
  end.

(** Lines 371-395: the "Load Data" button of the sidebar. *)
Definition sidebar (env : Env) (w : Widgets) : M unit :=
  when (load_button w)
    (if negb (truthy (cefr_level w)) then
       draw error_select_level ;; return_
     else
       df <- load_data env ;;
       match df with
       | Some df =>
           filtered_df <-
             lift (sampler (permutation env) df (cefr_level w) (sample_size w)) ;;
           set_filtered_data (processed_data filtered_df) ;;
           set_current_index 0 ;;
           draw success_data_loaded
       | None => ret tt
       end).

Definition dashes : str := py "------".

(** Lines 484-485: a category header counts as no selection. *)
Definition skip_header (selected_tense : str) : str :=
  if truthy selected_tense && startswith dashes selected_tense then []
  else selected_tense.

(** Lines 519-532: save when a valid tense is selected, else complain. *)
Definition save_selected (env : Env) (w : Widgets) (current_item : Unit.t)
    (selected_tense : str) : M unit :=
  if truthy selected_tense && negb (startswith dashes selected_tense) then
    ss <- get_session ;;
    saved <- save_annotation env
               (Unit.sentence current_item)
               (Unit.sentence_index current_item)
               selected_tense
               (Unit.cefr current_item)
               (annotator_id ss)
               (notes w)
               (Unit.text_corrected current_item)
               (Unit.learner_id current_item) ;;
    when saved (draw success_annotation_saved)
  else draw error_select_valid_tense.

(** Lines 534-536. *)
Definition go_next (w : Widgets) : M unit :=
  if next_button w then
    ss <- get_session ;;
    n <- len (filtered_data ss) ;;
    if (current_index ss <? n - 1)%Z then
      set_current_index (current_index ss + 1) ;; st_rerun
    else ret tt
  else ret tt.

(** Lines 538-540. *)
Definition go_previous (w : Widgets) : M unit :=
  if prev_button w then
    ss <- get_session ;;
    if (current_index ss >? 0)%Z then
      set_current_index (current_index ss - 1) ;; st_rerun
    else ret tt
  else ret tt.

(** [st.session_state.filtered_data[st.session_state.current_index]]. *)
Definition current_item : M Unit.t :=
  ss <- get_session ;;
  match filtered_data ss with
  | Some data => getitem data (current_index ss)
  | None => raise TypeError
  end.

(** Lines 398-540: the current item and the annotation form. *)
Definition main_content (env : Env) (w : Widgets) : M unit :=
  ss <- get_session ;;
  when (loaded (filtered_data ss))
    (item <- current_item ;;
     let selected_tense := skip_header (selected_tense w) in
     when (negb (truthy selected_tense)) (draw warning_select_tense) ;;
     when (save_button w || next_button w || prev_button w)
       (save_selected env w item selected_tense ;;
        go_next w ;;
        go_previous w)).

(** The annotator branch of [main]: sidebar, then main content. *)
Definition annotator_interface (env : Env) (w : Widgets) : M unit :=
  sidebar env w ;; main_content env w.

(** The session as [main] initialises it (lines 336-339). *)
Definition initial_state (user_id : str) (table : list Annotation.t) : State :=
  mkState (mkSession user_id 0 None) table [] [].

(** One run of the script: the state it leaves. *)
Definition run (s : State) (input : Env * Widgets) : State :=
  snd (annotator_interface (fst input) (snd input) s).

(** The state after a sequence of runs. *)
Definition runs (inputs : list (Env * Widgets)) (s : State) : State :=
  fold_left run inputs s.

(** * Notions used in the statements *)

(** A string of whitespace only. *)
Definition blank (s : str) : Prop := forallb isspace s = true.

(** The first code point of a left-stripped string is not whitespace. *)
Definition starts_clean (s : str) : Prop :=
  match s with
  | [] => True
  | c :: _ => isspace c = false
  end.

(** The buffers closed at a terminal character, before stripping, when the
    loop runs over [text] from buffer [current]. *)
Fixpoint closed_chunks (current text : str) : list str :=
  match text with
  | [] => []
  | c :: text' =>
      if is_terminal c then (current ++ [c]) :: closed_chunks [] text'
      else closed_chunks (current ++ [c]) text'
  end.

(** The buffer left when the loop ends. *)
Fixpoint residue (current text : str) : str :=
  match text with
  | [] => current
  | c :: text' =>
      if is_terminal c then residue [] text' else residue (current ++ [c]) text'
  end.

Definition chunks (text : str) : list str :=
  closed_chunks [] text ++
  (if truthy (residue [] text) then [residue [] text] else []).

(** Put back, around each sentence, a pair (leading, trailing) of strings. *)
Definition reinsert (pads : list (str * str)) (sentences : list str) : str :=
  concat (map (fun ps => fst (fst ps) ++ snd ps ++ snd (fst ps))
              (combine pads sentences)).

Definition blank_pad (p : str * str) : Prop := blank (fst p) /\ blank (snd p).

(** The units of one row: one per sentence, numbered from 0. *)
Definition units_of_row (row : Row.t) : list Unit.t :=
  map (fun p => Unit.mk (Row.text_corrected row) (snd p) (fst p)
                        (Row.cefr row) (Row.learner_id row))
      (enumerate (split_into_sentences (Row.text_corrected row))).

(** Number of sentences of a row. *)
Definition segment_count (row : Row.t) : nat :=
  length (split_into_sentences (Row.text_corrected row)).

(** Rows of [df] at level [cefr_level]: the population the sampler draws
    from. *)
Definition level_count (df : DataFrame) (cefr_level : str) : nat :=
  length (select_level df cefr_level).

(** [rows] are rows of [frame] at pairwise different positions. *)
Definition drawn_from (frame rows : DataFrame) : Prop :=
  exists indices, NoDup indices /\ take frame indices = Some rows.

(** The state with another cursor. *)
Definition with_index (s : State) (i : Z) : State :=
  mkState (mkSession (annotator_id (session_state s)) i
                     (filtered_data (session_state s)))
          (annotations s) (insert_calls s) (page s).

(** The state with more messages on the page. *)
Definition with_messages (s : State) (ms : list Message) : State :=
  mkState (session_state s) (annotations s) (insert_calls s) (page s ++ ms).

(** The state after a successful load of [data]. *)
Definition with_worklist (s : State) (data : list Unit.t) : State :=
  mkState (mkSession (annotator_id (session_state s)) 0 (Some data))
          (annotations s) (insert_calls s) (page s ++ [success_data_loaded]).

(** The state after one insert of [data] was sent to the store. *)
Definition with_insert (env : Env) (s : State) (data : Annotation.t) : State :=
  if store_accepts env data then
    mkState (session_state s) (annotations s ++ [data])
            (insert_calls s ++ [data]) (page s)
  else
    mkState (session_state s) (annotations s)
            (insert_calls s ++ [data]) (page s ++ [error_saving_annotation]).

(** The record built for [item] by annotator [user_id]. *)
Definition record_of (env : Env) (user_id : str) (item : Unit.t)
    (tense notes : str) : Annotation.t :=
  Annotation.mk user_id (Unit.sentence item) tense notes (Unit.cefr item)
                (Unit.text_corrected item) (Unit.learner_id item)
                (now_isoformat env).

(** The cursor is a position of the worklist. *)
Definition in_range (ss : Session) (data : list Unit.t) : Prop :=
  filtered_data ss = Some data /\
  (0 <= current_index ss < Z.of_nat (length data))%Z.

(** The invariant of the navigator: a non-empty worklist has its cursor on
    one of its positions. *)
Definition cursor_ok (s : State) : Prop :=
  match filtered_data (session_state s) with
  | Some (u :: data) =>
      (0 <= current_index (session_state s) < Z.of_nat (length (u :: data)))%Z
  | _ => True
  end.

(** A shuffle that leaves the order as it is. *)
Definition identity_shuffle : RandomState := seq 0.

(** A form button was pressed. *)
Definition submitted (w : Widgets) : bool :=
  save_button w || next_button w || prev_button w.

(** The state in which the form handler starts: the warning is drawn when
    nothing is selected. *)
Definition warned (w : Widgets) (s : State) : State :=
  if truthy (skip_header (selected_tense w)) then s
  else with_messages s [warning_select_tense].

(** Where the form leaves the cursor [i] of a worklist of length [n]. *)
Definition cursor_after (w : Widgets) (i n : Z) : Z :=
  if next_button w && (i <? n - 1)%Z then (i + 1)%Z
  else if prev_button w && (i >? 0)%Z then (i - 1)%Z
  else i.

(** Whether the form ends the run with [st.rerun()]. *)
Definition moves (w : Widgets) (i n : Z) : bool :=
  next_button w && (i <? n - 1)%Z || prev_button w && (i >? 0)%Z.

(** ** Example inputs *)

Definition example_corpus : DataFrame :=
  [ Row.mk (py "I go. He ran!") (py "B1") (py "L1") ].

Definition example_env : Env :=
  mkEnv (Some example_corpus) identity_shuffle (py "2024-05-01T10:00:00")
        (fun _ => true).

(** The same surroundings with a header-only corpus file. *)
Definition empty_corpus_env : Env :=
  mkEnv (Some []) identity_shuffle (py "2024-05-01T10:00:00") (fun _ => true).

Definition load_click (level : str) : Widgets :=
  mkWidgets true level 200 [] [] false false false.

Definition next_click (tense : str) : Widgets :=
  mkWidgets false [] 200 tense [] false false true.

Definition save_click (tense notes : str) : Widgets :=
  mkWidgets false [] 200 tense notes false true false.

Definition example_user : str := py "annotator-1".

(** The state after loading level [B1] of the example corpus. *)
Definition example_loaded : State :=
  runs [(example_env, load_click (py "B1"))] (initial_state example_user []).

(** Three [B1] texts of 2, 1 and 3 sentences. *)
Definition scenario_corpus : DataFrame :=
  [ Row.mk (py "I go. He ran!") (py "B1") (py "L1");
    Row.mk (py "We will see") (py "B1") (py "L2");
    Row.mk (py "Is it? It is. Good!") (py "B1") (py "L3") ].

Definition scenario_env : Env :=
  mkEnv (Some scenario_corpus) identity_shuffle (py "2024-05-01T10:00:00")
        (fun _ => true).

(** The cursor after loading the scenario corpus and pressing "Next"
    [k] times. *)
Definition scenario_cursor (k : nat) : Z :=
  current_index
    (session_state
       (runs ((scenario_env, mkWidgets true (py "B1") 3 [] [] false false false)
              :: repeat (scenario_env, next_click []) k)
             (initial_state example_user []))).

(** ** Notions for the segmenter *)

(** Number of [.], [!] and [?] in a text. *)
Definition count_terminal (text : str) : nat :=
  length (filter is_terminal text).

(** No [.], [!] or [?] in a text. *)
Definition plain (text : str) : Prop :=
  forallb (fun c => negb (is_terminal c)) text = true.

(** The text is not empty and does not end in [.], [!] or [?]. *)
Definition open_ended (text : str) : bool :=
  match rev text with
  | [] => false
  | c :: _ => negb (is_terminal c)
  end.

(** A sentence closed by a terminal character: no other terminal character
    in it, and no whitespace at its start. *)
Definition closed_sentence (sentence : str) : Prop :=
  exists body p,
    sentence = body ++ [p] /\ is_terminal p = true /\ plain body /\
    starts_clean body.

(** ** Notions for the worklist and the store *)

(** A unit holds the sentence that the segmenter gives at its index in its
    text. *)
Definition unit_ok (u : Unit.t) : Prop :=
  nth_error (split_into_sentences (Unit.text_corrected u)) (Unit.sentence_index u)
  = Some (Unit.sentence u).

(** A record written for annotator [user_id]: a tense that is neither empty
    nor a header, and a sentence of the record's own text. *)
Definition record_ok (user_id : str) (r : Annotation.t) : Prop :=
  Annotation.annotator_id r = user_id /\
  truthy (Annotation.target_tense r) = true /\
  startswith dashes (Annotation.target_tense r) = false /\
  In (Annotation.sentence r) (split_into_sentences (Annotation.original_text r)).

(** Two records that differ at most in [created_at]. *)
Definition same_annotation (r r' : Annotation.t) : Prop :=
  Annotation.annotator_id r = Annotation.annotator_id r' /\
  Annotation.sentence r = Annotation.sentence r' /\
  Annotation.target_tense r = Annotation.target_tense r' /\
  Annotation.notes r = Annotation.notes r' /\
  Annotation.cefr_level r = Annotation.cefr_level r' /\
  Annotation.original_text r = Annotation.original_text r' /\
  Annotation.learner_id r = Annotation.learner_id r'.

(** What holds of every state the interface reaches for annotator
    [user_id]. *)
Definition session_ok (user_id : str) (s : State) : Prop :=
  annotator_id (session_state s) = user_id /\
  (forall data, filtered_data (session_state s) = Some data -> Forall unit_ok data) /\
  Forall (record_ok user_id) (insert_calls s).

(** * Accounts and routing: [register], [login], [admin_dashboard], [main] *)

(** What ends a block of the whole script early: a missing key of
    [st.session_state], a progress value outside [0, 1], an exception of the
    authentication service, or an exception of the annotator interface. *)
Inductive Error :=
| AttributeError
| StreamlitAPIException
| AuthApiError
| interface_error (e : Exception).

(** What the rest of the script draws. *)
Inductive Notice :=
| passwords_do_not_match        (* st.error("Passwords do not match!") *)
| password_too_short            (* "Password must be at least 6 characters long!" *)
| registration_successful       (* "Registration successful! Please check ..." *)
| registration_failed           (* "Registration failed: ..." *)
| login_failed                  (* "Login failed. Please check your credentials." *)
| no_annotator_privileges       (* "This account does not have annotator privileges." *)
| no_admin_privileges           (* "This account does not have admin privileges." *)
| statistics (total_annotations total_annotators : nat)
| recent_table (rows : list (str * str * str * str * str))
| download_button (rows : list Annotation.t)
| dashboard_error               (* "Error loading admin dashboard: ..." *)
| progress_bar (completed total remaining : Z).

(** A call to [supabase.auth]. *)
Inductive AuthCall :=
| sign_up (email password : str)
| sign_in_with_password (email password : str)
| sign_out.

(** [st.session_state] as a dict: a key is absent ([None]) or holds a
    value. [user] holds [None] or the signed-in user, given by its id;
    [filtered_data] holds [None] or the worklist. *)
Record Keys := mkKeys {
  key_user : option (option str);
  key_user_role : option (option str);
  key_annotator_id : option str;
  key_user_id : option str;
  key_current_index : option Z;
  key_filtered_data : option (option (list Unit.t))
}.

(** The whole application between and during runs. *)
Record App := mkApp {
  keys : Keys;
  table : list Annotation.t;
  sent : list Annotation.t;
  drawn : list Message;
  notices : list Notice;
  auth_calls : list AuthCall
}.

(** The answers of the services in one run: the user of a sign-up or
    sign-in response ([None] when the response has none), the role of a
    profile ([None] when the row has no data or no role), whether signing
    out raises, the answers to the dashboard's queries, and pandas'
    rendering of a timestamp ([None] when it cannot be parsed). *)
Record Backend := mkBackend {
  sign_up_response : str -> str -> Error + option str;
  sign_in_response : str -> str -> Error + option str;
  profile_role : str -> Error + option str;
  sign_out_error : option Error;
  count_annotations : Error + option nat;
  count_annotators : Error + option nat;
  recent_annotations : Error + list Annotation.t;
  all_annotations : Error + list Annotation.t;
  strftime_minutes : str -> option str
}.

(** The widget values of one run of the whole script. *)
Record Page := mkPage {
  annotator_email : str;
  annotator_password : str;
  annotator_login : bool;
  admin_email : str;
  admin_password : str;
  admin_login : bool;
  register_email : str;
  register_password : str;
  register_confirm : str;
  register_submit : bool;
  logout_button : bool;
  admin_logout : bool;
  export_button : bool;
  work : Widgets
}.

Inductive Outcome (A : Type) :=
| Done (a : A)
| Failed (e : Error)
| Returned
| Reran.
Arguments Done {A} a.
Arguments Failed {A} e.
Arguments Returned {A}.
Arguments Reran {A}.

Definition MA (A : Type) : Type := App -> Outcome A * App.

Definition retA {A} (x : A) : MA A := fun a => (Done x, a).

Definition bindA {A B} (c : MA A) (k : A -> MA B) : MA B :=
  fun a =>
    match c a with
    | (Done x, a') => k x a'
    | (Failed e, a') => (Failed e, a')
    | (Returned, a') => (Returned, a')
    | (Reran, a') => (Reran, a')
    end.

Declare Scope app_scope.
Delimit Scope app_scope with app.
Notation "x <- c ;; k" := (bindA c (fun x => k))
  (at level 61, c at next level, right associativity) : app_scope.
Notation "c ;; k" := (bindA c (fun _ => k))
  (at level 61, right associativity) : app_scope.
Local Open Scope app_scope.

Definition failA {A} (e : Error) : MA A := fun a => (Failed e, a).
Definition return_main {A} : MA A := fun a => (Returned, a).
Definition experimental_rerun {A} : MA A := fun a => (Reran, a).

(** [try: body except Exception: handler]. *)
Definition try_exceptA {A} (body : MA A) (handler : Error -> MA A) : MA A :=
  fun a =>
    match body a with
    | (Failed e, a') => handler e a'
    | r => r
    end.

Definition whenA (b : bool) (c : MA unit) : MA unit :=
  if b then c else retA tt.

Definition liftA {A} (r : Error + A) : MA A :=
  match r with
  | inl e => failA e
  | inr x => retA x
  end.

Definition notice (n : Notice) : MA unit :=
  fun a =>
    (Done tt, mkApp (keys a) (table a) (sent a) (drawn a) (notices a ++ [n])
                    (auth_calls a)).

Definition auth (c : AuthCall) : MA unit :=
  fun a =>
    (Done tt, mkApp (keys a) (table a) (sent a) (drawn a) (notices a)
                    (auth_calls a ++ [c])).

Definition set_keys (k : Keys) : MA unit :=
  fun a =>
    (Done tt, mkApp k (table a) (sent a) (drawn a) (notices a) (auth_calls a)).

Definition get_keys : MA Keys := fun a => (Done (keys a), a).

(** [st.session_state.<key>]: [AttributeError] when the key is absent. *)
Definition get_key {A} (key : Keys -> option A) : MA A :=
  fun a =>
    match key (keys a) with
    | Some v => (Done v, a)
    | None => (Failed AttributeError, a)
    end.

(** [st.session_state.clear()]. *)
Definition no_keys : Keys := mkKeys None None None None None None.

(** Lines 332-339: the four keys that [main] sets when they are absent. *)
Definition init_keys : MA unit :=
  k <- get_keys ;;
  set_keys
    (mkKeys
       (match key_user k with None => Some None | v => v end)
       (match key_user_role k with None => Some None | v => v end)
       (key_annotator_id k)
       (key_user_id k)
       (match key_current_index k with None => Some 0%Z | v => v end)
       (match key_filtered_data k with None => Some None | v => v end)).

(** ** [register] (lines 100-130) *)

Definition register (b : Backend) (p : Page) : MA bool :=
  if register_submit p then
    if negb (str_eqb (register_password p) (register_confirm p)) then
      notice passwords_do_not_match ;; retA false
    else if length (register_password p) <? 6 then
      notice password_too_short ;; retA false
    else
      try_exceptA
        (auth (sign_up (register_email p) (register_password p)) ;;
         user <- liftA (sign_up_response b (register_email p) (register_password p)) ;;
         match user with
         | Some _ => notice registration_successful ;; retA true
         | None => retA false
         end)
        (fun _ => notice registration_failed ;; retA false)
  else retA false.

(** ** [login] (lines 132-191) *)

(** [user_data.data and user_data.data['role'] == role]. *)
Definition has_role (data : option str) (role : str) : bool :=
  match data with
  | Some r => str_eqb r role
  | None => false
  end.

(** The form of the tab "Annotator Login" (lines 139-163). *)
Definition annotator_login_form (b : Backend) (p : Page) : MA bool :=
  if annotator_login p then
    try_exceptA
      (auth (sign_in_with_password (annotator_email p) (annotator_password p)) ;;
       user <- liftA (sign_in_response b (annotator_email p) (annotator_password p)) ;;
       match user with
       | Some id =>
           data <- liftA (profile_role b id) ;;
           if has_role data (py "annotator") then
             k <- get_keys ;;
             set_keys (mkKeys (Some (Some id)) (Some (Some (py "annotator")))
                              (Some id) (key_user_id k)
                              (key_current_index k) (key_filtered_data k)) ;;
             retA true
           else
             notice no_annotator_privileges ;; retA false
       | None => retA false
       end)
      (fun _ => notice login_failed ;; retA false)
  else retA false.

(** The form of the tab "Admin Login" (lines 165-189). *)
Definition admin_login_form (b : Backend) (p : Page) : MA bool :=
  if admin_login p then
    try_exceptA
      (auth (sign_in_with_password (admin_email p) (admin_password p)) ;;
       user <- liftA (sign_in_response b (admin_email p) (admin_password p)) ;;
       match user with
       | Some id =>
           data <- liftA (profile_role b id) ;;
           if has_role data (py "admin") then
             k <- get_keys ;;
             set_keys (mkKeys (Some (Some id)) (Some (Some (py "admin")))
                              (key_annotator_id k) (Some id)
                              (key_current_index k) (key_filtered_data k)) ;;
             retA true
           else
             notice no_admin_privileges ;; retA false
       | None => retA false
       end)
      (fun _ => notice login_failed ;; retA false)
  else retA false.

Definition login (b : Backend) (p : Page) : MA bool :=
  ok <- annotator_login_form b p ;;
  if ok then retA true else admin_login_form b p.

(** ** Logout (lines 201-204 and 360-363) *)

(** [supabase.auth.sign_out(); st.session_state.clear();
    st.experimental_rerun()]. *)
Definition logout (b : Backend) : MA unit :=
  auth sign_out ;;
  match sign_out_error b with
  | Some e => failA e
  | None => retA tt
  end ;;
  set_keys no_keys ;;
  experimental_rerun.

(** ** [admin_dashboard] (lines 193-279) *)

(** [count if count is not None else 0]. *)
Definition or_zero (count : option nat) : nat :=
  match count with
  | Some n => n
  | None => 0
  end.

(** Lines 256-260: the five columns of the table of recent annotations,
    with [created_at] rendered to the minute; [None] when pandas cannot
    parse a timestamp. *)
Fixpoint recent_rows (b : Backend) (data : list Annotation.t)
  : option (list (str * str * str * str * str)) :=
  match data with
  | [] => Some []
  | r :: data' =>
      match strftime_minutes b (Annotation.created_at r), recent_rows b data' with
      | Some t, Some rows =>
          Some ((Annotation.sentence r, Annotation.target_tense r,
                 Annotation.cefr_level r, Annotation.notes r, t) :: rows)
      | _, _ => None
      end
  end.

Definition admin_dashboard (b : Backend) (p : Page) : MA unit :=
  whenA (admin_logout p) (logout b) ;;
  try_exceptA
    (annotations_count <- liftA (count_annotations b) ;;
     annotators_count <- liftA (count_annotators b) ;;
     notice (statistics (or_zero annotations_count) (or_zero annotators_count)) ;;
     recent <- liftA (recent_annotations b) ;;
     whenA (truthy recent)
       (match recent_rows b recent with
        | Some rows => notice (recent_table rows)
        | None => failA (interface_error ValueError)
        end) ;;
     whenA (export_button p)
       (data <- liftA (all_annotations b) ;;
        whenA (truthy data) (notice (download_button data))))
    (fun _ => notice dashboard_error).

(** ** The annotator branch of [main] (lines 356-550) *)

(** The annotator interface on the keys and the store of the whole
    application. *)
Definition interface (env : Env) (p : Page) : MA unit :=
  id <- get_key key_annotator_id ;;
  i <- get_key key_current_index ;;
  data <- get_key key_filtered_data ;;
  fun a =>
    let r := annotator_interface env (work p)
               (mkState (mkSession id i data) (table a) (sent a) (drawn a)) in
    let s := snd r in
    let k := keys a in
    (match fst r with
     | Ok _ => Done tt
     | Raise e => Failed (interface_error e)
     | Return => Returned
     | Rerun => Reran
     end,
     mkApp (mkKeys (key_user k) (key_user_role k) (key_annotator_id k)
                   (key_user_id k)
                   (Some (current_index (session_state s)))
                   (Some (filtered_data (session_state s))))
           (annotations s) (insert_calls s) (page s)
           (notices a) (auth_calls a)).

(** Lines 542-550, at the end of the block that line 398 guards (the form
    does not change the worklist, so its truth value is the same here):
    [st.progress] takes the quotient [(current_index + 1) / len] and raises
    outside [0, 1]; the texts show the two numbers and what remains. *)
Definition progress : MA unit :=
  data <- get_key key_filtered_data ;;
  match data with
  | Some units =>
      if truthy units then
        i <- get_key key_current_index ;;
        let n := Z.of_nat (length units) in
        if ((0 <=? i + 1) && (i + 1 <=? n))%Z then
          notice (progress_bar (i + 1) n (n - (i + 1)))
        else failA StreamlitAPIException
      else retA tt
  | None => retA tt
  end.

Definition annotator_branch (env : Env) (b : Backend) (p : Page) : MA unit :=
  _ <- get_key key_annotator_id ;;
  whenA (logout_button p) (logout b) ;;
  interface env p ;;
  progress.

(** ** [main] (lines 281-550) *)

Definition main (env : Env) (b : Backend) (p : Page) : MA unit :=
  init_keys ;;
  user <- get_key key_user ;;
  match user with
  | None => login b p ;; register b p ;; return_main
  | Some _ =>
      role <- get_key key_user_role ;;
      if has_role role (py "admin") then admin_dashboard b p
      else annotator_branch env b p
  end.

(** The application before the first run, over a store that holds
    [rows]. *)
Definition fresh_app (rows : list Annotation.t) : App :=
  mkApp no_keys rows [] [] [] [].

(** One run of the whole script: the state it leaves. *)
Definition run_main (a : App) (input : Env * Backend * Page) : App :=
  snd (main (fst (fst input)) (snd (fst input)) (snd input) a).

Definition runs_main (inputs : list (Env * Backend * Page)) (a : App) : App :=
  fold_left run_main inputs a.

(** ** Example accounts *)

Definition example_admin : str := py "admin-1".

(** A service with one annotator account and one admin account. *)
Definition example_backend : Backend :=
  mkBackend
    (fun email password => inr (Some (py "new-user")))
    (fun email password =>
       if str_eqb email (py "ann@example.org") && str_eqb password (py "secret1")
       then inr (Some example_user)
       else if str_eqb email (py "boss@example.org") && str_eqb password (py "secret2")
       then inr (Some example_admin)
       else inl AuthApiError)
    (fun id =>
       if str_eqb id example_user then inr (Some (py "annotator"))
       else if str_eqb id example_admin then inr (Some (py "admin"))
       else inl (interface_error APIError))
    None (inr (Some 3)) (inr None) (inr []) (inr [])
    (fun t => Some (firstn 16 t)).

Definition idle_widgets : Widgets :=
  mkWidgets false [] 200 [] [] false false false.

(** A run in which nothing is clicked. *)
Definition idle_page : Page :=
  mkPage [] [] false [] [] false [] [] [] false false false false idle_widgets.

Definition annotator_login_page (email password : str) : Page :=
  mkPage email password true [] [] false [] [] [] false false false false
         idle_widgets.

Definition admin_login_page (email password : str) : Page :=
  mkPage [] [] false email password true [] [] [] false false false false
         idle_widgets.

Definition register_page (email password confirm : str) : Page :=
  mkPage [] [] false [] [] false email password confirm true false false false
         idle_widgets.

Definition logout_page : Page :=
  mkPage [] [] false [] [] false [] [] [] false true false false idle_widgets.

Definition work_page (w : Widgets) : Page :=
  mkPage [] [] false [] [] false [] [] [] false false false false w.

(** The application after the example annotator signed in. *)
Definition example_signed_in : App :=
  runs_main
    [(example_env, example_backend,
      annotator_login_page (py "ann@example.org") (py "secret1"))]
    (fresh_app []).

(** What a login form leaves unchanged, whatever its answer. *)
Definition login_frame (a a' : App) : Prop :=
  table a' = table a /\ sent a' = sent a /\ drawn a' = drawn a /\
  exists calls,
    auth_calls a' = auth_calls a ++ calls /\
    Forall (fun c => c <> sign_out) calls.

(** ** Notions for the whole script *)

(** The application once [main] has set the keys that were absent. *)
Definition with_init (a : App) : App := snd (init_keys a).

(** The state of the annotator interface that the keys and the store
    describe. *)
Definition interface_state (a : App) (id : str) (i : Z)
    (data : option (list Unit.t)) : State :=
  mkState (mkSession id i data) (table a) (sent a) (drawn a).

(** The application after the annotator interface ended in state [s]. *)
Definition after_interface (a : App) (s : State) : App :=
  mkApp (mkKeys (key_user (keys a)) (key_user_role (keys a))
                (key_annotator_id (keys a)) (key_user_id (keys a))
                (Some (current_index (session_state s)))
                (Some (filtered_data (session_state s))))
        (annotations s) (insert_calls s) (page s) (notices a) (auth_calls a).

(** The cursor, when there is one, is a position of the worklist, when
    there is a non-empty one. *)
Definition keys_cursor_ok (k : Keys) : Prop :=
  forall i u data,
    key_current_index k = Some i ->
    key_filtered_data k = Some (Some (u :: data)) ->
    (0 <= i < Z.of_nat (length (u :: data)))%Z.

(** A signed-in user has the role and the id key of the form it signed in
    through. *)
Definition account_ok (k : Keys) : Prop :=
  forall id,
    key_user k = Some (Some id) ->
    (key_user_role k = Some (Some (py "annotator")) /\ key_annotator_id k = Some id) \/
    (key_user_role k = Some (Some (py "admin")) /\ key_user_id k = Some id).

(** The invariant of the whole script between runs. *)
Definition app_ok (a : App) : Prop :=
  account_ok (keys a) /\ keys_cursor_ok (keys a).

(** [id] signed in as an annotator in one of the runs [inputs]: the
    sign-in answered with that user and the profile had the role. *)
Definition signed_in_annotator (inputs : list (Env * Backend * Page)) (id : str)
  : Prop :=
  exists env b p,
    In (env, b, p) inputs /\ annotator_login p = true /\
    sign_in_response b (annotator_email p) (annotator_password p) = inr (Some id) /\
    profile_role b id = inr (Some (py "annotator")).

(** The application with more notices. *)
Definition with_notices (a : App) (ns : list Notice) : App :=
  mkApp (keys a) (table a) (sent a) (drawn a) (notices a ++ ns) (auth_calls a).

(** The application after a logout that the service accepted. *)
Definition logged_out (a : App) : App :=
  mkApp no_keys (table a) (sent a) (drawn a) (notices a)
        (auth_calls a ++ [sign_out]).

(** How a run of the annotator interface ends for the whole script. *)
Definition outcome_of (r : Result unit) : Outcome unit :=
  match r with
  | Ok _ => Done tt
  | Raise e => Failed (interface_error e)
  | Return => Returned
  | Rerun => Reran
  end.

(** The notice of the progress bar for cursor [i] on [units]. *)
Definition progress_of (i : Z) (units : list Unit.t) : Notice :=
  progress_bar (i + 1) (Z.of_nat (length units))
               (Z.of_nat (length units) - (i + 1)).

(** What the dashboard draws when no logout is asked for (lines 207-279). *)
Definition dashboard_notices (b : Backend) (p : Page) : list Notice :=
  match count_annotations b, count_annotators b with
  | inr n1, inr n2 =>
      statistics (or_zero n1) (or_zero n2) ::
      match recent_annotations b with
      | inl _ => [dashboard_error]
      | inr recent =>
          match (if truthy recent then recent_rows b recent else Some []) with
          | None => [dashboard_error]
          | Some rows =>
              (if truthy recent then [recent_table rows] else []) ++
              (if export_button p then
                 match all_annotations b with
                 | inl _ => [dashboard_error]
                 | inr data => if truthy data then [download_button data] else []
                 end
               else [])
          end
      end
  | _, _ => [dashboard_error]
  end.

Local Close Scope app_scope.

(** * Properties *)

(** ** Whitespace and [strip] *)

Lemma lstrip_split (s : str) :
  exists l, blank l /\ s = l ++ lstrip s.
Proof.
  induction s as [|c s [l [Hl Hs]]]; simpl.
  - exists []. split; reflexivity.
  - destruct (isspace c) eqn:Hc.
    + exists (c :: l). split.
      * unfold blank. simpl. rewrite Hc. exact Hl.
      * simpl. congruence.
    + exists []. split; reflexivity.
Qed.

Lemma blank_rev (s : str) : blank s -> blank (rev s).
Proof.
  unfold blank. rewrite !forallb_forall. intros H c Hc.
  apply H. apply in_rev. exact Hc.
Qed.

Lemma rstrip_split (s : str) :
  exists t, blank t /\ s = rstrip s ++ t.
Proof.
  destruct (lstrip_split (rev s)) as [l [Hl Hs]].
  exists (rev l). split.
  - apply blank_rev. exact Hl.
  - unfold rstrip. rewrite <- rev_app_distr, <- Hs. symmetry. apply rev_involutive.
Qed.

(** What [strip] removes is whitespace on either side. *)
Lemma strip_split (s : str) :
  exists l t, blank l /\ blank t /\ s = l ++ strip s ++ t.
Proof.
  destruct (lstrip_split s) as [l [Hl Hs]].
  destruct (rstrip_split (lstrip s)) as [t [Ht Hr]].
  exists l, t. repeat split; trivial.
  unfold strip. rewrite <- Hr. exact Hs.
Qed.

Lemma lstrip_blank (s : str) : blank s -> lstrip s = [].
Proof.
  unfold blank. induction s as [|c s IH]; simpl; trivial.
  intros H. apply andb_true_iff in H as [Hc Hs]. rewrite Hc. auto.
Qed.

Lemma strip_blank (s : str) : blank s -> strip s = [].
Proof.
  intros H. unfold strip. rewrite (lstrip_blank _ H). reflexivity.
Qed.

Lemma lstrip_starts_clean (s : str) : starts_clean (lstrip s).
Proof.
  induction s as [|c s IH]; simpl; trivial.
  destruct (isspace c) eqn:Hc; simpl; trivial.
Qed.

Lemma lstrip_clean (s : str) : starts_clean s -> lstrip s = s.
Proof.
  destruct s as [|c s]; simpl; trivial. intros ->. reflexivity.
Qed.

Lemma lstrip_snoc (s : str) (c : N) :
  isspace c = false -> lstrip (s ++ [c]) = lstrip s ++ [c].
Proof.
  intros Hc. induction s as [|d s IH]; simpl.
  - rewrite Hc. reflexivity.
  - destruct (isspace d); trivial.
Qed.

Lemma rstrip_starts_clean (s : str) : starts_clean s -> starts_clean (rstrip s).
Proof.
  destruct s as [|c s]; simpl; trivial.
  intros Hc. unfold rstrip. simpl.
  rewrite (lstrip_snoc _ _ Hc), rev_app_distr. simpl. exact Hc.
Qed.

(** [strip] leaves nothing more to strip. *)
Lemma strip_idempotent (s : str) : strip (strip s) = strip s.
Proof.
  unfold strip at 1.
  rewrite (lstrip_clean (strip s)).
  - unfold strip, rstrip. rewrite rev_involutive.
    rewrite (lstrip_clean _ (lstrip_starts_clean _)). reflexivity.
  - unfold strip. apply rstrip_starts_clean, lstrip_starts_clean.
Qed.

Lemma isspace_not_terminal (c : N) : isspace c = true -> is_terminal c = false.
Proof.
  intros H. unfold is_terminal.
  destruct (N.eqb_spec c 46) as [->|_]; [discriminate H|].
  destruct (N.eqb_spec c 33) as [->|_]; [discriminate H|].
  destruct (N.eqb_spec c 63) as [->|_]; [discriminate H|].
  reflexivity.
Qed.

(** ** The segmenter as chunks of the text *)

Lemma snoc_nonempty (current : str) (c : N) :
  (0 <? length (current ++ [c])) = true.
Proof.
  apply Nat.ltb_lt. rewrite length_app. simpl. lia.
Qed.

Lemma segment_loop (text : str) :
  forall sentences current,
    fold_left segment_step text (sentences, current) =
    (sentences ++ map strip (closed_chunks current text), residue current text).
Proof.
  induction text as [|c text IH]; intros sentences current; simpl.
  - rewrite app_nil_r. reflexivity.
  - rewrite snoc_nonempty, andb_true_r.
    destruct (is_terminal c); rewrite IH; simpl; trivial.
    rewrite <- app_assoc. reflexivity.
Qed.

Lemma split_into_sentences_chunks (text : str) :
  split_into_sentences text = map strip (chunks text).
Proof.
  unfold split_into_sentences, chunks.
  rewrite segment_loop. simpl.
  destruct (truthy (residue [] text)); rewrite map_app; simpl; trivial.
  rewrite app_nil_r. reflexivity.
Qed.

Lemma closed_chunks_concat (text : str) :
  forall current,
    concat (closed_chunks current text) ++ residue current text = current ++ text.
Proof.
  induction text as [|c text IH]; intros current; simpl.
  - rewrite app_nil_r. reflexivity.
  - destruct (is_terminal c); simpl.
    + rewrite <- !app_assoc. rewrite IH. reflexivity.
    + rewrite IH, <- app_assoc. reflexivity.
Qed.

Lemma chunks_concat (text : str) : concat (chunks text) = text.
Proof.
  unfold chunks. rewrite concat_app.
  pose proof (closed_chunks_concat text []) as H. simpl in H.
  destruct (residue [] text) as [|c r] eqn:Hr; simpl.
  - rewrite app_nil_r in *. exact H.
  - rewrite app_nil_r. exact H.
Qed.

Lemma strip_chunks_reinsert (l : list str) :
  exists pads,
    length pads = length l /\ Forall blank_pad pads /\
    reinsert pads (map strip l) = concat l.
Proof.
  induction l as [|s l [pads [Hlen [Hb Hr]]]].
  - exists []. repeat split. constructor.
  - destruct (strip_split s) as [a [b [Ha [Hb' Hs]]]].
    exists ((a, b) :: pads). repeat split.
    + simpl. congruence.
    + constructor; [split; assumption | assumption].
    + unfold reinsert in *. simpl. rewrite Hr.
      rewrite Hs at 2. rewrite <- !app_assoc. reflexivity.
Qed.

Lemma closed_chunks_no_terminal (text : str) :
  forallb (fun c => negb (is_terminal c)) text = true ->
  forall current,
    closed_chunks current text = [] /\ residue current text = current ++ text.
Proof.
  induction text as [|c text IH]; simpl; intros H current.
  - rewrite app_nil_r. split; reflexivity.
  - apply andb_true_iff in H as [Hc H].
    apply negb_true_iff in Hc. rewrite Hc.
    destruct (IH H (current ++ [c])) as [-> ->].
    rewrite <- app_assoc. split; reflexivity.
Qed.

Lemma blank_no_terminal (ws : str) :
  blank ws -> forallb (fun c => negb (is_terminal c)) ws = true.
Proof.
  unfold blank. rewrite !forallb_forall. intros H c Hc.
  rewrite (isspace_not_terminal _ (H c Hc)). reflexivity.
Qed.

Lemma closed_chunks_app (a b : str) :
  forall current,
    closed_chunks current (a ++ b) =
    closed_chunks current a ++ closed_chunks (residue current a) b.
Proof.
  induction a as [|c a IH]; intros current; simpl; trivial.
  destruct (is_terminal c); simpl; rewrite IH; reflexivity.
Qed.

Lemma residue_app (a b : str) :
  forall current,
    residue current (a ++ b) = residue (residue current a) b.
Proof.
  induction a as [|c a IH]; intros current; simpl; trivial.
  destruct (is_terminal c); apply IH.
Qed.

Lemma residue_terminal (a : str) (p : N) :
  is_terminal p = true -> forall current, residue current (a ++ [p]) = [].
Proof.
  intros Hp current. rewrite residue_app. simpl. rewrite Hp. reflexivity.
Qed.

(** ** Worklist construction *)

Lemma append_units_app (row : Row.t) (acc : list Unit.t) :
  append_units acc row = acc ++ units_of_row row.
Proof.
  unfold append_units, units_of_row.
  generalize (enumerate (split_into_sentences (Row.text_corrected row))).
  intros l. revert acc.
  induction l as [|[idx sentence] l IH]; intros acc; simpl.
  - rewrite app_nil_r. reflexivity.
  - rewrite IH, <- app_assoc. reflexivity.
Qed.

Lemma processed_data_from (filtered_df : DataFrame) (acc : list Unit.t) :
  fold_left append_units filtered_df acc = acc ++ flat_map units_of_row filtered_df.
Proof.
  revert acc. induction filtered_df as [|row df IH]; intros acc; simpl.
  - rewrite app_nil_r. reflexivity.
  - rewrite IH, append_units_app, <- app_assoc. reflexivity.
Qed.

Lemma processed_data_flat_map (filtered_df : DataFrame) :
  processed_data filtered_df = flat_map units_of_row filtered_df.
Proof.
  unfold processed_data. rewrite processed_data_from. reflexivity.
Qed.

Lemma enumerate_fst {A} (l : list A) : map fst (enumerate l) = seq 0 (length l).
Proof.
  unfold enumerate. generalize 0.
  induction l as [|a l IH]; intros n; simpl; trivial.
  rewrite IH. reflexivity.
Qed.

Lemma enumerate_snd {A} (l : list A) : map snd (enumerate l) = l.
Proof.
  unfold enumerate. generalize 0.
  induction l as [|a l IH]; intros n; simpl; trivial.
  rewrite IH. reflexivity.
Qed.

Lemma enumerate_length {A} (l : list A) : length (enumerate l) = length l.
Proof.
  rewrite <- (length_map snd), enumerate_snd. reflexivity.
Qed.

Lemma units_of_row_sentences (row : Row.t) :
  map Unit.sentence (units_of_row row) =
  split_into_sentences (Row.text_corrected row).
Proof.
  unfold units_of_row. rewrite map_map. simpl. apply enumerate_snd.
Qed.

Lemma units_of_row_indices (row : Row.t) :
  map Unit.sentence_index (units_of_row row) = seq 0 (segment_count row).
Proof.
  unfold units_of_row. rewrite map_map. simpl. apply enumerate_fst.
Qed.

Lemma units_of_row_length (row : Row.t) :
  length (units_of_row row) = segment_count row.
Proof.
  unfold units_of_row. rewrite length_map. apply enumerate_length.
Qed.

Lemma units_of_row_parent (row : Row.t) (u : Unit.t) :
  In u (units_of_row row) ->
  Unit.text_corrected u = Row.text_corrected row /\
  Unit.cefr u = Row.cefr row /\
  Unit.learner_id u = Row.learner_id row.
Proof.
  unfold units_of_row. rewrite in_map_iff.
  intros [p [<- _]]. simpl. repeat split.
Qed.

Lemma flat_map_length_sum {A B} (f : A -> list B) (l : list A) :
  length (flat_map f l) = list_sum (map (fun a => length (f a)) l).
Proof.
  induction l as [|a l IH]; simpl; trivial.
  rewrite length_app, IH. reflexivity.
Qed.

(** C8. The worklist is the concatenation, in row order, of the units of
    each sampled row; a row with [k] sentences gives exactly [k] units, whose
    sentences are the segmenter's output in order and whose [sentence_index]
    runs over [0 .. k-1], each carrying the row's text, level and learner;
    the worklist length is the sum of the rows' sentence counts, so rows
    with the same sentences are all kept. *)
Theorem worklist_units_in_order (filtered_df : DataFrame) :
  processed_data filtered_df = flat_map units_of_row filtered_df /\
  (forall row,
      length (units_of_row row) = segment_count row /\
      map Unit.sentence (units_of_row row) =
        split_into_sentences (Row.text_corrected row) /\
      map Unit.sentence_index (units_of_row row) = seq 0 (segment_count row) /\
      append_units [] row = units_of_row row /\
      forall u, In u (units_of_row row) ->
        Unit.text_corrected u = Row.text_corrected row /\
        Unit.cefr u = Row.cefr row /\
        Unit.learner_id u = Row.learner_id row) /\
  length (processed_data filtered_df) = list_sum (map segment_count filtered_df) /\
  (forall row, processed_data [row; row] = units_of_row row ++ units_of_row row).
Proof.
  split; [apply processed_data_flat_map|].
  split.
  - intros row. split; [apply units_of_row_length|].
    split; [apply units_of_row_sentences|].
    split; [apply units_of_row_indices|].
    split; [apply append_units_app|].
    apply units_of_row_parent.
  - split.
    + rewrite processed_data_flat_map, flat_map_length_sum.
      f_equal. apply map_ext. intros row. apply units_of_row_length.
    + intros row. rewrite processed_data_flat_map. simpl.
      rewrite app_nil_r. reflexivity.
Qed.

(** ** Segmentation *)

Lemma split_no_terminal (text : str) :
  text <> [] ->
  forallb (fun c => negb (is_terminal c)) text = true ->
  split_into_sentences text = [strip text].
Proof.
  intros Hne H. rewrite split_into_sentences_chunks. unfold chunks.
  destruct (closed_chunks_no_terminal text H []) as [-> ->]. simpl.
  destruct text; [contradiction|reflexivity].
Qed.

Lemma split_sentences_stripped (text : str) :
  Forall (fun sentence => strip sentence = sentence) (split_into_sentences text).
Proof.
  rewrite split_into_sentences_chunks. apply Forall_forall.
  intros s Hs. apply in_map_iff in Hs as [chunk [<- _]].
  apply strip_idempotent.
Qed.

Lemma split_nonempty (text : str) :
  text <> [] -> split_into_sentences text <> [].
Proof.
  intros Hne Hnil. rewrite split_into_sentences_chunks in Hnil.
  apply map_eq_nil in Hnil.
  pose proof (chunks_concat text) as Hc. rewrite Hnil in Hc.
  apply Hne. symmetry. exact Hc.
Qed.

(** C6. The sentences of a text, each with the whitespace that [strip]
    removed put back before and after it, concatenate to the text (the
    sentences themselves carry no whitespace at either end); a non-empty
    text without [.], [!] or [?] gives exactly one sentence, and any
    non-empty text at least one; and ["I go. He ran!"] gives ["I go."] and
    ["He ran!"]. *)
Theorem segmentation_reconstructs_text (text : str) :
  (exists pads : list (str * str),
      length pads = length (split_into_sentences text) /\
      Forall blank_pad pads /\
      reinsert pads (split_into_sentences text) = text) /\
  Forall (fun sentence => strip sentence = sentence) (split_into_sentences text) /\
  (text <> [] ->
   forallb (fun c => negb (is_terminal c)) text = true ->
   length (split_into_sentences text) = 1) /\
  (text <> [] -> split_into_sentences text <> []) /\
  split_into_sentences (py "I go. He ran!") = [py "I go."; py "He ran!"].
Proof.
  split; [|split; [apply split_sentences_stripped|split; [|split]]].
  - destruct (strip_chunks_reinsert (chunks text)) as [pads [Hlen [Hb Hr]]].
    exists pads. rewrite split_into_sentences_chunks, length_map.
    rewrite chunks_concat in Hr. auto.
  - intros Hne H. rewrite (split_no_terminal text Hne H). reflexivity.
  - apply split_nonempty.
  - vm_compute. reflexivity.
Qed.

(** The one-sentence case of C6 at the text ["no stop here "]. *)
Lemma segmentation_reconstructs_text_witness :
  length (split_into_sentences (py "no stop here ")) = 1.
Proof.
  apply (proj1 (proj2 (proj2 (segmentation_reconstructs_text (py "no stop here "))))).
  - discriminate.
  - vm_compute. reflexivity.
Defined.

Lemma split_trailing_blank (pre ws : str) (p : N) :
  is_terminal p = true -> ws <> [] -> blank ws ->
  split_into_sentences (pre ++ [p] ++ ws) =
  split_into_sentences (pre ++ [p]) ++ [[]].
Proof.
  intros Hp Hne Hws.
  rewrite !split_into_sentences_chunks. unfold chunks.
  replace (pre ++ [p] ++ ws) with ((pre ++ [p]) ++ ws)
    by (rewrite <- app_assoc; reflexivity).
  rewrite (closed_chunks_app (pre ++ [p]) ws), (residue_app (pre ++ [p]) ws).
  rewrite (residue_terminal pre p Hp).
  destruct (closed_chunks_no_terminal ws (blank_no_terminal ws Hws) []) as [-> ->].
  simpl. rewrite !app_nil_r.
  destruct ws as [|c ws]; [contradiction|]. simpl truthy. cbv iota.
  rewrite map_app. simpl. rewrite (strip_blank _ Hws). reflexivity.
Qed.

(** C10. When the last terminal character of a text is followed by one or
    more whitespace characters and nothing else, the last sentence the
    segmenter emits is the empty string, and every worklist built from rows
    that include such a text has a unit of that text whose sentence is
    empty; ["Hi. "] gives ["Hi."] and [""]. *)
Theorem trailing_whitespace_gives_empty_sentence (pre ws : str) (p : N) :
  is_terminal p = true -> ws <> [] -> blank ws ->
  let text := pre ++ [p] ++ ws in
  (exists sentences, split_into_sentences text = sentences ++ [[]]) /\
  (forall row before after,
      Row.text_corrected row = text ->
      exists u, In u (processed_data (before ++ row :: after)) /\
                Unit.sentence u = [] /\ Unit.text_corrected u = text) /\
  split_into_sentences (py "Hi. ") = [py "Hi."; []].
Proof.
  intros Hp Hne Hws text.
  pose proof (split_trailing_blank pre ws p Hp Hne Hws) as Hsplit.
  fold text in Hsplit.
  split; [eexists; exact Hsplit|]. split; [|vm_compute; reflexivity].
  intros row before after Hrow.
  assert (Hin : In [] (map Unit.sentence (units_of_row row))).
  { rewrite units_of_row_sentences, Hrow, Hsplit.
    apply in_or_app. right. left. reflexivity. }
  apply in_map_iff in Hin as [u [Hs Hu]].
  exists u. split; [|split; trivial].
  - rewrite processed_data_flat_map. apply in_flat_map.
    exists row. split; trivial. apply in_or_app. right. left. reflexivity.
  - rewrite <- Hrow. apply (units_of_row_parent row u Hu).
Qed.

(** C10 at the text ["Hi. "] of a one-row sample. *)
Lemma trailing_whitespace_gives_empty_sentence_witness :
  (exists sentences, split_into_sentences (py "Hi. ") = sentences ++ [[]]) /\
  exists u, In u (processed_data [Row.mk (py "Hi. ") (py "B1") (py "L1")]) /\
            Unit.sentence u = [] /\ Unit.text_corrected u = py "Hi. ".
Proof.
  assert (Hp : is_terminal 46 = true) by reflexivity.
  assert (Hne : py " " <> []) by discriminate.
  assert (Hws : blank (py " ")) by reflexivity.
  pose proof (trailing_whitespace_gives_empty_sentence (py "Hi") (py " ") 46 Hp Hne Hws)
    as [H1 [H2 _]].
  split; [exact H1|].
  exact (H2 (Row.mk (py "Hi. ") (py "B1") (py "L1")) [] [] eq_refl).
Defined.

(** ** Sampling *)

Lemma str_eqb_eq (a b : str) : str_eqb a b = true <-> a = b.
Proof.
  unfold str_eqb. destruct (str_eq_dec a b); split; congruence.
Qed.

Lemma select_level_exact (df : DataFrame) (cefr_level : str) (row : Row.t) :
  In row (select_level df cefr_level) <->
  In row df /\ Row.cefr row = cefr_level.
Proof.
  unfold select_level. rewrite filter_In, str_eqb_eq. reflexivity.
Qed.

Lemma level_count_le (df : DataFrame) (cefr_level : str) :
  level_count df cefr_level <= length df.
Proof.
  unfold level_count, select_level. apply filter_length_le.
Qed.

Lemma take_total (frame : DataFrame) (indices : list nat) :
  Forall (fun i => i < length frame) indices ->
  exists rows,
    take frame indices = Some rows /\
    length rows = length indices /\
    Forall (fun row => In row frame) rows.
Proof.
  induction indices as [|i rest IH]; intros H; simpl.
  - exists []. repeat split. constructor.
  - inversion H as [|? ? Hi Hrest]; subst.
    destruct (IH Hrest) as [rows [-> [Hlen Hin]]].
    destruct (nth_error frame i) as [row|] eqn:Hnth.
    + exists (row :: rows). repeat split.
      * simpl. congruence.
      * constructor; [eapply nth_error_In; eassumption | assumption].
    + apply nth_error_None in Hnth. lia.
Qed.

Lemma shuffle_prefix (permutation : RandomState) (m n : nat) :
  shuffles permutation ->
  NoDup (firstn n (permutation m)) /\
  Forall (fun i => i < m) (firstn n (permutation m)) /\
  length (firstn n (permutation m)) = Nat.min n m.
Proof.
  intros H. specialize (H m).
  assert (Hnd : NoDup (permutation m)).
  { apply (Permutation_NoDup (Permutation_sym H)). apply seq_NoDup. }
  assert (Hlt : Forall (fun i => i < m) (permutation m)).
  { apply Forall_forall. intros i Hi.
    apply (Permutation_in _ H) in Hi. apply in_seq in Hi. lia. }
  repeat split.
  - rewrite <- (firstn_skipn n (permutation m)) in Hnd.
    apply NoDup_app_remove_r in Hnd. exact Hnd.
  - apply Forall_forall. intros i Hi.
    rewrite Forall_forall in Hlt. apply Hlt.
    rewrite <- (firstn_skipn n (permutation m)). apply in_or_app. left. exact Hi.
  - rewrite length_firstn, (Permutation_length H), length_seq. reflexivity.
Qed.

(** The sampler raises exactly when the clamped size still exceeds the rows
    at the level. *)
Lemma sampler_raises (permutation : RandomState) (df : DataFrame)
    (cefr_level : str) (sample_size : nat) :
  level_count df cefr_level < Nat.min sample_size (length df) ->
  sampler permutation df cefr_level sample_size = inl ValueError.
Proof.
  intros H. unfold sampler, sample. fold (level_count df cefr_level).
  apply Nat.ltb_lt in H. rewrite H. reflexivity.
Qed.

(** Within the population the sampler returns as many rows as asked, all at
    the requested level, drawn at different positions of the level's rows. *)
Lemma sampler_returns (permutation : RandomState) (df : DataFrame)
    (cefr_level : str) (sample_size : nat) :
  shuffles permutation ->
  Nat.min sample_size (length df) <= level_count df cefr_level ->
  exists rows,
    sampler permutation df cefr_level sample_size = inr rows /\
    length rows = Nat.min sample_size (level_count df cefr_level) /\
    Forall (fun row => In row df /\ Row.cefr row = cefr_level) rows /\
    drawn_from (select_level df cefr_level) rows.
Proof.
  intros Hperm Hle. unfold sampler, sample.
  fold (level_count df cefr_level).
  set (n := Nat.min sample_size (length df)) in *.
  set (m := level_count df cefr_level) in *.
  assert (Hlt : (m <? n) = false) by (apply Nat.ltb_ge; exact Hle).
  rewrite Hlt.
  destruct (shuffle_prefix permutation m n Hperm) as [Hnd [Hrange Hlen]].
  destruct (take_total (select_level df cefr_level) _ Hrange)
    as [rows [Htake [Hrows Hin]]].
  rewrite Htake. exists rows. repeat split.
  - rewrite Hrows, Hlen.
    pose proof (level_count_le df cefr_level). fold m in H. subst n. lia.
  - apply Forall_forall. intros row Hrow.
    rewrite Forall_forall in Hin. apply select_level_exact, Hin, Hrow.
  - exists (firstn n (permutation m)). split; assumption.
Qed.

(** C1 at a corpus of one [A1] row and one [B1] row, asked for two [A1]
    rows: one row is at the level, the size is clamped to the two rows of
    the whole corpus, and the draw raises [ValueError] instead of returning
    the one row. *)
Theorem sampler_clamps_to_corpus_size (permutation : RandomState) :
  let df := [ Row.mk (py "I go.") (py "A1") (py "L1");
              Row.mk (py "He ran!") (py "B1") (py "L2") ] in
  level_count df (py "A1") = 1 /\
  Nat.min 2 (level_count df (py "A1")) = 1 /\
  sampler permutation df (py "A1") 2 = inl ValueError.
Proof.
  intros df. split; [reflexivity|]. split; [reflexivity|].
  apply sampler_raises. vm_compute. lia.
Qed.

(** ** The blocks of the interface *)

Lemma state_eta (s : State) :
  mkState (mkSession (annotator_id (session_state s))
                     (current_index (session_state s))
                     (filtered_data (session_state s)))
          (annotations s) (insert_calls s) (page s) = s.
Proof. destruct s as [[uid i fd] t c p]. reflexivity. Qed.

Lemma save_annotation_run (env : Env) (text : str) (sentence_index : nat)
    (tense cefr_level user_id notes original_text learner_id : str) (s : State) :
  let data := Annotation.mk user_id text tense notes cefr_level original_text
                            learner_id (now_isoformat env) in
  save_annotation env text sentence_index tense cefr_level user_id notes
                  original_text learner_id s =
  (Ok (store_accepts env data), with_insert env s data).
Proof.
  intros data. unfold save_annotation, try_except, bind, insert_execute, with_insert.
  fold data. destruct (store_accepts env data); reflexivity.
Qed.

Lemma sidebar_idle (env : Env) (w : Widgets) (s : State) :
  load_button w = false -> sidebar env w s = (Ok tt, s).
Proof. intros H. unfold sidebar. rewrite H. reflexivity. Qed.

Lemma sidebar_loads (env : Env) (w : Widgets) (s : State)
    (df rows : DataFrame) :
  load_button w = true -> truthy (cefr_level w) = true ->
  sampled_data_csv env = Some df ->
  sampler (permutation env) df (cefr_level w) (sample_size w) = inr rows ->
  sidebar env w s = (Ok tt, with_worklist s (processed_data rows)).
Proof.
  intros Hb Hl Hcsv Hs. unfold sidebar, load_data. rewrite Hb, Hl, Hcsv.
  unfold when, bind, ret, lift. simpl. rewrite Hs. reflexivity.
Qed.

Lemma sidebar_raises (env : Env) (w : Widgets) (s : State)
    (df : DataFrame) (e : Exception) :
  load_button w = true -> truthy (cefr_level w) = true ->
  sampled_data_csv env = Some df ->
  sampler (permutation env) df (cefr_level w) (sample_size w) = inl e ->
  sidebar env w s = (Raise e, s).
Proof.
  intros Hb Hl Hcsv Hs. unfold sidebar, load_data. rewrite Hb, Hl, Hcsv.
  unfold when, bind, ret, lift. simpl. rewrite Hs. reflexivity.
Qed.

(** Whatever the sidebar does, it sends nothing to the store, and it leaves
    the session as it was or installs a worklist with the cursor at 0. *)
Lemma sidebar_effect (env : Env) (w : Widgets) (s : State) :
  let s' := snd (sidebar env w s) in
  annotations s' = annotations s /\ insert_calls s' = insert_calls s /\
  (session_state s' = session_state s \/
   exists data, session_state s' =
                mkSession (annotator_id (session_state s)) 0 (Some data)).
Proof.
  unfold sidebar, load_data.
  destruct (load_button w); [|simpl; auto].
  destruct (truthy (cefr_level w)); [|simpl; auto].
  destruct (sampled_data_csv env) as [df|]; [|simpl; auto].
  unfold when, bind, ret, lift. simpl.
  destruct (sampler _ _ _ _) as [e|rows]; simpl; eauto.
Qed.

Lemma getitem_in_range {A} (l : list A) (i : Z) (a : A) (s : State) :
  (0 <= i < Z.of_nat (length l))%Z ->
  nth_error l (Z.to_nat i) = Some a ->
  getitem l i s = (Ok a, s).
Proof.
  intros Hi Hnth. unfold getitem.
  destruct (Z.ltb_spec i 0); [lia|].
  destruct (Z.leb_spec 0 i); [|lia].
  destruct (Z.ltb_spec i (Z.of_nat (length l))); [|lia].
  simpl. rewrite Hnth. reflexivity.
Qed.

Lemma getitem_state {A} (l : list A) (i : Z) (s : State) :
  snd (getitem l i s) = s.
Proof.
  unfold getitem.
  destruct (_ && _); [destruct (nth_error _ _)|]; reflexivity.
Qed.

Lemma in_range_item (ss : Session) (data : list Unit.t) :
  in_range ss data ->
  exists item, nth_error data (Z.to_nat (current_index ss)) = Some item.
Proof.
  intros [_ Hi].
  destruct (nth_error data (Z.to_nat (current_index ss))) as [item|] eqn:Hnth.
  - eauto.
  - apply nth_error_None in Hnth. lia.
Qed.

Lemma in_range_loaded (ss : Session) (data : list Unit.t) :
  in_range ss data -> loaded (filtered_data ss) = true.
Proof.
  intros [Hd Hi]. rewrite Hd. destruct data; simpl in *; [lia|reflexivity].
Qed.

Lemma go_next_run (w : Widgets) (s : State) (data : list Unit.t) :
  filtered_data (session_state s) = Some data ->
  let i := current_index (session_state s) in
  go_next w s =
  if next_button w && (i <? Z.of_nat (length data) - 1)%Z
  then (Rerun, with_index s (i + 1)) else (Ok tt, s).
Proof.
  intros Hd i. unfold go_next, bind, get_session, len.
  destruct (next_button w); simpl; trivial.
  rewrite Hd. unfold ret. fold i.
  destruct (i <? Z.of_nat (length data) - 1)%Z; reflexivity.
Qed.

Lemma go_previous_run (w : Widgets) (s : State) :
  let i := current_index (session_state s) in
  go_previous w s =
  if prev_button w && (i >? 0)%Z
  then (Rerun, with_index s (i - 1)) else (Ok tt, s).
Proof.
  intros i. unfold go_previous, bind, get_session.
  destruct (prev_button w); simpl; trivial.
  fold i. destruct (i >? 0)%Z; reflexivity.
Qed.

Lemma save_selected_invalid (env : Env) (w : Widgets) (item : Unit.t) (s : State) :
  save_selected env w item [] s = (Ok tt, with_messages s [error_select_valid_tense]).
Proof. reflexivity. Qed.

Lemma save_selected_valid (env : Env) (w : Widgets) (item : Unit.t)
    (tense : str) (s : State) :
  truthy tense = true -> startswith dashes tense = false ->
  let data := record_of env (annotator_id (session_state s)) item tense (notes w) in
  save_selected env w item tense s =
  (Ok tt,
   if store_accepts env data
   then with_messages (with_insert env s data) [success_annotation_saved]
   else with_insert env s data).
Proof.
  intros Ht Hd data. unfold save_selected. rewrite Ht, Hd. simpl.
  unfold bind, get_session. rewrite save_annotation_run.
  fold (record_of env (annotator_id (session_state s)) item tense (notes w)).
  fold data. unfold with_insert, with_messages.
  destruct (store_accepts env data) eqn:Ha; simpl; reflexivity.
Qed.

Lemma skip_header_invalid (selected : str) :
  selected = [] \/ startswith dashes selected = true ->
  skip_header selected = [].
Proof.
  unfold skip_header. intros [->|H]; [reflexivity|].
  rewrite H. destruct selected; reflexivity.
Qed.

Lemma skip_header_valid (selected : str) :
  truthy selected = true -> startswith dashes selected = false ->
  skip_header selected = selected.
Proof.
  unfold skip_header. intros _ ->. rewrite andb_false_r. reflexivity.
Qed.

Lemma category_header_dashes (category : str) :
  startswith dashes (category_header category) = true.
Proof. reflexivity. Qed.

Lemma main_content_unloaded (env : Env) (w : Widgets) (s : State) :
  loaded (filtered_data (session_state s)) = false ->
  main_content env w s = (Ok tt, s).
Proof.
  intros H. unfold main_content, bind, get_session. rewrite H. reflexivity.
Qed.

(** The form on a state whose cursor is on [item]. *)
Lemma main_content_run (env : Env) (w : Widgets) (s : State)
    (data : list Unit.t) (item : Unit.t) :
  in_range (session_state s) data ->
  nth_error data (Z.to_nat (current_index (session_state s))) = Some item ->
  let selected := skip_header (selected_tense w) in
  let s1 := if truthy selected then s else with_messages s [warning_select_tense] in
  main_content env w s =
  if save_button w || next_button w || prev_button w then
    (save_selected env w item selected ;; go_next w ;; go_previous w) s1
  else (Ok tt, s1).
Proof.
  intros Hr Hnth selected s1.
  unfold main_content, bind at 1, get_session.
  rewrite (in_range_loaded _ _ Hr). unfold when at 1.
  unfold bind at 1, current_item, bind at 1, get_session.
  destruct Hr as [Hd Hi]. rewrite Hd.
  rewrite (getitem_in_range data _ item s Hi Hnth).
  fold selected. unfold bind at 1, when at 1. subst s1.
  destruct (truthy selected); simpl;
    destruct (save_button w || next_button w || prev_button w); reflexivity.
Qed.

(** Saving never raises and never touches the session. *)
Lemma save_selected_ok (env : Env) (w : Widgets) (item : Unit.t)
    (tense : str) (s : State) :
  exists s', save_selected env w item tense s = (Ok tt, s') /\
             session_state s' = session_state s.
Proof.
  unfold save_selected.
  destruct (truthy tense && negb (startswith dashes tense)).
  - unfold bind, get_session. rewrite save_annotation_run.
    unfold with_insert.
    destruct (store_accepts env _); eexists; split; reflexivity.
  - eexists. split; reflexivity.
Qed.

(** Navigation sends nothing to the store and draws nothing. *)
Lemma go_next_store (w : Widgets) (s : State) :
  let s' := snd (go_next w s) in
  annotations s' = annotations s /\ insert_calls s' = insert_calls s /\
  page s' = page s.
Proof.
  unfold go_next, bind, get_session, len.
  destruct (next_button w); simpl; auto.
  destruct (filtered_data (session_state s)); simpl; auto.
  destruct (_ <? _)%Z; simpl; auto.
Qed.

Lemma go_previous_store (w : Widgets) (s : State) :
  let s' := snd (go_previous w s) in
  annotations s' = annotations s /\ insert_calls s' = insert_calls s /\
  page s' = page s.
Proof.
  unfold go_previous, bind, get_session.
  destruct (prev_button w); simpl; auto.
  destruct (_ >? _)%Z; simpl; auto.
Qed.

Lemma navigation_store (w : Widgets) (s : State) :
  let s' := snd ((go_next w ;; go_previous w) s) in
  annotations s' = annotations s /\ insert_calls s' = insert_calls s /\
  page s' = page s.
Proof.
  pose proof (go_next_store w s) as Hn. unfold bind.
  destruct (go_next w s) as [[[]| | |] s1]; simpl in *; trivial.
  pose proof (go_previous_store w s1) as [Ha [Hc Hp]].
  destruct Hn as [Ha' [Hc' Hp']]. repeat split; congruence.
Qed.

(** Where the cursor goes when a button of the form is pressed. *)
Lemma navigation_cursor (w : Widgets) (s : State) (data : list Unit.t) :
  filtered_data (session_state s) = Some data ->
  let i := current_index (session_state s) in
  let n := Z.of_nat (length data) in
  (go_next w ;; go_previous w) s =
  if next_button w && (i <? n - 1)%Z then (Rerun, with_index s (i + 1))
  else if prev_button w && (i >? 0)%Z then (Rerun, with_index s (i - 1))
  else (Ok tt, s).
Proof.
  intros Hd i n. unfold bind. rewrite (go_next_run w s data Hd). fold i n.
  destruct (next_button w && (i <? n - 1)%Z); trivial.
  apply go_previous_run.
Qed.

(** A submitted form on a state whose cursor is on [item]: the save step
    ends in some state [s2] with the session untouched, and navigation then
    moves the cursor. *)
Lemma form_run (env : Env) (w : Widgets) (s : State)
    (data : list Unit.t) (item : Unit.t) :
  in_range (session_state s) data ->
  nth_error data (Z.to_nat (current_index (session_state s))) = Some item ->
  load_button w = false -> submitted w = true ->
  let i := current_index (session_state s) in
  let n := Z.of_nat (length data) in
  exists s2,
    save_selected env w item (skip_header (selected_tense w)) (warned w s)
      = (Ok tt, s2) /\
    session_state s2 = session_state s /\
    annotator_interface env w s =
      (if moves w i n then Rerun else Ok tt,
       with_index s2 (cursor_after w i n)).
Proof.
  intros Hr Hnth Hload Hsub i n.
  destruct (save_selected_ok env w item (skip_header (selected_tense w)) (warned w s))
    as [s2 [Hsave Hss]].
  assert (Hw : session_state (warned w s) = session_state s).
  { unfold warned. destruct (truthy _); reflexivity. }
  exists s2. split; [exact Hsave|]. split; [congruence|].
  unfold annotator_interface, bind at 1. rewrite (sidebar_idle env w s Hload).
  rewrite (main_content_run env w s data item Hr Hnth).
  fold (submitted w). rewrite Hsub. fold (warned w s).
  unfold bind at 1. rewrite Hsave.
  assert (Hd : filtered_data (session_state s2) = Some data).
  { rewrite Hss, Hw. apply Hr. }
  rewrite (navigation_cursor w s2 data Hd).
  rewrite Hss, Hw. fold i n. unfold moves, cursor_after.
  destruct (next_button w && (i <? n - 1)%Z); [reflexivity|].
  destruct (prev_button w && (i >? 0)%Z); [reflexivity|].
  simpl. f_equal. unfold with_index.
  rewrite <- (state_eta s2) at 1. f_equal. f_equal. subst i. congruence.
Qed.

(** ** The cursor invariant *)

Lemma cursor_ok_session (s s' : State) :
  session_state s' = session_state s -> cursor_ok s -> cursor_ok s'.
Proof. unfold cursor_ok. intros ->. trivial. Qed.

Lemma sidebar_cursor_ok (env : Env) (w : Widgets) (s : State) :
  cursor_ok s -> cursor_ok (snd (sidebar env w s)).
Proof.
  intros H. destruct (sidebar_effect env w s) as [_ [_ [Hs|[data Hs]]]].
  - exact (cursor_ok_session s _ Hs H).
  - unfold cursor_ok. rewrite Hs. simpl.
    destruct data; [trivial|]. simpl length. lia.
Qed.

Lemma main_content_cursor_ok (env : Env) (w : Widgets) (s : State) :
  cursor_ok s -> cursor_ok (snd (main_content env w s)).
Proof.
  intros H.
  destruct (loaded (filtered_data (session_state s))) eqn:Hl.
  2:{ rewrite (main_content_unloaded env w s Hl). exact H. }
  destruct (filtered_data (session_state s)) as [[|u data]|] eqn:Hd;
    try discriminate Hl.
  assert (Hr : in_range (session_state s) (u :: data)).
  { split; [exact Hd|]. unfold cursor_ok in H. rewrite Hd in H. exact H. }
  destruct (in_range_item _ _ Hr) as [item Hnth].
  rewrite (main_content_run env w s (u :: data) item Hr Hnth).
  fold (submitted w). fold (warned w s).
  assert (Hw : session_state (warned w s) = session_state s).
  { unfold warned. destruct (truthy _); reflexivity. }
  destruct (submitted w).
  2:{ exact (cursor_ok_session s _ Hw H). }
  destruct (save_selected_ok env w item (skip_header (selected_tense w)) (warned w s))
    as [s2 [Hsave Hss]].
  unfold bind at 1. rewrite Hsave.
  assert (Hd2 : filtered_data (session_state s2) = Some (u :: data)) by congruence.
  rewrite (navigation_cursor w s2 (u :: data) Hd2).
  assert (Hi : current_index (session_state s2) = current_index (session_state s))
    by congruence.
  destruct Hr as [_ Hrange]. rewrite Hi.
  set (i := current_index (session_state s)) in *.
  set (n := Z.of_nat (length (u :: data))) in *.
  destruct (next_button w && (i <? n - 1)%Z) eqn:Hn.
  { apply andb_true_iff in Hn as [_ Hn]. apply Z.ltb_lt in Hn.
    unfold cursor_ok, with_index.
    cbn [snd session_state filtered_data current_index].
    rewrite Hd2. fold n. lia. }
  destruct (prev_button w && (i >? 0)%Z) eqn:Hp.
  { apply andb_true_iff in Hp as [_ Hp]. apply Z.gtb_lt in Hp.
    unfold cursor_ok, with_index.
    cbn [snd session_state filtered_data current_index].
    rewrite Hd2. fold n. lia. }
  simpl. apply (cursor_ok_session s); [congruence | exact H].
Qed.

Lemma run_cursor_ok (s : State) (input : Env * Widgets) :
  cursor_ok s -> cursor_ok (run s input).
Proof.
  intros H. unfold run, annotator_interface, bind.
  pose proof (sidebar_cursor_ok (fst input) (snd input) s H) as Hs.
  destruct (sidebar (fst input) (snd input) s) as [[[]| | |] s1]; simpl in *; trivial.
  apply main_content_cursor_ok. exact Hs.
Qed.

Lemma runs_cursor_ok (inputs : list (Env * Widgets)) (s : State) :
  cursor_ok s -> cursor_ok (runs inputs s).
Proof.
  revert s. induction inputs as [|input inputs IH]; intros s H; simpl; trivial.
  apply IH, run_cursor_ok, H.
Qed.

(** ** Navigation *)

Lemma submitted_next (w : Widgets) : next_button w = true -> submitted w = true.
Proof. unfold submitted. intros ->. destruct (save_button w); reflexivity. Qed.

Lemma submitted_prev (w : Widgets) : prev_button w = true -> submitted w = true.
Proof.
  unfold submitted. intros ->.
  destruct (save_button w), (next_button w); reflexivity.
Qed.

(** "Next" on a cursor in range: one step forward, or nothing at the end. *)
Lemma next_button_run (env : Env) (w : Widgets) (s : State) (data : list Unit.t) :
  in_range (session_state s) data ->
  load_button w = false -> next_button w = true -> prev_button w = false ->
  let i := current_index (session_state s) in
  let n := Z.of_nat (length data) in
  let r := annotator_interface env w s in
  current_index (session_state (snd r)) = Z.min (i + 1) (n - 1) /\
  filtered_data (session_state (snd r)) = Some data /\
  fst r = (if (i <? n - 1)%Z then Rerun else Ok tt).
Proof.
  intros Hr Hload Hnext Hprev i n r.
  destruct (in_range_item _ _ Hr) as [item Hnth].
  destruct (form_run env w s data item Hr Hnth Hload (submitted_next w Hnext))
    as [s2 [_ [Hss Hrun]]].
  subst r. rewrite Hrun. fold i n.
  unfold moves, cursor_after. rewrite Hnext, Hprev. simpl.
  destruct Hr as [Hd Hi]. fold i n in Hi.
  rewrite Hss, Hd, orb_false_r.
  repeat split.
  destruct (Z.ltb_spec i (n - 1)); lia.
Qed.

(** "Previous" on a cursor in range: one step back, or nothing at 0. *)
Lemma prev_button_run (env : Env) (w : Widgets) (s : State) (data : list Unit.t) :
  in_range (session_state s) data ->
  load_button w = false -> prev_button w = true -> next_button w = false ->
  let i := current_index (session_state s) in
  let r := annotator_interface env w s in
  current_index (session_state (snd r)) = Z.max (i - 1) 0 /\
  filtered_data (session_state (snd r)) = Some data /\
  fst r = (if (i >? 0)%Z then Rerun else Ok tt).
Proof.
  intros Hr Hload Hprev Hnext i r.
  destruct (in_range_item _ _ Hr) as [item Hnth].
  destruct (form_run env w s data item Hr Hnth Hload (submitted_prev w Hprev))
    as [s2 [_ [Hss Hrun]]].
  subst r. rewrite Hrun. fold i.
  unfold moves, cursor_after. rewrite Hnext, Hprev. simpl.
  destruct Hr as [Hd Hi]. fold i in Hi.
  rewrite Hss, Hd.
  repeat split.
  destruct (Z.gtb_spec i 0); lia.
Qed.

(** Without "Next" or "Previous" the form leaves the session as it is. *)
Lemma main_content_session (env : Env) (w : Widgets) (s : State) :
  next_button w = false -> prev_button w = false ->
  session_state (snd (main_content env w s)) = session_state s.
Proof.
  intros Hnext Hprev. unfold main_content, bind at 1, get_session.
  destruct (loaded (filtered_data (session_state s))); [|reflexivity].
  unfold when at 1, bind at 1, current_item, bind at 1, get_session.
  destruct (filtered_data (session_state s)) as [data|]; [|reflexivity].
  pose proof (getitem_state data (current_index (session_state s)) s) as Hg.
  destruct (getitem data (current_index (session_state s)) s) as [[item| | |] s0];
    simpl in Hg; subst s0; try reflexivity.
  fold (warned w s).
  assert (Hw : session_state (warned w s) = session_state s).
  { unfold warned. destruct (truthy _); reflexivity. }
  unfold bind at 1, when at 1.
  assert (Hdraw : forall b : bool,
             (if b then draw warning_select_tense else ret tt) s
             = (Ok tt, if b then with_messages s [warning_select_tense] else s)).
  { intros []; reflexivity. }
  rewrite Hdraw. unfold when.
  replace (if negb (truthy (skip_header (selected_tense w)))
           then with_messages s [warning_select_tense] else s)
    with (warned w s)
    by (unfold warned; destruct (truthy _); reflexivity).
  destruct (save_button w || next_button w || prev_button w); [|exact Hw].
  destruct (save_selected_ok env w item (skip_header (selected_tense w)) (warned w s))
    as [s2 [Hsave Hss]].
  unfold bind at 1. rewrite Hsave.
  unfold bind, go_next, go_previous. rewrite Hnext, Hprev. simpl. congruence.
Qed.

(** A load that draws its sample: the worklist is replaced and the cursor
    is at 0 when the run ends. *)
Lemma load_button_run (env : Env) (w : Widgets) (s : State) (df rows : DataFrame) :
  load_button w = true -> next_button w = false -> prev_button w = false ->
  truthy (cefr_level w) = true -> sampled_data_csv env = Some df ->
  sampler (permutation env) df (cefr_level w) (sample_size w) = inr rows ->
  session_state (snd (annotator_interface env w s)) =
  mkSession (annotator_id (session_state s)) 0 (Some (processed_data rows)).
Proof.
  intros Hload Hnext Hprev Hl Hcsv Hs.
  unfold annotator_interface, bind.
  rewrite (sidebar_loads env w s df rows Hload Hl Hcsv Hs).
  rewrite (main_content_session env w _ Hnext Hprev). reflexivity.
Qed.

(** C7. In every state the annotator interface can reach, a non-empty
    worklist of length [n] has its cursor [i] with [0 <= i < n]; from there
    "Next" leaves the cursor at [min (i+1) (n-1)] and "Previous" at
    [max (i-1) 0], without an exception and without touching the worklist
    (the run ends normally when the cursor stays, and with [st.rerun()] when
    it moves); and a load that draws its sample leaves the cursor at 0. *)
Theorem navigator_cursor_in_range (user_id : str) (table : list Annotation.t)
    (inputs : list (Env * Widgets)) :
  let s := runs inputs (initial_state user_id table) in
  let i := current_index (session_state s) in
  cursor_ok s /\
  (forall data,
      filtered_data (session_state s) = Some data -> data <> [] ->
      let n := Z.of_nat (length data) in
      (0 <= i < n)%Z /\
      (forall env w,
          load_button w = false -> next_button w = true -> prev_button w = false ->
          let r := annotator_interface env w s in
          current_index (session_state (snd r)) = Z.min (i + 1) (n - 1) /\
          filtered_data (session_state (snd r)) = Some data /\
          fst r = (if (i <? n - 1)%Z then Rerun else Ok tt)) /\
      (forall env w,
          load_button w = false -> prev_button w = true -> next_button w = false ->
          let r := annotator_interface env w s in
          current_index (session_state (snd r)) = Z.max (i - 1) 0 /\
          filtered_data (session_state (snd r)) = Some data /\
          fst r = (if (i >? 0)%Z then Rerun else Ok tt))) /\
  (forall env w df rows,
      load_button w = true -> next_button w = false -> prev_button w = false ->
      truthy (cefr_level w) = true -> sampled_data_csv env = Some df ->
      sampler (permutation env) df (cefr_level w) (sample_size w) = inr rows ->
      let s' := snd (annotator_interface env w s) in
      current_index (session_state s') = 0%Z /\
      filtered_data (session_state s') = Some (processed_data rows)).
Proof.
  intros s i.
  assert (Hok : cursor_ok s).
  { apply runs_cursor_ok. exact I. }
  split; [exact Hok|]. split.
  - intros data Hd Hne n.
    assert (Hr : in_range (session_state s) data).
    { split; [exact Hd|]. unfold cursor_ok in Hok. rewrite Hd in Hok.
      destruct data; [contradiction|exact Hok]. }
    split; [apply Hr|]. split.
    + intros env w Hload Hnext Hprev.
      exact (next_button_run env w s data Hr Hload Hnext Hprev).
    + intros env w Hload Hprev Hnext.
      exact (prev_button_run env w s data Hr Hload Hprev Hnext).
  - intros env w df rows Hload Hnext Hprev Hl Hcsv Hs s'. subst s'.
    rewrite (load_button_run env w s df rows Hload Hnext Hprev Hl Hcsv Hs).
    split; reflexivity.
Qed.

(** C7 on the example corpus: after the load the cursor is 0 of 2, and
    "Next" puts it at 1. *)
Lemma navigator_cursor_in_range_witness :
  current_index
    (session_state
       (snd (annotator_interface example_env (next_click []) example_loaded)))
  = 1%Z.
Proof.
  destruct (navigator_cursor_in_range example_user []
              [(example_env, load_click (py "B1"))]) as [_ [H _]].
  destruct (H (processed_data example_corpus)) as [_ [Hnext _]].
  - vm_compute. reflexivity.
  - vm_compute. discriminate.
  - exact (proj1 (Hnext example_env (next_click []) eq_refl eq_refl eq_refl)).
Defined.

(** ** Persistence *)

(** The main content on any state: nothing when no worklist is shown, an
    exception with the state untouched when the cursor is off the list, and
    otherwise the form on the current item. *)
Lemma main_content_cases (env : Env) (w : Widgets) (s : State) :
  main_content env w s = (Ok tt, s) \/
  (exists e, main_content env w s = (Raise e, s)) \/
  (exists item,
      main_content env w s =
      if submitted w then
        (save_selected env w item (skip_header (selected_tense w)) ;;
         go_next w ;; go_previous w) (warned w s)
      else (Ok tt, warned w s)).
Proof.
  remember (main_content env w s) as r eqn:Hr.
  unfold main_content, bind at 1, get_session in Hr.
  destruct (loaded (filtered_data (session_state s))); [|left; exact Hr].
  unfold when at 1, bind at 1, current_item, bind at 1, get_session in Hr.
  destruct (filtered_data (session_state s)) as [data|];
    [|right; left; eexists; exact Hr].
  unfold getitem in Hr.
  destruct (_ && _)%Z; [|right; left; eexists; exact Hr].
  destruct (nth_error data _) as [item|]; [|right; left; eexists; exact Hr].
  right. right. exists item. rewrite Hr.
  unfold ret, bind at 1, when at 1, warned.
  fold (submitted w).
  destruct (truthy (skip_header (selected_tense w))); simpl;
    destruct (submitted w); reflexivity.
Qed.

Lemma warned_store (w : Widgets) (s : State) :
  annotations (warned w s) = annotations s /\
  insert_calls (warned w s) = insert_calls s.
Proof. unfold warned. destruct (truthy _); split; reflexivity. Qed.

(** With nothing valid selected, the main content sends nothing to the
    store, whatever the state. *)
Lemma main_content_invalid_store (env : Env) (w : Widgets) (s : State) :
  skip_header (selected_tense w) = [] ->
  let s' := snd (main_content env w s) in
  annotations s' = annotations s /\ insert_calls s' = insert_calls s.
Proof.
  intros Hsel.
  destruct (main_content_cases env w s) as [->|[[e ->]|[item ->]]];
    [split; reflexivity|split; reflexivity|].
  destruct (submitted w); [|apply warned_store].
  rewrite Hsel. unfold bind at 1. rewrite save_selected_invalid.
  pose proof (navigation_store w (with_messages (warned w s) [error_select_valid_tense]))
    as [Ha [Hc _]].
  destruct (warned_store w s) as [Ha' Hc'].
  cbv zeta. rewrite Ha, Hc. simpl. split; assumption.
Qed.

(** C4. When the selection is empty or a category header, a run of the
    annotator interface sends no insert to the store and leaves the table as
    it was, whatever the state and the buttons; and when a form button is
    pressed on a loaded worklist, the page gets the warning and then the
    error "Please select a valid tense before saving.", which is how the
    rejection for an invalid tense is reported. *)
Theorem invalid_tense_is_rejected (env : Env) (w : Widgets) (s : State) :
  selected_tense w = [] \/
  (exists category, selected_tense w = category_header category) ->
  let s' := snd (annotator_interface env w s) in
  insert_calls s' = insert_calls s /\
  annotations s' = annotations s /\
  (forall data,
      in_range (session_state s) data ->
      load_button w = false -> submitted w = true ->
      page s' = page s ++ [warning_select_tense; error_select_valid_tense]).
Proof.
  intros Hsel s'.
  assert (Hskip : skip_header (selected_tense w) = []).
  { apply skip_header_invalid. destruct Hsel as [H|[category H]]; [left; exact H|].
    right. rewrite H. apply category_header_dashes. }
  assert (Hstore : annotations s' = annotations s /\ insert_calls s' = insert_calls s).
  { subst s'. unfold annotator_interface, bind.
    destruct (sidebar_effect env w s) as [Ha [Hc _]].
    destruct (sidebar env w s) as [[[]| | |] s1]; simpl in *; auto.
    destruct (main_content_invalid_store env w s1 Hskip) as [Ha1 Hc1].
    split; congruence. }
  split; [apply Hstore|]. split; [apply Hstore|].
  intros data Hr Hload Hsub.
  destruct (in_range_item _ _ Hr) as [item Hnth].
  destruct (form_run env w s data item Hr Hnth Hload Hsub) as [s2 [Hsave [_ Hrun]]].
  subst s'. rewrite Hrun. simpl.
  rewrite Hskip, save_selected_invalid in Hsave.
  injection Hsave as <-. unfold warned. rewrite Hskip. simpl.
  rewrite <- app_assoc. reflexivity.
Qed.

(** C4 on the loaded example, "Save" pressed with the header of the first
    category selected: no insert, and the rejection on the page (after the
    two messages of the run that loaded the data). *)
Lemma invalid_tense_is_rejected_witness :
  insert_calls
    (snd (annotator_interface example_env
            (save_click (category_header (py "Simple Forms")) [])
            example_loaded)) = [] /\
  page
    (snd (annotator_interface example_env
            (save_click (category_header (py "Simple Forms")) [])
            example_loaded))
  = [success_data_loaded; warning_select_tense;
     warning_select_tense; error_select_valid_tense].
Proof.
  assert (Hsel : selected_tense (save_click (category_header (py "Simple Forms")) []) = [] \/
                 exists category,
                   selected_tense (save_click (category_header (py "Simple Forms")) [])
                   = category_header category).
  { right. exists (py "Simple Forms"). reflexivity. }
  destruct (invalid_tense_is_rejected example_env
              (save_click (category_header (py "Simple Forms")) [])
              example_loaded Hsel) as [Hcalls [_ Hpage]].
  split; [exact Hcalls|].
  rewrite (Hpage (processed_data example_corpus)).
  - reflexivity.
  - split; [vm_compute; reflexivity|].
    vm_compute. split; [intros H; discriminate H|reflexivity].
  - reflexivity.
  - reflexivity.
Defined.

(** What the select box offers: the empty choice, the header of a category,
    or a label of [TENSE_OPTIONS]. *)
Lemma tense_options_cases (selected : str) :
  In selected tense_options ->
  selected = [] \/
  (exists category,
      In category (map fst TENSE_CATEGORIES) /\
      selected = category_header category) \/
  In selected TENSE_OPTIONS.
Proof.
  intros Hin.
  assert (Hall : tense_options =
                 [] :: flat_map (fun c => category_header (fst c) :: snd c)
                                TENSE_CATEGORIES)
    by (vm_compute; reflexivity).
  rewrite Hall in Hin. destruct Hin as [<-|Hin]; [left; reflexivity|right].
  apply in_flat_map in Hin as [[category tenses] [Hc [<-|Ht]]].
  - left. exists category. split; [|reflexivity].
    apply in_map_iff. exists (category, tenses). split; trivial.
  - right. unfold TENSE_OPTIONS. apply in_flat_map.
    exists (category, tenses). split; assumption.
Qed.

(** Every label of [TENSE_OPTIONS] passes the check of the form. *)
Lemma tense_options_valid (tense : str) :
  In tense TENSE_OPTIONS ->
  truthy tense = true /\ startswith dashes tense = false.
Proof.
  assert (H : forallb (fun t => truthy t && negb (startswith dashes t))
                      TENSE_OPTIONS = true) by (vm_compute; reflexivity).
  rewrite forallb_forall in H. intros Hin.
  apply H in Hin. apply andb_true_iff in Hin as [Ht Hd].
  apply negb_true_iff in Hd. split; assumption.
Qed.

(** C5. A form submitted with a valid tense (non-empty, not a header; every
    label of [TENSE_OPTIONS] is one) on the current item sends exactly one
    insert to the store, whether the store takes it or not; the record has
    the annotator, the item's sentence, the selected tense, the notes, the
    item's level, text and learner, and the clock's reading as
    [created_at]; the table grows by that record when the store takes it and
    stays as it was otherwise, with the failure drawn on the page. The same
    holds of every call of [save_annotation]: one insert, of the record made
    of the arguments, and the store's answer returned. *)
Theorem valid_tense_inserts_once (env : Env) (w : Widgets) (s : State)
    (data : list Unit.t) (item : Unit.t) :
  truthy (selected_tense w) = true ->
  startswith dashes (selected_tense w) = false ->
  in_range (session_state s) data ->
  nth_error data (Z.to_nat (current_index (session_state s))) = Some item ->
  load_button w = false -> submitted w = true ->
  let record :=
    Annotation.mk (annotator_id (session_state s)) (Unit.sentence item)
                  (selected_tense w) (notes w) (Unit.cefr item)
                  (Unit.text_corrected item) (Unit.learner_id item)
                  (now_isoformat env) in
  let s' := snd (annotator_interface env w s) in
  insert_calls s' = insert_calls s ++ [record] /\
  annotations s' =
    (if store_accepts env record then annotations s ++ [record]
     else annotations s) /\
  page s' =
    page s ++ [if store_accepts env record then success_annotation_saved
               else error_saving_annotation] /\
  (forall text sentence_index tense cefr_level user_id notes original_text
          learner_id s0,
      let data0 := Annotation.mk user_id text tense notes cefr_level
                                 original_text learner_id (now_isoformat env) in
      let r := save_annotation env text sentence_index tense cefr_level user_id
                               notes original_text learner_id s0 in
      fst r = Ok (store_accepts env data0) /\
      insert_calls (snd r) = insert_calls s0 ++ [data0] /\
      annotations (snd r) =
        (if store_accepts env data0 then annotations s0 ++ [data0]
         else annotations s0) /\
      session_state (snd r) = session_state s0).
Proof.
  intros Ht Hd Hr Hnth Hload Hsub record s'.
  destruct (form_run env w s data item Hr Hnth Hload Hsub) as [s2 [Hsave [_ Hrun]]].
  rewrite (skip_header_valid _ Ht Hd) in Hsave.
  assert (Hw : warned w s = s).
  { unfold warned. rewrite (skip_header_valid _ Ht Hd), Ht. reflexivity. }
  rewrite Hw, (save_selected_valid env w item _ s Ht Hd) in Hsave.
  fold (record_of env (annotator_id (session_state s)) item (selected_tense w) (notes w))
    in record.
  fold record in Hsave. injection Hsave as <-.
  subst s'. rewrite Hrun. unfold with_insert, with_messages.
  split; [|split; [|split]].
  - destruct (store_accepts env record); reflexivity.
  - destruct (store_accepts env record); reflexivity.
  - destruct (store_accepts env record); reflexivity.
  - intros. rewrite save_annotation_run. unfold with_insert. cbv zeta.
    match goal with
    | |- context [store_accepts env ?d] => destruct (store_accepts env d)
    end; repeat split.
Qed.

(** C5 on the loaded example: "Save" with [Past Simple] selected sends the
    one record of the first sentence. *)
Lemma valid_tense_inserts_once_witness :
  insert_calls
    (snd (annotator_interface example_env
            (save_click (py "Past Simple") (py "irregular"))
            example_loaded))
  = [ Annotation.mk example_user (py "I go.") (py "Past Simple") (py "irregular")
                    (py "B1") (py "I go. He ran!") (py "L1")
                    (py "2024-05-01T10:00:00") ].
Proof.
  assert (Hin : In (py "Past Simple") TENSE_OPTIONS) by (vm_compute; tauto).
  destruct (tense_options_valid _ Hin) as [Ht Hd].
  assert (Hr : in_range (session_state example_loaded) (processed_data example_corpus)).
  { split; [vm_compute; reflexivity|].
    vm_compute. split; [intros H; discriminate H|reflexivity]. }
  assert (Hnth : nth_error (processed_data example_corpus)
                   (Z.to_nat (current_index (session_state example_loaded)))
                 = Some (Unit.mk (py "I go. He ran!") (py "I go.") 0 (py "B1") (py "L1")))
    by (vm_compute; reflexivity).
  exact (proj1 (valid_tense_inserts_once example_env
                  (save_click (py "Past Simple") (py "irregular"))
                  example_loaded _ _ Ht Hd Hr Hnth eq_refl eq_refl)).
Defined.

(** C9. Two calls of [save_annotation] that differ in [sentence_index] only
    end alike: the same answer, the same state of table, insert log and
    page, and the same record sent, in which no field holds the index. *)
Theorem sentence_index_is_not_persisted (env : Env) (text : str)
    (index index' : nat)
    (tense cefr_level user_id notes original_text learner_id : str) (s : State) :
  let data := Annotation.mk user_id text tense notes cefr_level original_text
                            learner_id (now_isoformat env) in
  save_annotation env text index tense cefr_level user_id notes
                  original_text learner_id s =
  save_annotation env text index' tense cefr_level user_id notes
                  original_text learner_id s /\
  insert_calls
    (snd (save_annotation env text index tense cefr_level user_id notes
                          original_text learner_id s))
  = insert_calls s ++ [data] /\
  insert_calls
    (snd (save_annotation env text index' tense cefr_level user_id notes
                          original_text learner_id s))
  = insert_calls s ++ [data].
Proof.
  intros data. rewrite !save_annotation_run. fold data.
  split; [reflexivity|].
  unfold with_insert. destruct (store_accepts env data); split; reflexivity.
Qed.

(** ** Loads that find nothing *)

(** C2 fails on a header-only corpus file: no row is at level [B1], and the
    sampler returns the empty sample instead of failing. *)
Lemma empty_corpus_sample_returns :
  level_count [] (py "B1") = 0 /\
  sampler identity_shuffle [] (py "B1") 200 = inr [] /\
  fst (annotator_interface empty_corpus_env (load_click (py "B1"))
         (initial_state example_user [])) = Ok tt.
Proof. repeat split. Qed.

(** On the present code a corpus with rows, none of them at the level,
    makes the sampler raise: the size is clamped to the whole corpus. *)
Lemma sampler_without_match_raises (permutation : RandomState) (df : DataFrame)
    (cefr_level : str) (sample_size : nat) :
  level_count df cefr_level = 0 -> df <> [] -> 1 <= sample_size ->
  sampler permutation df cefr_level sample_size = inl ValueError.
Proof.
  intros Hcount Hne Hsize. apply sampler_raises. rewrite Hcount.
  destruct df; [contradiction|]. simpl length. lia.
Qed.

(** A sample drawn where no row is at the level has no row. *)
Lemma sampler_without_match_empty (permutation : RandomState) (df : DataFrame)
    (cefr_level : str) (sample_size : nat) (rows : DataFrame) :
  level_count df cefr_level = 0 ->
  sampler permutation df cefr_level sample_size = inr rows -> rows = [].
Proof.
  unfold level_count, sampler, sample. intros Hcount.
  destruct (select_level df cefr_level); [|discriminate Hcount].
  simpl length.
  destruct (Nat.min sample_size (length df)); simpl; [|discriminate].
  intros H. injection H as <-. reflexivity.
Qed.

(** C2, amended. When no row of the corpus is at the requested level, the
    load has no error of its own and no handler: if the sampler raises, the
    run ends with that exception, nothing is drawn and the state, worklist
    and cursor included, is as before the click; if the sampler returns, the
    sample is empty and the load goes on to install the empty worklist. *)
Theorem load_without_match (env : Env) (w : Widgets) (s : State)
    (df : DataFrame) :
  load_button w = true -> truthy (cefr_level w) = true ->
  sampled_data_csv env = Some df ->
  level_count df (cefr_level w) = 0 ->
  match sampler (permutation env) df (cefr_level w) (sample_size w) with
  | inl e => annotator_interface env w s = (Raise e, s)
  | inr rows =>
      rows = [] /\ annotator_interface env w s = (Ok tt, with_worklist s [])
  end.
Proof.
  intros Hload Hl Hcsv Hcount.
  destruct (sampler (permutation env) df (cefr_level w) (sample_size w))
    as [e|rows] eqn:Hs.
  - unfold annotator_interface, bind.
    rewrite (sidebar_raises env w s df e Hload Hl Hcsv Hs). reflexivity.
  - pose proof (sampler_without_match_empty _ _ _ _ _ Hcount Hs) as ->.
    split; [reflexivity|].
    unfold annotator_interface, bind.
    rewrite (sidebar_loads env w s df [] Hload Hl Hcsv Hs).
    apply main_content_unloaded. reflexivity.
Qed.

(** C2, amended, on the example corpus (one [B1] row) asked for [A1]: the
    sampler raises and the loaded state stays. *)
Lemma load_without_match_witness :
  annotator_interface example_env (load_click (py "A1")) example_loaded
  = (Raise ValueError, example_loaded).
Proof.
  exact (load_without_match example_env (load_click (py "A1")) example_loaded
           example_corpus eq_refl eq_refl eq_refl eq_refl).
Defined.

(** C3 fails on a header-only corpus file: the load is not rejected, the
    empty list becomes the session's worklist and success is drawn. *)
Lemma empty_worklist_load_succeeds :
  annotator_interface empty_corpus_env (load_click (py "B1"))
    (initial_state example_user [])
  = (Ok tt,
     mkState (mkSession example_user 0 (Some [])) [] [] [success_data_loaded]).
Proof. reflexivity. Qed.

(** C3, amended. A load whose sample has no sentence is not rejected: the
    empty list is installed as the worklist with the cursor at 0 and success
    is drawn. The interface then shows no main content, as before any load:
    every later run without a load click ends normally and changes
    nothing. *)
Theorem empty_worklist_is_installed (env : Env) (w : Widgets) (s : State)
    (df rows : DataFrame) :
  load_button w = true -> truthy (cefr_level w) = true ->
  sampled_data_csv env = Some df ->
  sampler (permutation env) df (cefr_level w) (sample_size w) = inr rows ->
  processed_data rows = [] ->
  let s' := snd (annotator_interface env w s) in
  annotator_interface env w s = (Ok tt, with_worklist s []) /\
  filtered_data (session_state s') = Some [] /\
  current_index (session_state s') = 0%Z /\
  page s' = page s ++ [success_data_loaded] /\
  loaded (filtered_data (session_state s')) = false /\
  (forall env' w',
      load_button w' = false ->
      annotator_interface env' w' s' = (Ok tt, s')).
Proof.
  intros Hload Hl Hcsv Hs Hnil s'.
  assert (Hrun : annotator_interface env w s = (Ok tt, with_worklist s [])).
  { unfold annotator_interface, bind.
    rewrite (sidebar_loads env w s df rows Hload Hl Hcsv Hs), Hnil.
    apply main_content_unloaded. reflexivity. }
  subst s'. rewrite Hrun. repeat split.
  intros env' w' Hidle. unfold annotator_interface, bind.
  rewrite (sidebar_idle env' w' _ Hidle).
  apply main_content_unloaded. reflexivity.
Qed.

(** C3, amended, on a header-only corpus file. *)
Lemma empty_worklist_is_installed_witness :
  filtered_data
    (session_state
       (snd (annotator_interface empty_corpus_env (load_click (py "B1"))
               (initial_state example_user [])))) = Some [] /\
  annotator_interface example_env (next_click [])
    (snd (annotator_interface empty_corpus_env (load_click (py "B1"))
            (initial_state example_user [])))
  = (Ok tt,
     snd (annotator_interface empty_corpus_env (load_click (py "B1"))
            (initial_state example_user []))).
Proof.
  destruct (empty_worklist_is_installed empty_corpus_env (load_click (py "B1"))
              (initial_state example_user []) [] []
              eq_refl eq_refl eq_refl eq_refl eq_refl) as [_ [Hd [_ [_ [_ Hidle]]]]].
  split; [exact Hd|].
  exact (Hidle example_env (next_click []) eq_refl).
Defined.

(** ** The sampler and the whole flow on examples *)

Lemma identity_shuffle_shuffles : shuffles identity_shuffle.
Proof. intros m. apply Permutation_refl. Qed.

(** Asked for 200 rows of the one-row example corpus, the sampler returns
    that row. *)
Example sampler_example :
  sampler identity_shuffle example_corpus (py "B1") 200 = inr example_corpus.
Proof. vm_compute. reflexivity. Qed.

(** Three rows of 2, 1 and 3 sentences give a worklist of 6 units; five
    "Next" reach position 5 and a sixth stays there. *)
Example scenario_run :
  length (processed_data scenario_corpus) = 6 /\
  map scenario_cursor [0; 1; 2; 3; 4; 5; 6] = [0; 1; 2; 3; 4; 5; 5]%Z.
Proof. split; vm_compute; reflexivity. Qed.

(** * Further properties of the code *)

(** ** The shape of the segmenter's output *)

Lemma closed_chunks_length (text : str) :
  forall current, length (closed_chunks current text) = count_terminal text.
Proof.
  unfold count_terminal.
  induction text as [|c text IH]; intros current; simpl; trivial.
  destruct (is_terminal c); simpl; rewrite IH; reflexivity.
Qed.

Lemma residue_snoc (text : str) (c : N) :
  forall current,
    residue current (text ++ [c]) =
    if is_terminal c then [] else residue current text ++ [c].
Proof.
  intros current. rewrite residue_app. simpl.
  destruct (is_terminal c); reflexivity.
Qed.

Lemma residue_open_ended (text : str) :
  truthy (residue [] text) = open_ended text.
Proof.
  unfold open_ended.
  destruct (rev text) as [|c r] eqn:Hrev.
  - apply (f_equal (@rev N)) in Hrev. rewrite rev_involutive in Hrev.
    subst text. reflexivity.
  - apply (f_equal (@rev N)) in Hrev. rewrite rev_involutive in Hrev.
    subst text. simpl rev. rewrite residue_snoc.
    destruct (is_terminal c); simpl; trivial.
    destruct (residue [] (rev r)); reflexivity.
Qed.

Lemma plain_app (a b : str) : plain (a ++ b) <-> plain a /\ plain b.
Proof. unfold plain. rewrite forallb_app, andb_true_iff. reflexivity. Qed.

Lemma residue_plain (text : str) :
  forall current, plain current -> plain (residue current text).
Proof.
  induction text as [|c text IH]; intros current Hc; simpl; trivial.
  destruct (is_terminal c) eqn:Ht.
  - apply IH. reflexivity.
  - apply IH. apply plain_app. split; trivial.
    unfold plain. simpl. rewrite Ht. reflexivity.
Qed.

(** Every closed buffer is a run without terminal characters followed by
    one terminal character. *)
Lemma closed_chunks_shape (text : str) :
  forall current, plain current ->
    Forall (fun chunk => exists body p,
                chunk = body ++ [p] /\ is_terminal p = true /\ plain body)
           (closed_chunks current text).
Proof.
  induction text as [|c text IH]; intros current Hc; simpl.
  - constructor.
  - destruct (is_terminal c) eqn:Ht.
    + constructor.
      * exists current, c. repeat split; trivial.
      * apply IH. reflexivity.
    + apply IH. apply plain_app. split; trivial.
      unfold plain. simpl. rewrite Ht. reflexivity.
Qed.

Lemma terminal_not_space (p : N) : is_terminal p = true -> isspace p = false.
Proof.
  intros Hp. destruct (isspace p) eqn:Hs; trivial.
  rewrite (isspace_not_terminal p Hs) in Hp. discriminate.
Qed.

Lemma rstrip_snoc (s : str) (p : N) :
  isspace p = false -> rstrip (s ++ [p]) = s ++ [p].
Proof.
  intros Hp. unfold rstrip. rewrite rev_app_distr. simpl. rewrite Hp.
  simpl. rewrite rev_involutive. reflexivity.
Qed.

(** Stripping a buffer that ends in a non-blank character only removes
    leading whitespace. *)
Lemma strip_snoc (s : str) (p : N) :
  isspace p = false -> strip (s ++ [p]) = lstrip s ++ [p].
Proof.
  intros Hp. unfold strip. rewrite (lstrip_snoc s p Hp).
  apply rstrip_snoc. exact Hp.
Qed.

Lemma lstrip_plain (s : str) : plain s -> plain (lstrip s).
Proof.
  destruct (lstrip_split s) as [l [_ Hs]]. intros H.
  rewrite Hs in H. apply plain_app in H. apply H.
Qed.

Lemma rstrip_plain (s : str) : plain s -> plain (rstrip s).
Proof.
  destruct (rstrip_split s) as [t [_ Hs]]. intros H.
  rewrite Hs in H. apply plain_app in H. apply H.
Qed.

Lemma strip_plain (s : str) : plain s -> plain (strip s).
Proof. intros H. apply rstrip_plain, lstrip_plain, H. Qed.

Lemma closed_sentences (text : str) :
  Forall closed_sentence (map strip (closed_chunks [] text)).
Proof.
  apply Forall_forall. intros s Hs.
  apply in_map_iff in Hs as [chunk [<- Hin]].
  pose proof (closed_chunks_shape text [] eq_refl) as Hshape.
  rewrite Forall_forall in Hshape.
  destruct (Hshape chunk Hin) as [body [p [-> [Hp Hb]]]].
  exists (lstrip body), p. repeat split; trivial.
  - apply strip_snoc, terminal_not_space, Hp.
  - apply lstrip_plain, Hb.
  - apply lstrip_starts_clean.
Qed.

Lemma closed_sentence_nonempty (s : str) : closed_sentence s -> s <> [].
Proof.
  intros [body [p [-> _]]]. destruct body; discriminate.
Qed.

(** X1. The segmenter closes one sentence at every [.], [!] and [?],
    whatever surrounds it (an abbreviation, a decimal point, a run of
    marks), and adds one more exactly when the text is not empty and does
    not end in such a character. *)
Theorem sentence_count (text : str) :
  length (split_into_sentences text) =
  count_terminal text + (if open_ended text then 1 else 0).
Proof.
  rewrite split_into_sentences_chunks, length_map. unfold chunks.
  rewrite length_app, closed_chunks_length, residue_open_ended.
  destruct (open_ended text); reflexivity.
Qed.


Lemma sentence_cases (text : str) (s : str) :
  In s (split_into_sentences text) ->
  closed_sentence s \/ (plain s /\ strip s = s).
Proof.
  rewrite split_into_sentences_chunks. unfold chunks. rewrite map_app.
  intros Hin. apply in_app_or in Hin as [Hin|Hin].
  - left. pose proof (closed_sentences text) as H.
    rewrite Forall_forall in H. apply H, Hin.
  - right. destruct (truthy (residue [] text)); [|contradiction].
    destruct Hin as [<-|[]]. split.
    + apply strip_plain, residue_plain. reflexivity.
    + apply strip_idempotent.
Qed.

Lemma split_closed_sentence (body : str) (p : N) :
  is_terminal p = true -> plain body -> starts_clean body ->
  split_into_sentences (body ++ [p]) = [body ++ [p]].
Proof.
  intros Hp Hb Hc. rewrite split_into_sentences_chunks. unfold chunks.
  rewrite closed_chunks_app, (residue_terminal body p Hp).
  destruct (closed_chunks_no_terminal body Hb []) as [-> ->].
  simpl. rewrite Hp. simpl.
  rewrite (strip_snoc body p (terminal_not_space p Hp)), (lstrip_clean body Hc).
  reflexivity.
Qed.

(** X3. A sentence of the output, unless it is empty, is a fixed point of
    the segmenter: segmenting it again gives that one sentence back. *)
Theorem sentences_are_stable (text sentence : str) :
  In sentence (split_into_sentences text) -> sentence <> [] ->
  split_into_sentences sentence = [sentence].
Proof.
  intros Hin Hne.
  destruct (sentence_cases text sentence Hin) as [[body [p [-> [Hp [Hb Hc]]]]]|[Hp Hs]].
  - apply split_closed_sentence; assumption.
  - rewrite (split_no_terminal sentence Hne Hp), Hs. reflexivity.
Qed.

(** X3 at the second sentence of ["I go. He ran!"]. *)
Lemma sentences_are_stable_witness :
  split_into_sentences (py "He ran!") = [py "He ran!"].
Proof.
  apply (sentences_are_stable (py "I go. He ran!")).
  - right. left. reflexivity.
  - discriminate.
Defined.

(** X4. Segmentation splits at every terminal character: the sentences of
    a text cut after a [.], [!] or [?] are the sentences of the part up to
    the cut followed by the sentences of the part after it. *)
Theorem segmentation_composes (before after : str) (p : N) :
  is_terminal p = true ->
  split_into_sentences (before ++ [p] ++ after) =
  split_into_sentences (before ++ [p]) ++ split_into_sentences after.
Proof.
  intros Hp. rewrite !split_into_sentences_chunks. unfold chunks.
  replace (before ++ [p] ++ after) with ((before ++ [p]) ++ after)
    by (rewrite <- app_assoc; reflexivity).
  rewrite (closed_chunks_app (before ++ [p]) after).
  rewrite (residue_app (before ++ [p]) after).
  rewrite (residue_terminal before p Hp). simpl truthy. cbv iota.
  rewrite app_nil_r, !map_app, app_assoc. reflexivity.
Qed.

(** X4 at ["Mr. Smith came."], cut after the abbreviation. *)
Lemma segmentation_composes_witness :
  split_into_sentences (py "Mr. Smith came.") =
  split_into_sentences (py "Mr.") ++ split_into_sentences (py " Smith came.").
Proof.
  exact (segmentation_composes (py "Mr") (py " Smith came.") 46 eq_refl).
Defined.

Lemma strip_nil_blank (s : str) : strip s = [] -> blank s.
Proof.
  intros H. destruct (strip_split s) as [l [t [Hl [Ht Hs]]]].
  rewrite H in Hs. simpl in Hs. rewrite Hs.
  unfold blank in *. rewrite forallb_app, Hl, Ht. reflexivity.
Qed.

(** The text up to the residue is empty or ends in a terminal character. *)
Lemma closed_chunks_end (text : str) :
  forall current,
    concat (closed_chunks current text) = [] \/
    exists pre p,
      concat (closed_chunks current text) = pre ++ [p] /\ is_terminal p = true.
Proof.
  induction text as [|c text IH]; intros current; simpl.
  - left. reflexivity.
  - destruct (is_terminal c) eqn:Hc; [|apply IH].
    right. simpl. destruct (IH []) as [->|[pre [p [-> Hp]]]].
    + exists current, c. split; [apply app_nil_r|exact Hc].
    + exists ((current ++ [c]) ++ pre), p.
      split; [rewrite !app_assoc; reflexivity|exact Hp].
Qed.

Lemma residue_of_tail (pre ws : str) :
  plain ws ->
  pre = [] \/ (exists pre' p, pre = pre' ++ [p] /\ is_terminal p = true) ->
  residue [] (pre ++ ws) = ws.
Proof.
  intros Hws [->|[pre' [p [-> Hp]]]].
  - apply (closed_chunks_no_terminal ws Hws []).
  - rewrite residue_app, (residue_terminal pre' p Hp).
    apply (closed_chunks_no_terminal ws Hws []).
Qed.

Lemma removelast_In {A} (l : list A) (x : A) :
  In x (removelast l) -> In x l.
Proof.
  induction l as [|a l IH]; simpl; [trivial|].
  destruct l as [|b l]; [contradiction|].
  intros [<-|H]; [left; reflexivity|right; apply IH, H].
Qed.

Lemma removelast_closed (text : str) :
  Forall closed_sentence (removelast (split_into_sentences text)).
Proof.
  rewrite split_into_sentences_chunks. unfold chunks. rewrite map_app.
  pose proof (closed_sentences text) as H.
  destruct (truthy (residue [] text)); simpl map.
  - rewrite removelast_last. exact H.
  - rewrite app_nil_r. apply Forall_forall. intros s Hs.
    rewrite Forall_forall in H. apply H, removelast_In, Hs.
Qed.

(** X5. The output holds an empty sentence exactly when the text, after its
    last terminal character or from its start when it has none, goes on with
    whitespace and nothing else; the empty sentence is then the last one,
    and no sentence before the last is ever empty. *)
Theorem empty_sentence_iff (text : str) :
  (In [] (split_into_sentences text) <->
   exists pre ws,
     text = pre ++ ws /\ ws <> [] /\ blank ws /\
     (pre = [] \/ exists pre' p, pre = pre' ++ [p] /\ is_terminal p = true)) /\
  (forall front sentence back,
      split_into_sentences text = front ++ sentence :: back ->
      back <> [] -> sentence <> []).
Proof.
  split; [split|].
  - intros Hin. rewrite split_into_sentences_chunks in Hin.
    unfold chunks in Hin. rewrite map_app in Hin.
    apply in_app_or in Hin as [Hin|Hin].
    { pose proof (closed_sentences text) as H. rewrite Forall_forall in H.
      exfalso. exact (closed_sentence_nonempty [] (H [] Hin) eq_refl). }
    destruct (truthy (residue [] text)) eqn:Hr; [|contradiction].
    destruct Hin as [Hs|[]].
    exists (concat (closed_chunks [] text)), (residue [] text).
    split; [symmetry; apply (closed_chunks_concat text [])|].
    split; [intros H; rewrite H in Hr; discriminate|].
    split; [apply strip_nil_blank, Hs|apply closed_chunks_end].
  - intros [pre [ws [-> [Hne [Hws Hpre]]]]].
    rewrite split_into_sentences_chunks. unfold chunks.
    rewrite (residue_of_tail pre ws (blank_no_terminal ws Hws) Hpre).
    destruct ws as [|c ws]; [contradiction|]. simpl truthy. cbv iota.
    rewrite map_app. apply in_or_app. right. simpl.
    rewrite (strip_blank _ Hws). left. reflexivity.
  - intros front sentence back Hsplit Hback.
    pose proof (removelast_closed text) as H. rewrite Hsplit in H.
    rewrite removelast_app in H by discriminate.
    apply Forall_app in H as [_ H]. simpl in H.
    destruct back as [|b back]; [contradiction|].
    inversion H as [|? ? Hc _]; subst.
    apply closed_sentence_nonempty, Hc.
Qed.

(** X5 at ["Hi. "]: the blank after the full stop gives the empty
    sentence. *)
Lemma empty_sentence_iff_witness : In [] (split_into_sentences (py "Hi. ")).
Proof.
  apply (proj1 (empty_sentence_iff (py "Hi. "))).
  exists (py "Hi."), (py " "). split; [reflexivity|].
  split; [discriminate|]. split; [reflexivity|].
  right. exists (py "Hi"), 46%N. split; reflexivity.
Defined.

(** ** What the sampler returns *)

Lemma take_rows (frame : DataFrame) (indices : list nat) (rows : DataFrame) :
  take frame indices = Some rows ->
  length rows = length indices /\ Forall (fun row => In row frame) rows.
Proof.
  revert rows. induction indices as [|i rest IH]; simpl; intros rows H.
  - injection H as <-. split; [reflexivity|constructor].
  - destruct (nth_error frame i) as [row|] eqn:Hnth; [|discriminate].
    destruct (take frame rest) as [rows'|]; [|discriminate].
    injection H as <-. destruct (IH rows' eq_refl) as [Hlen Hin].
    split; [simpl; congruence|].
    constructor; [eapply nth_error_In; eassumption|assumption].
Qed.

(** Whatever the shuffle, a returned sample holds rows of the corpus at the
    requested level only, and no more of them than the clamped size. *)
Lemma sampler_rows (permutation : RandomState) (df : DataFrame)
    (cefr_level : str) (sample_size : nat) (rows : DataFrame) :
  sampler permutation df cefr_level sample_size = inr rows ->
  Forall (fun row => In row df /\ Row.cefr row = cefr_level) rows /\
  length rows <= Nat.min sample_size (length df).
Proof.
  unfold sampler, sample.
  destruct (length (select_level df cefr_level) <? _); [discriminate|].
  destruct (take _ _) as [rows'|] eqn:Htake; [|discriminate].
  intros H. injection H as <-.
  destruct (take_rows _ _ _ Htake) as [Hlen Hin]. split.
  - apply Forall_forall. intros row Hrow. rewrite Forall_forall in Hin.
    apply select_level_exact, Hin, Hrow.
  - rewrite Hlen, length_firstn. apply Nat.le_min_l.
Qed.

Lemma take_nth (frame : DataFrame) (default : Row.t) (indices : list nat) :
  Forall (fun i => i < length frame) indices ->
  take frame indices = Some (map (fun i => nth i frame default) indices).
Proof.
  induction indices as [|i rest IH]; intros H; simpl; trivial.
  inversion H as [|? ? Hi Hrest]; subst.
  rewrite (IH Hrest), (nth_error_nth' frame default Hi). reflexivity.
Qed.

Lemma nth_seq_all {A} (l : list A) (default : A) :
  map (fun i => nth i l default) (seq 0 (length l)) = l.
Proof.
  induction l as [|a l IH]; simpl; trivial.
  rewrite <- seq_shift, map_map. simpl. rewrite IH. reflexivity.
Qed.

(** Drawing as many rows as the frame has, with a true shuffle, returns the
    frame in another order. *)
Lemma sample_all (permutation : RandomState) (frame : DataFrame) :
  shuffles permutation ->
  exists rows,
    sample permutation (length frame) frame = inr rows /\
    Permutation rows frame.
Proof.
  intros Hperm. unfold sample. rewrite Nat.ltb_irrefl.
  destruct frame as [|row0 frame'] eqn:Hf.
  - simpl. exists []. split; [reflexivity|constructor].
  - rewrite <- Hf. set (m := length frame).
    assert (Hall : firstn m (permutation m) = permutation m).
    { apply firstn_all2. rewrite (Permutation_length (Hperm m)), length_seq.
      apply Nat.le_refl. }
    rewrite Hall.
    assert (Hrange : Forall (fun i => i < length frame) (permutation m)).
    { apply Forall_forall. intros i Hi.
      apply (Permutation_in _ (Hperm m)) in Hi. apply in_seq in Hi.
      subst m. lia. }
    rewrite (take_nth frame row0 _ Hrange).
    eexists. split; [reflexivity|].
    eapply Permutation_trans.
    + apply Permutation_map, Hperm.
    + subst m. rewrite nth_seq_all. apply Permutation_refl.
Qed.

(** X6. With a true shuffle, the sampler returns a sample exactly when the
    requested size, clamped to the length of the whole corpus, does not
    exceed the number of rows at the level; the sample then has
    [min size count] rows, each a row of the corpus at the requested level,
    taken at pairwise different positions. *)
Theorem sampler_succeeds_iff (permutation : RandomState) (df : DataFrame)
    (cefr_level : str) (sample_size : nat) :
  shuffles permutation ->
  ((exists rows, sampler permutation df cefr_level sample_size = inr rows) <->
   Nat.min sample_size (length df) <= level_count df cefr_level) /\
  (forall rows,
      sampler permutation df cefr_level sample_size = inr rows ->
      length rows = Nat.min sample_size (level_count df cefr_level) /\
      Forall (fun row => In row df /\ Row.cefr row = cefr_level) rows /\
      drawn_from (select_level df cefr_level) rows).
Proof.
  intros Hperm. split; [split|].
  - intros [rows Hs].
    destruct (Nat.le_gt_cases (Nat.min sample_size (length df))
                              (level_count df cefr_level)) as [H|H]; trivial.
    rewrite (sampler_raises permutation df cefr_level sample_size H) in Hs.
    discriminate.
  - intros H.
    destruct (sampler_returns permutation df cefr_level sample_size Hperm H)
      as [rows [Hs _]]. eauto.
  - intros rows Hs.
    destruct (Nat.le_gt_cases (Nat.min sample_size (length df))
                              (level_count df cefr_level)) as [H|H].
    + destruct (sampler_returns permutation df cefr_level sample_size Hperm H)
        as [rows' [Hs' Hrest]].
      rewrite Hs in Hs'. injection Hs' as <-. exact Hrest.
    + rewrite (sampler_raises permutation df cefr_level sample_size H) in Hs.
      discriminate.
Qed.

(** X6 on the one-row example corpus asked for 200 rows. *)
Lemma sampler_succeeds_iff_witness :
  exists rows, sampler identity_shuffle example_corpus (py "B1") 200 = inr rows.
Proof.
  apply (proj1 (sampler_succeeds_iff identity_shuffle example_corpus (py "B1") 200
                  identity_shuffle_shuffles)).
  vm_compute. repeat constructor.
Defined.

(** X7. When at least as many rows are asked for as the level has, a sample
    that is returned holds every row of the level exactly once, in the order
    of the shuffle. *)
Theorem sampler_takes_whole_level (permutation : RandomState) (df : DataFrame)
    (cefr_level : str) (sample_size : nat) (rows : DataFrame) :
  shuffles permutation ->
  level_count df cefr_level <= sample_size ->
  sampler permutation df cefr_level sample_size = inr rows ->
  Permutation rows (select_level df cefr_level).
Proof.
  intros Hperm Hsize Hs.
  assert (Hn : Nat.min sample_size (length df) = level_count df cefr_level).
  { pose proof (level_count_le df cefr_level) as Hle.
    destruct (Nat.le_gt_cases (Nat.min sample_size (length df))
                              (level_count df cefr_level)) as [H|H]; [lia|].
    rewrite (sampler_raises permutation df cefr_level sample_size H) in Hs.
    discriminate. }
  unfold sampler in Hs. rewrite Hn in Hs. unfold level_count in Hs.
  destruct (sample_all permutation (select_level df cefr_level) Hperm)
    as [rows' [Hs' Hp]].
  rewrite Hs in Hs'. injection Hs' as <-. exact Hp.
Qed.

(** X7 on the three [B1] rows of the scenario corpus. *)
Lemma sampler_takes_whole_level_witness :
  Permutation scenario_corpus (select_level scenario_corpus (py "B1")).
Proof.
  apply (sampler_takes_whole_level identity_shuffle scenario_corpus (py "B1") 3
           scenario_corpus identity_shuffle_shuffles).
  - vm_compute. repeat constructor.
  - vm_compute. reflexivity.
Defined.

(** ** Where the units of a worklist come from *)

Lemma combine_seq_nth {A} (l : list A) (k i : nat) (a : A) :
  In (i, a) (combine (seq k (length l)) l) ->
  k <= i /\ nth_error l (i - k) = Some a.
Proof.
  revert k. induction l as [|b l IH]; simpl; intros k H; [contradiction|].
  destruct H as [H|H].
  - injection H as <- <-. rewrite Nat.sub_diag. split; [lia|reflexivity].
  - destruct (IH (S k) H) as [Hle Hnth]. split; [lia|].
    replace (i - k) with (S (i - S k)) by lia. exact Hnth.
Qed.

Lemma units_of_row_ok (row : Row.t) : Forall unit_ok (units_of_row row).
Proof.
  apply Forall_forall. intros u Hu. unfold units_of_row in Hu.
  apply in_map_iff in Hu as [[i s] [<- Hin]]. unfold enumerate in Hin.
  apply combine_seq_nth in Hin as [_ Hnth]. rewrite Nat.sub_0_r in Hnth.
  exact Hnth.
Qed.

Lemma processed_data_units (filtered_df : DataFrame) (u : Unit.t) :
  In u (processed_data filtered_df) <->
  exists row, In row filtered_df /\ In u (units_of_row row).
Proof. rewrite processed_data_flat_map. apply in_flat_map. Qed.

(** X8. After a load that draws its sample, whatever the shuffle, every
    unit of the new worklist belongs to a row of the corpus at the requested
    level: it carries that row's text, level and learner, and its sentence
    is the one the segmenter gives for that text at the unit's index. *)
Theorem loaded_units_come_from_level (env : Env) (w : Widgets) (s : State)
    (df rows : DataFrame) :
  load_button w = true -> truthy (cefr_level w) = true ->
  sampled_data_csv env = Some df ->
  sampler (permutation env) df (cefr_level w) (sample_size w) = inr rows ->
  exists data,
    filtered_data (session_state (snd (sidebar env w s))) = Some data /\
    Forall (fun u =>
              unit_ok u /\ Unit.cefr u = cefr_level w /\
              exists row,
                In row df /\ Row.cefr row = cefr_level w /\
                Unit.text_corrected u = Row.text_corrected row /\
                Unit.learner_id u = Row.learner_id row)
           data.
Proof.
  intros Hload Hl Hcsv Hs.
  rewrite (sidebar_loads env w s df rows Hload Hl Hcsv Hs).
  exists (processed_data rows). split; [reflexivity|].
  apply Forall_forall. intros u Hu.
  apply processed_data_units in Hu as [row [Hrow Hu]].
  destruct (sampler_rows _ _ _ _ _ Hs) as [Hrows _].
  rewrite Forall_forall in Hrows. destruct (Hrows row Hrow) as [Hin Hcefr].
  destruct (units_of_row_parent row u Hu) as [Ht [Hc Hlid]].
  pose proof (units_of_row_ok row) as Hok. rewrite Forall_forall in Hok.
  split; [apply Hok, Hu|]. split; [congruence|].
  exists row. repeat split; assumption.
Qed.

(** X8 on the example corpus: the two units of its [B1] row. *)
Lemma loaded_units_come_from_level_witness :
  exists data,
    filtered_data
      (session_state
         (snd (sidebar example_env (load_click (py "B1"))
                 (initial_state example_user [])))) = Some data /\
    Forall (fun u => unit_ok u /\ Unit.cefr u = py "B1") data.
Proof.
  destruct (loaded_units_come_from_level example_env (load_click (py "B1"))
              (initial_state example_user []) example_corpus example_corpus
              eq_refl eq_refl eq_refl eq_refl) as [data [Hd Hall]].
  exists data. split; [exact Hd|].
  apply Forall_forall. intros u Hu. rewrite Forall_forall in Hall.
  destruct (Hall u Hu) as [Hok [Hc _]]. split; assumption.
Defined.

(** ** Loads that fail *)



(** ** What a run sends to the store *)

(** [main_content_cases], with the item known to be a unit of the
    worklist. *)
Lemma main_content_cases_item (env : Env) (w : Widgets) (s : State) :
  main_content env w s = (Ok tt, s) \/
  (exists e, main_content env w s = (Raise e, s)) \/
  (exists data item,
      filtered_data (session_state s) = Some data /\ In item data /\
      main_content env w s =
      if submitted w then
        (save_selected env w item (skip_header (selected_tense w)) ;;
         go_next w ;; go_previous w) (warned w s)
      else (Ok tt, warned w s)).
Proof.
  remember (main_content env w s) as r eqn:Hr.
  unfold main_content, bind at 1, get_session in Hr.
  destruct (loaded (filtered_data (session_state s))); [|left; exact Hr].
  unfold when at 1, bind at 1, current_item, bind at 1, get_session in Hr.
  destruct (filtered_data (session_state s)) as [data|];
    [|right; left; eexists; exact Hr].
  unfold getitem in Hr.
  destruct (_ && _)%Z; [|right; left; eexists; exact Hr].
  destruct (nth_error data _) as [item|] eqn:Hnth;
    [|right; left; eexists; exact Hr].
  right. right. exists data, item.
  split; [reflexivity|]. split; [eapply nth_error_In; exact Hnth|].
  rewrite Hr. unfold ret, bind at 1, when at 1, warned.
  fold (submitted w).
  destruct (truthy (skip_header (selected_tense w))); simpl;
    destruct (submitted w); reflexivity.
Qed.

Lemma warned_session (w : Widgets) (s : State) :
  session_state (warned w s) = session_state s.
Proof. unfold warned. destruct (truthy _); reflexivity. Qed.

(** Navigation keeps the annotator and the worklist. *)
Lemma navigation_keeps (w : Widgets) (s : State) :
  let s' := snd ((go_next w ;; go_previous w) s) in
  annotator_id (session_state s') = annotator_id (session_state s) /\
  filtered_data (session_state s') = filtered_data (session_state s).
Proof.
  assert (Hprev : annotator_id (session_state (snd (go_previous w s)))
                  = annotator_id (session_state s) /\
                  filtered_data (session_state (snd (go_previous w s)))
                  = filtered_data (session_state s)).
  { rewrite go_previous_run. destruct (prev_button w && _); split; reflexivity. }
  unfold bind.
  destruct (filtered_data (session_state s)) as [data|] eqn:Hd.
  - rewrite (go_next_run w s data Hd).
    destruct (next_button w && _); simpl; [split; auto|exact Hprev].
  - unfold go_next, bind, get_session, len.
    destruct (next_button w); simpl; [|exact Hprev].
    rewrite Hd. simpl. split; auto.
Qed.

(** What the save step of the form sends: nothing, or the one record of
    the item with a valid tense. *)
Lemma save_selected_effect (env : Env) (w : Widgets) (item : Unit.t)
    (tense : str) (s : State) :
  exists s' new,
    save_selected env w item tense s = (Ok tt, s') /\
    session_state s' = session_state s /\
    insert_calls s' = insert_calls s ++ new /\
    annotations s' = annotations s ++ filter (store_accepts env) new /\
    (new = [] \/
     (truthy tense = true /\ startswith dashes tense = false /\
      new = [record_of env (annotator_id (session_state s)) item tense (notes w)])).
Proof.
  destruct (truthy tense && negb (startswith dashes tense)) eqn:Hv.
  - apply andb_true_iff in Hv as [Ht Hd]. apply negb_true_iff in Hd.
    rewrite (save_selected_valid env w item tense s Ht Hd).
    set (data := record_of env (annotator_id (session_state s)) item tense (notes w)).
    eexists. exists [data]. split; [reflexivity|].
    unfold with_insert, with_messages. simpl filter.
    destruct (store_accepts env data); simpl; repeat split; auto.
    rewrite app_nil_r. reflexivity.
  - exists (with_messages s [error_select_valid_tense]), [].
    unfold save_selected. rewrite Hv. simpl.
    rewrite !app_nil_r. repeat split. left. reflexivity.
Qed.

(** The main content keeps the annotator and the worklist, and sends to the
    store nothing or the one record of a unit of the worklist with a valid
    tense. *)
Lemma main_content_effect (env : Env) (w : Widgets) (s : State) :
  let s' := snd (main_content env w s) in
  annotator_id (session_state s') = annotator_id (session_state s) /\
  filtered_data (session_state s') = filtered_data (session_state s) /\
  exists new,
    insert_calls s' = insert_calls s ++ new /\
    annotations s' = annotations s ++ filter (store_accepts env) new /\
    (new = [] \/
     exists data item tense,
       filtered_data (session_state s) = Some data /\ In item data /\
       truthy tense = true /\ startswith dashes tense = false /\
       new = [record_of env (annotator_id (session_state s)) item tense (notes w)]).
Proof.
  assert (Hnone : forall s0 : State,
             session_state s0 = session_state s ->
             insert_calls s0 = insert_calls s -> annotations s0 = annotations s ->
             annotator_id (session_state s0) = annotator_id (session_state s) /\
             filtered_data (session_state s0) = filtered_data (session_state s) /\
             exists new,
               insert_calls s0 = insert_calls s ++ new /\
               annotations s0 = annotations s ++ filter (store_accepts env) new /\
               (new = [] \/
                exists data item tense,
                  filtered_data (session_state s) = Some data /\ In item data /\
                  truthy tense = true /\ startswith dashes tense = false /\
                  new = [record_of env (annotator_id (session_state s)) item tense
                                   (notes w)])).
  { intros s0 Hss Hc Ha. rewrite Hss. split; [reflexivity|]. split; [reflexivity|].
    exists []. simpl. rewrite !app_nil_r. repeat split; auto. }
  destruct (main_content_cases_item env w s)
    as [->|[[e ->]|[data [item [Hd [Hin ->]]]]]];
    [apply Hnone; reflexivity|apply Hnone; reflexivity|].
  destruct (warned_store w s) as [Hwa Hwc].
  pose proof (warned_session w s) as Hws.
  destruct (submitted w); [|apply Hnone; assumption].
  destruct (save_selected_effect env w item (skip_header (selected_tense w)) (warned w s))
    as [s2 [new [Hsave [Hss [Hc [Ha Hnew]]]]]].
  unfold bind at 1. rewrite Hsave.
  destruct (navigation_store w s2) as [Hna [Hnc _]].
  destruct (navigation_keeps w s2) as [Hnid Hnfd].
  cbv zeta in *. rewrite Hnid, Hnfd, Hna, Hnc, Hss, Hws.
  split; [reflexivity|]. split; [reflexivity|].
  exists new. rewrite Hc, Ha, Hwa, Hwc. split; [reflexivity|]. split; [reflexivity|].
  destruct Hnew as [->|[Ht [Hdash ->]]]; [left; reflexivity|right].
  exists data, item, (skip_header (selected_tense w)).
  rewrite Hws. repeat split; assumption.
Qed.

(** The sidebar keeps the annotator, and keeps the session or installs the
    units of a drawn sample. *)
Lemma sidebar_worklist (env : Env) (w : Widgets) (s : State) :
  let s' := snd (sidebar env w s) in
  annotations s' = annotations s /\ insert_calls s' = insert_calls s /\
  (session_state s' = session_state s \/
   exists rows,
     session_state s' =
     mkSession (annotator_id (session_state s)) 0 (Some (processed_data rows))).
Proof.
  unfold sidebar, load_data.
  destruct (load_button w); [|simpl; auto].
  destruct (truthy (cefr_level w)); [|simpl; auto].
  destruct (sampled_data_csv env) as [df|]; [|simpl; auto].
  unfold when, bind, ret, lift. simpl.
  destruct (sampler _ _ _ _) as [e|rows]; simpl; eauto.
Qed.

(** One run of the interface sends to the store nothing or one record,
    made from a unit of the worklist that the form shows. *)
Lemma run_effect (env : Env) (w : Widgets) (s : State) :
  let s1 := snd (sidebar env w s) in
  let s' := run s (env, w) in
  annotator_id (session_state s') = annotator_id (session_state s) /\
  (filtered_data (session_state s') = filtered_data (session_state s1)) /\
  exists new,
    insert_calls s' = insert_calls s ++ new /\
    annotations s' = annotations s ++ filter (store_accepts env) new /\
    (new = [] \/
     exists data item tense,
       filtered_data (session_state s1) = Some data /\ In item data /\
       truthy tense = true /\ startswith dashes tense = false /\
       new = [record_of env (annotator_id (session_state s)) item tense (notes w)]).
Proof.
  intros s1 s'. subst s1 s'. unfold run, annotator_interface, bind. simpl fst. simpl snd.
  destruct (sidebar_worklist env w s) as [Ha [Hc Hs]].
  assert (Hid : annotator_id (session_state (snd (sidebar env w s)))
                = annotator_id (session_state s)).
  { destruct Hs as [->|[rows ->]]; reflexivity. }
  destruct (sidebar env w s) as [[[]| | |] s1]; simpl in *.
  - destruct (main_content_effect env w s1) as [Hmid [Hmfd [new [Hmc [Hma Hnew]]]]].
    cbv zeta in *. rewrite Hmid, Hmfd, Hmc, Hma, Ha, Hc, Hid.
    split; [reflexivity|]. split; [reflexivity|].
    exists new. split; [reflexivity|]. split; [reflexivity|].
    rewrite Hid in Hnew. exact Hnew.
  - split; [exact Hid|]. split; [reflexivity|]. exists []. simpl.
    rewrite !app_nil_r. auto.
  - split; [exact Hid|]. split; [reflexivity|]. exists []. simpl.
    rewrite !app_nil_r. auto.
  - split; [exact Hid|]. split; [reflexivity|]. exists []. simpl.
    rewrite !app_nil_r. auto.
Qed.

Lemma store_append (inputs : list (Env * Widgets)) (s : State) :
  exists new stored,
    insert_calls (runs inputs s) = insert_calls s ++ new /\
    annotations (runs inputs s) = annotations s ++ stored /\
    length new <= length inputs /\
    length stored <= length new /\
    Forall (fun r => In r new) stored.
Proof.
  revert s. induction inputs as [|[env w] inputs IH]; intros s.
  - exists [], []. simpl. rewrite !app_nil_r. repeat split; auto.
  - simpl runs.
    destruct (run_effect env w s) as [_ [_ [new1 [Hc1 [Ha1 Hnew1]]]]].
    destruct (IH (run s (env, w))) as [new2 [stored2 [Hc2 [Ha2 [Hl2 [Hs2 Hin2]]]]]].
    exists (new1 ++ new2), (filter (store_accepts env) new1 ++ stored2).
    unfold runs in *. simpl fold_left.
    rewrite Hc2, Ha2, Hc1, Ha1, <- !app_assoc.
    split; [reflexivity|]. split; [reflexivity|].
    assert (Hone : length new1 <= 1).
    { destruct Hnew1 as [->|[data [item [tense [_ [_ [_ [_ ->]]]]]]]]; simpl; lia. }
    pose proof (filter_length_le (store_accepts env) new1) as Hf.
    rewrite !length_app. simpl length. split; [lia|]. split; [lia|].
    apply Forall_app. split.
    + apply Forall_forall. intros r Hr. apply filter_In in Hr as [Hr _].
      apply in_or_app. left. exact Hr.
    + apply Forall_forall. intros r Hr. rewrite Forall_forall in Hin2.
      apply in_or_app. right. apply Hin2, Hr.
Qed.

(** X10. Over any sequence of runs, from any state, the table of
    annotations and the log of inserts only grow at their end: nothing is
    removed or rewritten, each run sends at most one insert, and every
    record added to the table is one that was sent. *)
Theorem store_is_append_only (inputs : list (Env * Widgets)) (s : State) :
  exists new stored,
    insert_calls (runs inputs s) = insert_calls s ++ new /\
    annotations (runs inputs s) = annotations s ++ stored /\
    length new <= length inputs /\
    length stored <= length new /\
    Forall (fun r => In r new) stored.
Proof.
  destruct (store_append inputs s) as [new [stored H]].
  exists new, stored. exact H.
Qed.

Lemma processed_data_ok (rows : DataFrame) : Forall unit_ok (processed_data rows).
Proof.
  apply Forall_forall. intros u Hu.
  apply processed_data_units in Hu as [row [_ Hu]].
  pose proof (units_of_row_ok row) as H. rewrite Forall_forall in H.
  apply H, Hu.
Qed.

Lemma record_of_ok (env : Env) (user_id : str) (item : Unit.t) (tense notes : str) :
  unit_ok item -> truthy tense = true -> startswith dashes tense = false ->
  record_ok user_id (record_of env user_id item tense notes).
Proof.
  intros Hok Ht Hd. unfold record_ok, record_of. simpl.
  repeat split; trivial. eapply nth_error_In. exact Hok.
Qed.

Lemma run_session_ok (user_id : str) (s : State) (input : Env * Widgets) :
  session_ok user_id s -> session_ok user_id (run s input).
Proof.
  destruct input as [env w]. intros [Hid [Hunits Hrecords]].
  destruct (run_effect env w s) as [Hid' [Hfd [new [Hc [_ Hnew]]]]].
  destruct (sidebar_worklist env w s) as [_ [_ Hs]].
  assert (Hunits1 : forall data,
             filtered_data (session_state (snd (sidebar env w s))) = Some data ->
             Forall unit_ok data).
  { destruct Hs as [->|[rows ->]]; [exact Hunits|].
    simpl. intros data H. injection H as <-. apply processed_data_ok. }
  split; [congruence|]. split.
  - intros data H. apply Hunits1. rewrite <- Hfd. exact H.
  - rewrite Hc. apply Forall_app. split; [exact Hrecords|].
    destruct Hnew as [->|[data [item [tense [Hd [Hin [Ht [Hdash ->]]]]]]]];
      constructor; [|constructor].
    rewrite Hid. apply record_of_ok; trivial.
    pose proof (Hunits1 data Hd) as Hall. rewrite Forall_forall in Hall.
    apply Hall, Hin.
Qed.

Lemma runs_session_ok (user_id : str) (inputs : list (Env * Widgets)) (s : State) :
  session_ok user_id s -> session_ok user_id (runs inputs s).
Proof.
  revert s. induction inputs as [|input inputs IH]; intros s H; simpl; trivial.
  apply IH, run_session_ok, H.
Qed.

(** X11. Whatever the annotator does after login, every record the
    interface sends to the store, and so every record it adds to the table,
    names that annotator, has a tense that is neither empty nor a category
    header, and has as its sentence one of the sentences the segmenter gives
    for the record's own [original_text]; and every unit of the worklist
    holds the segmenter's sentence at its index. *)
Theorem sent_records_are_well_formed (user_id : str) (table : list Annotation.t)
    (inputs : list (Env * Widgets)) :
  let s := runs inputs (initial_state user_id table) in
  Forall (record_ok user_id) (insert_calls s) /\
  (exists stored,
      annotations s = table ++ stored /\ Forall (record_ok user_id) stored) /\
  (forall data, filtered_data (session_state s) = Some data -> Forall unit_ok data).
Proof.
  intros s.
  assert (H : session_ok user_id s).
  { apply runs_session_ok. split; [reflexivity|]. split; [discriminate|constructor]. }
  destruct H as [_ [Hunits Hrecords]].
  split; [exact Hrecords|]. split; [|exact Hunits].
  destruct (store_append inputs (initial_state user_id table))
    as [new [stored [Hc [Ha [_ [_ Hin]]]]]].
  exists stored. split; [exact Ha|].
  fold s in Hc. simpl in Hc. rewrite Hc in Hrecords.
  apply Forall_forall. intros r Hr.
  rewrite Forall_forall in Hin, Hrecords. apply Hrecords, Hin, Hr.
Qed.

(** "Save" alone, with a valid tense, on a cursor in range: the record of
    the current item is sent and the session stays. *)
Lemma save_button_run (env : Env) (w : Widgets) (s : State)
    (data : list Unit.t) (item : Unit.t) :
  truthy (selected_tense w) = true ->
  startswith dashes (selected_tense w) = false ->
  in_range (session_state s) data ->
  nth_error data (Z.to_nat (current_index (session_state s))) = Some item ->
  load_button w = false -> save_button w = true ->
  next_button w = false -> prev_button w = false ->
  let record := record_of env (annotator_id (session_state s)) item
                          (selected_tense w) (notes w) in
  let s' := run s (env, w) in
  session_state s' = session_state s /\
  insert_calls s' = insert_calls s ++ [record] /\
  annotations s' = annotations s ++ filter (store_accepts env) [record].
Proof.
  intros Ht Hd Hr Hnth Hload Hsave Hnext Hprev record s'.
  assert (Hsub : submitted w = true) by (unfold submitted; rewrite Hsave; reflexivity).
  destruct (form_run env w s data item Hr Hnth Hload Hsub) as [s2 [Hs2 [Hss Hrun]]].
  rewrite (skip_header_valid _ Ht Hd) in Hs2.
  assert (Hw : warned w s = s).
  { unfold warned. rewrite (skip_header_valid _ Ht Hd), Ht. reflexivity. }
  rewrite Hw, (save_selected_valid env w item _ s Ht Hd) in Hs2.
  fold record in Hs2. injection Hs2 as <-.
  subst s'. unfold run. simpl fst. simpl snd. rewrite Hrun.
  unfold cursor_after. rewrite Hnext, Hprev. simpl.
  unfold with_insert, with_messages.
  destruct (store_accepts env record); simpl; repeat split;
    try (rewrite app_nil_r; reflexivity);
    destruct (session_state s); reflexivity.
Qed.

(** X12. Saving the same sentence twice is not detected: two clicks on
    "Save" with the same valid tense and notes on the same item send two
    inserts, of records that agree in all seven data fields and carry the
    clock reading of their own run; when the store takes both, the table
    ends with both. *)
Theorem resubmission_sends_a_second_record (env env' : Env) (w : Widgets)
    (s : State) (data : list Unit.t) (item : Unit.t) :
  truthy (selected_tense w) = true ->
  startswith dashes (selected_tense w) = false ->
  in_range (session_state s) data ->
  nth_error data (Z.to_nat (current_index (session_state s))) = Some item ->
  load_button w = false -> save_button w = true ->
  next_button w = false -> prev_button w = false ->
  let s' := runs [(env, w); (env', w)] s in
  exists r r',
    insert_calls s' = insert_calls s ++ [r; r'] /\
    same_annotation r r' /\
    Annotation.created_at r = now_isoformat env /\
    Annotation.created_at r' = now_isoformat env' /\
    session_state s' = session_state s /\
    (store_accepts env r = true -> store_accepts env' r' = true ->
     annotations s' = annotations s ++ [r; r']).
Proof.
  intros Ht Hd Hr Hnth Hload Hsave Hnext Hprev s'.
  destruct (save_button_run env w s data item Ht Hd Hr Hnth Hload Hsave Hnext Hprev)
    as [Hss1 [Hc1 Ha1]].
  set (s1 := run s (env, w)) in *.
  assert (Hr1 : in_range (session_state s1) data) by (rewrite Hss1; exact Hr).
  assert (Hnth1 : nth_error data (Z.to_nat (current_index (session_state s1)))
                  = Some item) by (rewrite Hss1; exact Hnth).
  destruct (save_button_run env' w s1 data item Ht Hd Hr1 Hnth1 Hload Hsave Hnext Hprev)
    as [Hss2 [Hc2 Ha2]].
  rewrite Hss1 in Hc2, Ha2.
  exists (record_of env (annotator_id (session_state s)) item (selected_tense w) (notes w)).
  exists (record_of env' (annotator_id (session_state s)) item (selected_tense w) (notes w)).
  subst s'. unfold runs. simpl fold_left. fold s1.
  rewrite Hc2, Hc1, Ha2, Ha1, <- !app_assoc.
  split; [reflexivity|]. split; [repeat split|].
  split; [reflexivity|]. split; [reflexivity|].
  split; [congruence|].
  intros Hacc Hacc'. simpl filter. rewrite Hacc, Hacc'. reflexivity.
Qed.

(** X12 on the loaded example: two saves of the first sentence. *)
Lemma resubmission_sends_a_second_record_witness :
  length
    (insert_calls
       (runs [(example_env, save_click (py "Past Simple") []);
              (example_env, save_click (py "Past Simple") [])]
             example_loaded)) = 2.
Proof.
  assert (Hin : In (py "Past Simple") TENSE_OPTIONS) by (vm_compute; tauto).
  destruct (tense_options_valid _ Hin) as [Ht Hd].
  assert (Hr : in_range (session_state example_loaded) (processed_data example_corpus)).
  { split; [vm_compute; reflexivity|].
    vm_compute. split; [intros H; discriminate H|reflexivity]. }
  assert (Hnth : nth_error (processed_data example_corpus)
                   (Z.to_nat (current_index (session_state example_loaded)))
                 = Some (Unit.mk (py "I go. He ran!") (py "I go.") 0 (py "B1") (py "L1")))
    by (vm_compute; reflexivity).
  destruct (resubmission_sends_a_second_record example_env example_env
              (save_click (py "Past Simple") []) example_loaded _ _
              Ht Hd Hr Hnth eq_refl eq_refl eq_refl eq_refl) as [r [r' [Hc _]]].
  rewrite Hc. reflexivity.
Defined.

(** ** Registration *)

(** X13. [register] calls the sign-up service only for a submitted form
    whose two passwords are equal and at least 6 characters long, and then
    exactly once; it answers [True] exactly when, on top of that, the
    service answers with a user. It never raises, and it never touches the
    session, the table or the insert log: registering does not sign in.
    Unequal passwords are reported as such even when they are also too
    short. *)
Theorem register_validates (b : Backend) (p : Page) (a : App) :
  let r := register b p a in
  let valid :=
    register_submit p && str_eqb (register_password p) (register_confirm p)
    && (6 <=? length (register_password p)) in
  (fst r = Done true <->
   valid = true /\
   exists id,
     sign_up_response b (register_email p) (register_password p) = inr (Some id)) /\
  (fst r = Done true \/ fst r = Done false) /\
  auth_calls (snd r) =
    (if valid then auth_calls a ++ [sign_up (register_email p) (register_password p)]
     else auth_calls a) /\
  keys (snd r) = keys a /\ table (snd r) = table a /\ sent (snd r) = sent a /\
  (register_submit p = true -> register_password p <> register_confirm p ->
   notices (snd r) = notices a ++ [passwords_do_not_match]).
Proof.
  intros r valid. subst r valid. unfold register.
  destruct (register_submit p); cbn [andb];
    [|simpl; repeat apply conj; auto;
      try (intros H; discriminate H); intros [H _]; discriminate H].
  destruct (str_eqb (register_password p) (register_confirm p)) eqn:Heq; cbn [andb];
    [|simpl; repeat apply conj; auto;
      try (intros H; discriminate H); intros [H _]; discriminate H].
  apply str_eqb_eq in Heq.
  rewrite Nat.leb_antisym.
  destruct (length (register_password p) <? 6) eqn:Hlen; cbn [negb];
    [simpl; repeat apply conj; auto;
     try (intros H; discriminate H); try (intros _ H; contradiction);
     intros [H _]; discriminate H|].
  unfold try_exceptA, bindA, auth, liftA. simpl.
  destruct (sign_up_response b (register_email p) (register_password p))
    as [e|[id|]]; simpl; repeat apply conj; auto;
    try (intros _ H; contradiction); try (intros H; discriminate H);
    try (intros [_ [id' H]]; discriminate H).
  intros _. split; [reflexivity|]. exists id. reflexivity.
Qed.

(** ** Login *)

Lemma has_role_eq (data : option str) (role : str) :
  has_role data role = true <-> data = Some role.
Proof.
  unfold has_role. destruct data as [r|].
  - rewrite str_eqb_eq. split; congruence.
  - split; discriminate.
Qed.

Lemma login_frame_refl (a : App) : login_frame a a.
Proof.
  repeat split. exists []. rewrite app_nil_r. split; [reflexivity|constructor].
Qed.

Lemma login_frame_trans (a a' a'' : App) :
  login_frame a a' -> login_frame a' a'' -> login_frame a a''.
Proof.
  intros [Ht [Hs [Hd [c [Hc Hf]]]]] [Ht' [Hs' [Hd' [c' [Hc' Hf']]]]].
  repeat split; try congruence.
  exists (c ++ c'). rewrite Hc', Hc, app_assoc. split; [reflexivity|].
  apply Forall_app. split; assumption.
Qed.

Lemma login_frame_call (a a' : App) (email password : str) :
  table a' = table a -> sent a' = sent a -> drawn a' = drawn a ->
  auth_calls a' = auth_calls a ++ [sign_in_with_password email password] ->
  login_frame a a'.
Proof.
  intros Ht Hs Hd Hc. repeat split; trivial.
  eexists. split; [exact Hc|]. constructor; [discriminate|constructor].
Qed.

Lemma annotator_login_form_effect (b : Backend) (p : Page) (a : App) :
  let r := annotator_login_form b p a in
  login_frame a (snd r) /\
  ((fst r = Done false /\ keys (snd r) = keys a) \/
   (fst r = Done true /\
    exists id,
      annotator_login p = true /\
      sign_in_response b (annotator_email p) (annotator_password p)
        = inr (Some id) /\
      profile_role b id = inr (Some (py "annotator")) /\
      keys (snd r) =
        mkKeys (Some (Some id)) (Some (Some (py "annotator"))) (Some id)
               (key_user_id (keys a)) (key_current_index (keys a))
               (key_filtered_data (keys a)))).
Proof.
  intros r. subst r. unfold annotator_login_form.
  destruct (annotator_login p); [|split; [apply login_frame_refl|left; split; reflexivity]].
  unfold try_exceptA, bindA, auth, liftA. simpl.
  destruct (sign_in_response b (annotator_email p) (annotator_password p))
    as [e|[id|]] eqn:Hsign; simpl.
  - split; [eapply login_frame_call; reflexivity|left; split; reflexivity].
  - destruct (profile_role b id) as [e|data] eqn:Hrole; simpl.
    + split; [eapply login_frame_call; reflexivity|left; split; reflexivity].
    + destruct (has_role data (py "annotator")) eqn:Hhas; simpl.
      * split; [eapply login_frame_call; reflexivity|right].
        split; [reflexivity|].
        exists id. apply has_role_eq in Hhas. subst data.
        repeat split; auto.
      * split; [eapply login_frame_call; reflexivity|left; split; reflexivity].
  - split; [eapply login_frame_call; reflexivity|left; split; reflexivity].
Qed.

Lemma admin_login_form_effect (b : Backend) (p : Page) (a : App) :
  let r := admin_login_form b p a in
  login_frame a (snd r) /\
  ((fst r = Done false /\ keys (snd r) = keys a) \/
   (fst r = Done true /\
    exists id,
      admin_login p = true /\
      sign_in_response b (admin_email p) (admin_password p) = inr (Some id) /\
      profile_role b id = inr (Some (py "admin")) /\
      keys (snd r) =
        mkKeys (Some (Some id)) (Some (Some (py "admin")))
               (key_annotator_id (keys a)) (Some id)
               (key_current_index (keys a)) (key_filtered_data (keys a)))).
Proof.
  intros r. subst r. unfold admin_login_form.
  destruct (admin_login p); [|split; [apply login_frame_refl|left; split; reflexivity]].
  unfold try_exceptA, bindA, auth, liftA. simpl.
  destruct (sign_in_response b (admin_email p) (admin_password p))
    as [e|[id|]] eqn:Hsign; simpl.
  - split; [eapply login_frame_call; reflexivity|left; split; reflexivity].
  - destruct (profile_role b id) as [e|data] eqn:Hrole; simpl.
    + split; [eapply login_frame_call; reflexivity|left; split; reflexivity].
    + destruct (has_role data (py "admin")) eqn:Hhas; simpl.
      * split; [eapply login_frame_call; reflexivity|right].
        split; [reflexivity|].
        exists id. apply has_role_eq in Hhas. subst data.
        repeat split; auto.
      * split; [eapply login_frame_call; reflexivity|left; split; reflexivity].
  - split; [eapply login_frame_call; reflexivity|left; split; reflexivity].
Qed.

(** How [login] ends: refused with the keys as they were, or signed in
    through one of the two forms. *)
Lemma login_effect (b : Backend) (p : Page) (a : App) :
  let r := login b p a in
  login_frame a (snd r) /\
  ((fst r = Done false /\ keys (snd r) = keys a) \/
   (fst r = Done true /\
    exists id,
      (annotator_login p = true /\
       sign_in_response b (annotator_email p) (annotator_password p)
         = inr (Some id) /\
       profile_role b id = inr (Some (py "annotator")) /\
       keys (snd r) =
         mkKeys (Some (Some id)) (Some (Some (py "annotator"))) (Some id)
                (key_user_id (keys a)) (key_current_index (keys a))
                (key_filtered_data (keys a))) \/
      (admin_login p = true /\
       sign_in_response b (admin_email p) (admin_password p) = inr (Some id) /\
       profile_role b id = inr (Some (py "admin")) /\
       keys (snd r) =
         mkKeys (Some (Some id)) (Some (Some (py "admin")))
                (key_annotator_id (keys a)) (Some id)
                (key_current_index (keys a)) (key_filtered_data (keys a))))).
Proof.
  unfold login, bindA.
  destruct (annotator_login_form_effect b p a) as [Hf1 H1].
  destruct (annotator_login_form b p a) as [o a1]. simpl in *.
  destruct H1 as [[-> Hk1]|[-> [id H1]]].
  - destruct (admin_login_form_effect b p a1) as [Hf2 H2].
    split; [exact (login_frame_trans _ _ _ Hf1 Hf2)|].
    destruct H2 as [[Ho Hk2]|[Ho [id H2]]].
    + left. split; [exact Ho|congruence].
    + right. split; [exact Ho|]. exists id. right. rewrite <- Hk1. exact H2.
  - split; [exact Hf1|]. right. split; [reflexivity|]. exists id. left. exact H1.
Qed.

(** X14. [login] never raises, and it changes the session only when it
    answers [True]: that happens only when the sign-in answers with a user
    whose profile has exactly the role of the submitted form, and then
    [user], the role and the id key of that form ([annotator_id] or
    [user_id]) are set to that user. In every other case (wrong credentials,
    a profile that cannot be read, another role) the keys stay as they were.
    Table, insert log and annotator page are never touched, and no sign-out
    is ever sent, also after a refusal for the role. *)
Theorem login_checks_role (b : Backend) (p : Page) (a : App) :
  let r := login b p a in
  (fst r = Done true \/ fst r = Done false) /\
  (fst r = Done false -> keys (snd r) = keys a) /\
  (fst r = Done true ->
   exists id,
     key_user (keys (snd r)) = Some (Some id) /\
     ((annotator_login p = true /\
       sign_in_response b (annotator_email p) (annotator_password p)
         = inr (Some id) /\
       profile_role b id = inr (Some (py "annotator")) /\
       key_user_role (keys (snd r)) = Some (Some (py "annotator")) /\
       key_annotator_id (keys (snd r)) = Some id) \/
      (admin_login p = true /\
       sign_in_response b (admin_email p) (admin_password p) = inr (Some id) /\
       profile_role b id = inr (Some (py "admin")) /\
       key_user_role (keys (snd r)) = Some (Some (py "admin")) /\
       key_user_id (keys (snd r)) = Some id))) /\
  table (snd r) = table a /\ sent (snd r) = sent a /\ drawn (snd r) = drawn a /\
  (exists calls,
      auth_calls (snd r) = auth_calls a ++ calls /\
      Forall (fun c => c <> sign_out) calls).
Proof.
  intros r. subst r.
  destruct (login_effect b p a) as [[Ht [Hs [Hd Hcalls]]] H].
  split; [destruct H as [[-> _]|[-> _]]; auto|].
  split.
  { intros Ho. destruct H as [[_ Hk]|[Ho' _]]; [exact Hk|].
    rewrite Ho in Ho'. discriminate Ho'. }
  split.
  { intros Ho. destruct H as [[Ho' _]|[_ [id H]]].
    - rewrite Ho in Ho'. discriminate Ho'.
    - exists id. destruct H as [[Hl [Hsign [Hrole ->]]]|[Hl [Hsign [Hrole ->]]]].
      + split; [reflexivity|]. left. repeat split; assumption.
      + split; [reflexivity|]. right. repeat split; assumption. }
  repeat split; assumption.
Qed.

(** ** The branches of [main] *)

Lemma init_keys_run (a : App) : init_keys a = (Done tt, with_init a).
Proof. reflexivity. Qed.

Lemma with_init_frame (a : App) :
  table (with_init a) = table a /\ sent (with_init a) = sent a /\
  drawn (with_init a) = drawn a /\ notices (with_init a) = notices a /\
  auth_calls (with_init a) = auth_calls a.
Proof. repeat split. Qed.

(** Initialisation sets the absent keys and keeps the others. *)
Lemma with_init_keys (a : App) :
  let k := keys a in
  let k' := keys (with_init a) in
  key_user k' = Some (match key_user k with Some v => v | None => None end) /\
  key_user_role k' =
    Some (match key_user_role k with Some v => v | None => None end) /\
  key_annotator_id k' = key_annotator_id k /\
  key_user_id k' = key_user_id k /\
  key_current_index k' =
    Some (match key_current_index k with Some v => v | None => 0%Z end) /\
  key_filtered_data k' =
    Some (match key_filtered_data k with Some v => v | None => None end).
Proof.
  unfold with_init, init_keys, bindA, get_keys, set_keys. simpl.
  destruct (keys a) as [[u|] [r|] an ad [i|] [d|]]; simpl; repeat split.
Qed.

Lemma with_init_ok (a : App) : app_ok a -> app_ok (with_init a).
Proof.
  intros [Hacc Hcur].
  destruct (with_init_keys a) as [Hu [Hr [Han [Had [Hi Hd]]]]]. cbv zeta in *.
  split.
  - intros id Hid. rewrite Hu in Hid.
    destruct (key_user (keys a)) as [u|] eqn:Hku; [|discriminate].
    injection Hid as Hid. subst u.
    destruct (Hacc id Hku) as [[H1 H2]|[H1 H2]].
    + left. rewrite Hr, H1, Han. split; [reflexivity|exact H2].
    + right. rewrite Hr, H1, Had. split; [reflexivity|exact H2].
  - intros i u data Hki Hkd. rewrite Hi in Hki. rewrite Hd in Hkd.
    destruct (key_filtered_data (keys a)) as [d|] eqn:Hfd; [|discriminate].
    injection Hkd as Hkd. subst d.
    destruct (key_current_index (keys a)) as [j|] eqn:Hci.
    + injection Hki as Hki. subst j. exact (Hcur i u data Hci Hfd).
    + injection Hki as Hki. subst i. simpl length. lia.
Qed.

(** [register] always answers, and touches nothing but the notices and the
    log of calls to the service. *)
Lemma register_frame (b : Backend) (p : Page) (a : App) :
  exists answer,
    fst (register b p a) = Done answer /\
    keys (snd (register b p a)) = keys a /\
    table (snd (register b p a)) = table a /\
    sent (snd (register b p a)) = sent a /\
    drawn (snd (register b p a)) = drawn a.
Proof.
  unfold register.
  destruct (register_submit p); [|exists false; repeat split].
  destruct (negb _); [exists false; repeat split|].
  destruct (_ <? 6); [exists false; repeat split|].
  unfold try_exceptA, bindA, auth, liftA. simpl.
  destruct (sign_up_response b _ _) as [e|[id|]]; simpl;
    eexists; repeat split.
Qed.

(** Without a signed-in user the run is the login page: [login], then
    [register], then the [return] of [main]. *)
Lemma main_signed_out (env : Env) (b : Backend) (p : Page) (a : App) :
  key_user (keys a) = None \/ key_user (keys a) = Some None ->
  main env b p a =
  (Returned, snd (register b p (snd (login b p (with_init a))))).
Proof.
  intros Hu. unfold main, bindA at 1. rewrite init_keys_run.
  destruct (with_init_keys a) as [Hku _]. cbv zeta in Hku.
  assert (Hnone : key_user (keys (with_init a)) = Some None).
  { rewrite Hku. destruct Hu as [->| ->]; reflexivity. }
  unfold bindA at 1, get_key. rewrite Hnone.
  destruct (login_effect b p (with_init a)) as [_ Hl].
  unfold bindA at 1.
  destruct (login b p (with_init a)) as [o a1]. simpl in *.
  assert (Ho : exists v, o = Done v).
  { destruct Hl as [[-> _]|[-> _]]; eauto. }
  destruct Ho as [v ->].
  destruct (register_frame b p a1) as [answer [Hr _]].
  unfold bindA. destruct (register b p a1) as [o2 a2]. simpl in *.
  rewrite Hr. reflexivity.
Qed.

(** With a signed-in user the run is the dashboard for role [admin] and
    the annotator branch otherwise. *)
Lemma main_signed_in (env : Env) (b : Backend) (p : Page) (a : App) (id : str) :
  key_user (keys a) = Some (Some id) ->
  main env b p a =
  if has_role (match key_user_role (keys a) with Some v => v | None => None end)
              (py "admin")
  then admin_dashboard b p (with_init a)
  else annotator_branch env b p (with_init a).
Proof.
  intros Hu. unfold main, bindA at 1. rewrite init_keys_run.
  destruct (with_init_keys a) as [Hku [Hkr _]]. cbv zeta in Hku, Hkr.
  unfold bindA at 1, get_key. rewrite Hku, Hu.
  unfold bindA at 1, get_key. rewrite Hkr.
  destruct (has_role _ _); reflexivity.
Qed.

Lemma logout_run (b : Backend) (a : App) :
  logout b a =
  match sign_out_error b with
  | Some e =>
      (Failed e,
       mkApp (keys a) (table a) (sent a) (drawn a) (notices a)
             (auth_calls a ++ [sign_out]))
  | None => (Reran, logged_out a)
  end.
Proof.
  unfold logout, bindA, auth. simpl.
  destruct (sign_out_error b); reflexivity.
Qed.

(** The queries of the dashboard always end normally and change nothing
    but the notices. *)
Lemma dashboard_queries (b : Backend) (p : Page) (a : App) :
  admin_logout p = false ->
  exists ns, admin_dashboard b p a = (Done tt, with_notices a ns).
Proof.
  intros Hlogout. unfold admin_dashboard. rewrite Hlogout.
  unfold whenA at 1, bindA at 1, retA, try_exceptA.
  unfold bindA, liftA, notice, whenA, retA, failA. simpl.
  destruct (count_annotations b) as [e|n1]; simpl;
    [eexists; unfold with_notices; reflexivity|].
  destruct (count_annotators b) as [e|n2]; simpl;
    [eexists; unfold with_notices; reflexivity|].
  destruct (recent_annotations b) as [e|recent]; simpl;
    [eexists; unfold with_notices; simpl; rewrite <- app_assoc; reflexivity|].
  destruct (truthy recent); simpl.
  - destruct (recent_rows b recent) as [rows|]; simpl.
    + destruct (export_button p); simpl.
      * destruct (all_annotations b) as [e|data]; simpl.
        -- eexists; unfold with_notices; simpl; rewrite <- !app_assoc; reflexivity.
        -- destruct (truthy data); simpl;
             eexists; unfold with_notices; simpl; rewrite <- !app_assoc; reflexivity.
      * eexists; unfold with_notices; simpl; rewrite <- !app_assoc; reflexivity.
    + eexists; unfold with_notices; simpl; rewrite <- !app_assoc; reflexivity.
  - destruct (export_button p); simpl.
    + destruct (all_annotations b) as [e|data]; simpl.
      * eexists; unfold with_notices; simpl; rewrite <- !app_assoc; reflexivity.
      * destruct (truthy data); simpl;
          eexists; unfold with_notices; simpl; rewrite <- ?app_assoc; reflexivity.
    + eexists; unfold with_notices; reflexivity.
Qed.

Lemma admin_dashboard_logout (b : Backend) (p : Page) (a : App) :
  admin_logout p = true -> admin_dashboard b p a = logout b a.
Proof.
  intros H. unfold admin_dashboard. rewrite H. unfold whenA at 1, bindA at 1.
  rewrite logout_run. destruct (sign_out_error b); reflexivity.
Qed.

Lemma interface_run (env : Env) (p : Page) (a : App) (id : str) (i : Z)
    (data : option (list Unit.t)) :
  key_annotator_id (keys a) = Some id ->
  key_current_index (keys a) = Some i ->
  key_filtered_data (keys a) = Some data ->
  let r := annotator_interface env (work p) (interface_state a id i data) in
  interface env p a = (outcome_of (fst r), after_interface a (snd r)).
Proof.
  intros Hid Hi Hd r. unfold interface, bindA, get_key.
  rewrite Hid, Hi, Hd. subst r. unfold outcome_of, after_interface, interface_state.
  destruct (fst (annotator_interface env (work p) _)) as [[]| | |]; reflexivity.
Qed.

Lemma progress_run (a : App) (i : Z) (data : option (list Unit.t)) :
  key_current_index (keys a) = Some i ->
  key_filtered_data (keys a) = Some data ->
  (forall u units, data = Some (u :: units) ->
                   (0 <= i < Z.of_nat (length (u :: units)))%Z) ->
  progress a =
  (Done tt,
   match data with
   | Some (u :: units) => with_notices a [progress_of i (u :: units)]
   | _ => a
   end).
Proof.
  intros Hi Hd Hrange. unfold progress, bindA at 1, get_key. rewrite Hd.
  destruct data as [[|u units]|]; try reflexivity.
  change (truthy (u :: units)) with true. cbv iota.
  unfold bindA, get_key. rewrite Hi.
  specialize (Hrange u units eq_refl).
  destruct (Z.leb_spec 0 (i + 1)); [|lia].
  destruct (Z.leb_spec (i + 1) (Z.of_nat (length (u :: units)))); [|lia].
  reflexivity.
Qed.

(** ** What can end a run with an exception *)



Lemma keys_cursor_ok_state (a : App) (id : str) (i : Z)
    (data : option (list Unit.t)) :
  keys_cursor_ok (keys a) ->
  key_current_index (keys a) = Some i ->
  key_filtered_data (keys a) = Some data ->
  cursor_ok (interface_state a id i data).
Proof.
  intros H Hi Hd. unfold cursor_ok, interface_state. simpl.
  destruct data as [[|u units]|]; trivial.
  exact (H i u units Hi Hd).
Qed.

(** The annotator branch on initialised keys and a cursor in range. *)
Lemma annotator_branch_run (env : Env) (b : Backend) (p : Page) (a : App)
    (id : str) (i : Z) (data : option (list Unit.t)) :
  key_annotator_id (keys a) = Some id ->
  key_current_index (keys a) = Some i ->
  key_filtered_data (keys a) = Some data ->
  keys_cursor_ok (keys a) ->
  let r := annotator_interface env (work p) (interface_state a id i data) in
  let a' := after_interface a (snd r) in
  annotator_branch env b p a =
  if logout_button p then logout b a
  else
    match fst r with
    | Ok _ =>
        (Done tt,
         match filtered_data (session_state (snd r)) with
         | Some (u :: units) =>
             with_notices a'
               [progress_of (current_index (session_state (snd r))) (u :: units)]
         | _ => a'
         end)
    | other => (outcome_of other, a')
    end.
Proof.
  intros Hid Hi Hd Hok r a'. unfold annotator_branch, bindA at 1, get_key.
  rewrite Hid. unfold bindA at 1, whenA.
  destruct (logout_button p).
  - rewrite logout_run. destruct (sign_out_error b); reflexivity.
  - unfold retA, bindA. rewrite (interface_run env p a id i data Hid Hi Hd).
    fold r. fold a'.
    destruct (fst r) as [[]| | |] eqn:Hr; try reflexivity.
    simpl outcome_of. cbv iota.
    assert (Hc : cursor_ok (snd r)).
    { subst r. apply (run_cursor_ok _ (env, work p)).
      apply keys_cursor_ok_state; assumption. }
    apply (progress_run a' (current_index (session_state (snd r)))
             (filtered_data (session_state (snd r)))); try reflexivity.
    intros u units Hu. unfold cursor_ok in Hc. rewrite Hu in Hc. exact Hc.
Qed.

(** ** The three pages of [main] *)

Lemma annotator_is_not_admin : has_role (Some (py "annotator")) (py "admin") = false.
Proof. reflexivity. Qed.

Lemma admin_is_admin : has_role (Some (py "admin")) (py "admin") = true.
Proof. reflexivity. Qed.

(** On a state that satisfies the invariant, a run of [main] is the login
    page, the dashboard of a signed-in admin, or the annotator branch of a
    signed-in annotator whose keys are all present. *)
Lemma main_cases (env : Env) (b : Backend) (p : Page) (a : App) :
  app_ok a ->
  ((key_user (keys a) = None \/ key_user (keys a) = Some None) /\
   main env b p a =
   (Returned, snd (register b p (snd (login b p (with_init a)))))) \/
  (exists id,
      key_user (keys a) = Some (Some id) /\
      key_user_role (keys a) = Some (Some (py "admin")) /\
      main env b p a = admin_dashboard b p (with_init a)) \/
  (exists id i data,
      key_user (keys a) = Some (Some id) /\
      key_user_role (keys a) = Some (Some (py "annotator")) /\
      key_annotator_id (keys (with_init a)) = Some id /\
      key_current_index (keys (with_init a)) = Some i /\
      key_filtered_data (keys (with_init a)) = Some data /\
      keys_cursor_ok (keys (with_init a)) /\
      main env b p a = annotator_branch env b p (with_init a)).
Proof.
  intros Hok. pose proof (with_init_ok a Hok) as [_ Hcur].
  destruct Hok as [Hacc _].
  destruct (key_user (keys a)) as [[id|]|] eqn:Hu.
  - right. rewrite (main_signed_in env b p a id Hu).
    destruct (with_init_keys a) as [_ [_ [Han [_ [Hi Hd]]]]]. cbv zeta in *.
    destruct (Hacc id Hu) as [[Hrole Hid]|[Hrole Hid]]; rewrite Hrole.
    + right. rewrite annotator_is_not_admin.
      eexists id, _, _.
      split; [reflexivity|]. split; [reflexivity|].
      split; [rewrite Han; exact Hid|].
      split; [exact Hi|]. split; [exact Hd|]. split; [exact Hcur|reflexivity].
    + left. rewrite admin_is_admin. exists id. repeat split; reflexivity.
  - left. split; [right; reflexivity|]. apply main_signed_out. right. exact Hu.
  - left. split; [left; reflexivity|]. apply main_signed_out. left. exact Hu.
Qed.

Lemma account_ok_frame (k k' : Keys) :
  key_user k' = key_user k -> key_user_role k' = key_user_role k ->
  key_annotator_id k' = key_annotator_id k -> key_user_id k' = key_user_id k ->
  account_ok k -> account_ok k'.
Proof.
  unfold account_ok. intros -> -> -> -> H. exact H.
Qed.

Lemma keys_cursor_ok_frame (k k' : Keys) :
  key_current_index k' = key_current_index k ->
  key_filtered_data k' = key_filtered_data k ->
  keys_cursor_ok k -> keys_cursor_ok k'.
Proof.
  unfold keys_cursor_ok. intros -> -> H. exact H.
Qed.

Lemma no_keys_ok : account_ok no_keys /\ keys_cursor_ok no_keys.
Proof.
  split; [intros id H; discriminate H|intros i u data H; discriminate H].
Qed.

Lemma logout_ok (b : Backend) (a : App) : app_ok a -> app_ok (snd (logout b a)).
Proof.
  intros H. rewrite logout_run.
  destruct (sign_out_error b); [exact H|apply no_keys_ok].
Qed.

Lemma login_ok (b : Backend) (p : Page) (a : App) :
  app_ok a -> app_ok (snd (login b p a)).
Proof.
  intros [Hacc Hcur].
  destruct (login_effect b p a) as [_ [[_ Hk]|[_ [id [H|H]]]]].
  - unfold app_ok. rewrite Hk. split; assumption.
  - destruct H as [_ [_ [_ Hk]]]. unfold app_ok. rewrite Hk. split.
    + intros id' Hid. injection Hid as <-. left. split; reflexivity.
    + intros i u data Hi Hd. exact (Hcur i u data Hi Hd).
  - destruct H as [_ [_ [_ Hk]]]. unfold app_ok. rewrite Hk. split.
    + intros id' Hid. injection Hid as <-. right. split; reflexivity.
    + intros i u data Hi Hd. exact (Hcur i u data Hi Hd).
Qed.

Lemma annotator_branch_ok (env : Env) (b : Backend) (p : Page) (a : App)
    (id : str) (i : Z) (data : option (list Unit.t)) :
  key_annotator_id (keys a) = Some id ->
  key_current_index (keys a) = Some i ->
  key_filtered_data (keys a) = Some data ->
  app_ok a -> app_ok (snd (annotator_branch env b p a)).
Proof.
  intros Hid Hi Hd Hok. pose proof Hok as [Hacc Hcur].
  rewrite (annotator_branch_run env b p a id i data Hid Hi Hd Hcur).
  destruct (logout_button p); [apply logout_ok, Hok|].
  set (r := annotator_interface env (work p) (interface_state a id i data)).
  assert (Hc : cursor_ok (snd r)).
  { subst r. apply (run_cursor_ok _ (env, work p)).
    apply keys_cursor_ok_state; assumption. }
  assert (Hafter : app_ok (after_interface a (snd r))).
  { split.
    - apply (account_ok_frame (keys a)); trivial.
    - intros j u units Hj Hu. simpl in Hj, Hu.
      injection Hj as <-. injection Hu as Hu.
      unfold cursor_ok in Hc. rewrite Hu in Hc. exact Hc. }
  destruct (fst r) as [[]| | |]; simpl snd; trivial.
  destruct (filtered_data (session_state (snd r))) as [[|u units]|]; trivial.
Qed.

Lemma run_main_ok (a : App) (input : Env * Backend * Page) :
  app_ok a -> app_ok (run_main a input).
Proof.
  destruct input as [[env b] p]. intros Hok. unfold run_main. simpl fst. simpl snd.
  pose proof (with_init_ok a Hok) as Hinit.
  destruct (main_cases env b p a Hok)
    as [[_ ->]|[[id [_ [_ ->]]]|[id [i [data [_ [_ [Hid [Hi [Hd [_ ->]]]]]]]]]]].
  - simpl snd. destruct (register_frame b p (snd (login b p (with_init a))))
      as [answer [_ [Hk _]]].
    pose proof (login_ok b p (with_init a) Hinit) as [Hacc Hcur].
    unfold app_ok. rewrite Hk. split; assumption.
  - destruct (admin_logout p) eqn:Hl.
    + rewrite (admin_dashboard_logout b p _ Hl). apply logout_ok, Hinit.
    + destruct (dashboard_queries b p (with_init a) Hl) as [ns ->]. exact Hinit.
  - apply (annotator_branch_ok env b p (with_init a) id i data); assumption.
Qed.

Lemma runs_main_ok (inputs : list (Env * Backend * Page)) (a : App) :
  app_ok a -> app_ok (runs_main inputs a).
Proof.
  revert a. induction inputs as [|input inputs IH]; intros a H; simpl; trivial.
  apply IH, run_main_ok, H.
Qed.

Lemma fresh_app_ok (rows : list Annotation.t) : app_ok (fresh_app rows).
Proof. apply no_keys_ok. Qed.



(** X16. When a run of the annotator branch ends normally with a non-empty
    worklist, it draws one notice, the progress bar: the position shown is
    the cursor plus one and lies between 1 and the length of the worklist,
    and what remains is the length minus that position, never negative. *)
Theorem progress_is_within_bounds (rows : list Annotation.t)
    (inputs : list (Env * Backend * Page))
    (env : Env) (b : Backend) (p : Page) (id : str) (u : Unit.t)
    (units : list Unit.t) :
  let a := runs_main inputs (fresh_app rows) in
  let r := main env b p a in
  key_user (keys a) = Some (Some id) ->
  key_user_role (keys a) = Some (Some (py "annotator")) ->
  fst r = Done tt ->
  key_filtered_data (keys (snd r)) = Some (Some (u :: units)) ->
  exists i,
    key_current_index (keys (snd r)) = Some i /\
    notices (snd r) =
      notices a ++
      [progress_bar (i + 1) (Z.of_nat (length (u :: units)))
                    (Z.of_nat (length (u :: units)) - (i + 1))] /\
    (1 <= i + 1 <= Z.of_nat (length (u :: units)))%Z /\
    (0 <= Z.of_nat (length (u :: units)) - (i + 1))%Z.
Proof.
  intros a r Hu Hrole. subst r.
  assert (Hok : app_ok a) by (apply runs_main_ok, fresh_app_ok).
  destruct (main_cases env b p a Hok)
    as [[[H|H] _]|[[id' [_ [H _]]]|[id' [i [data [_ [_ [Hid [Hi [Hd [Hcur ->]]]]]]]]]]].
  - rewrite Hu in H. discriminate H.
  - rewrite Hu in H. discriminate H.
  - rewrite Hrole in H. discriminate H.
  - rewrite (annotator_branch_run env b p (with_init a) id' i data Hid Hi Hd Hcur).
    destruct (logout_button p).
    { rewrite logout_run. destruct (sign_out_error b); discriminate. }
    set (res := annotator_interface env (work p)
                  (interface_state (with_init a) id' i data)).
    assert (Hc : cursor_ok (snd res)).
    { subst res. apply (run_cursor_ok _ (env, work p)).
      apply keys_cursor_ok_state; assumption. }
    destruct (fst res) as [[]| | |]; try discriminate.
    intros _. simpl snd.
    destruct (filtered_data (session_state (snd res))) as [[|u' units']|] eqn:Hfd;
      unfold with_notices, after_interface, progress_of;
      cbn [keys key_filtered_data key_current_index notices];
      rewrite ?Hfd; try discriminate.
    intros H. injection H as <- <-.
    exists (current_index (session_state (snd res))).
    split; [reflexivity|]. split; [reflexivity|].
    unfold cursor_ok in Hc. rewrite Hfd in Hc. lia.
Qed.

(** X16 on the example: signed in, level [B1] loaded, nothing clicked. *)
Lemma progress_is_within_bounds_witness :
  exists i,
    key_current_index
      (keys (snd (main example_env example_backend idle_page
                    (runs_main
                       [(example_env, example_backend,
                         annotator_login_page (py "ann@example.org") (py "secret1"));
                        (example_env, example_backend,
                         work_page (load_click (py "B1")))]
                       (fresh_app [])))))
    = Some i /\ (1 <= i + 1 <= 2)%Z.
Proof.
  destruct (progress_is_within_bounds []
              [(example_env, example_backend,
                annotator_login_page (py "ann@example.org") (py "secret1"));
               (example_env, example_backend, work_page (load_click (py "B1")))]
              example_env example_backend idle_page example_user
              (Unit.mk (py "I go. He ran!") (py "I go.") 0 (py "B1") (py "L1"))
              [Unit.mk (py "I go. He ran!") (py "He ran!") 1 (py "B1") (py "L1")])
    as [i [Hi [_ [Hb _]]]].
  - vm_compute. reflexivity.
  - vm_compute. reflexivity.
  - vm_compute. reflexivity.
  - vm_compute. reflexivity.
  - exists i. split; [exact Hi|exact Hb].
Defined.

(** ** Who writes to the store *)

(** What a run of [main] sends to the store: nothing, or one record made by
    the annotator branch for the signed-in annotator. *)
Lemma run_main_sent (env : Env) (b : Backend) (p : Page) (a : App) :
  app_ok a ->
  let a' := run_main a (env, b, p) in
  exists new,
    sent a' = sent a ++ new /\
    table a' = table a ++ filter (store_accepts env) new /\
    (new = [] \/
     exists id r,
       key_user (keys a) = Some (Some id) /\
       key_user_role (keys a) = Some (Some (py "annotator")) /\
       key_annotator_id (keys a) = Some id /\
       logout_button p = false /\
       new = [r] /\ Annotation.annotator_id r = id).
Proof.
  intros Hok a'. subst a'. unfold run_main. simpl fst. simpl snd.
  assert (Hnone : forall x : App,
             sent x = sent a -> table x = table a ->
             exists new,
               sent x = sent a ++ new /\
               table x = table a ++ filter (store_accepts env) new /\
               (new = [] \/
                exists id r,
                  key_user (keys a) = Some (Some id) /\
                  key_user_role (keys a) = Some (Some (py "annotator")) /\
                  key_annotator_id (keys a) = Some id /\
                  logout_button p = false /\
                  new = [r] /\ Annotation.annotator_id r = id)).
  { intros x Hs Ht. exists []. simpl. rewrite !app_nil_r. auto. }
  destruct (main_cases env b p a Hok)
    as [[_ ->]|[[id [_ [_ ->]]]|[id [i [data [Hu [Hrole [Hid [Hi [Hd [Hcur ->]]]]]]]]]]].
  - simpl snd.
    destruct (register_frame b p (snd (login b p (with_init a))))
      as [answer [_ [_ [Ht [Hs _]]]]].
    destruct (login_effect b p (with_init a)) as [[Ht' [Hs' _]] _].
    apply Hnone; [rewrite Hs, Hs'|rewrite Ht, Ht']; reflexivity.
  - destruct (admin_logout p) eqn:Hl.
    + rewrite (admin_dashboard_logout b p _ Hl), logout_run.
      destruct (sign_out_error b); apply Hnone; reflexivity.
    + destruct (dashboard_queries b p (with_init a) Hl) as [ns ->].
      apply Hnone; reflexivity.
  - rewrite (annotator_branch_run env b p (with_init a) id i data Hid Hi Hd Hcur).
    destruct (logout_button p) eqn:Hl.
    { rewrite logout_run. destruct (sign_out_error b); apply Hnone; reflexivity. }
    destruct (run_effect env (work p) (interface_state (with_init a) id i data))
      as [_ [_ [new [Hc [Ha Hnew]]]]].
    unfold run in Hc, Ha. simpl fst in Hc, Ha. simpl snd in Hc, Ha.
    set (res := annotator_interface env (work p)
                  (interface_state (with_init a) id i data)) in *.
    assert (Hsent : forall x : App,
               sent x = insert_calls (snd res) ->
               table x = annotations (snd res) ->
               exists new0,
                 sent x = sent a ++ new0 /\
                 table x = table a ++ filter (store_accepts env) new0 /\
                 (new0 = [] \/
                  exists id0 r,
                    key_user (keys a) = Some (Some id0) /\
                    key_user_role (keys a) = Some (Some (py "annotator")) /\
                    key_annotator_id (keys a) = Some id0 /\
                    false = false /\
                    new0 = [r] /\ Annotation.annotator_id r = id0)).
    { intros x Hs Ht. exists new. rewrite Hs, Ht, Hc, Ha.
      split; [reflexivity|]. split; [reflexivity|].
      destruct Hnew as [->|[data' [item [tense [_ [_ [_ [_ ->]]]]]]]];
        [left; reflexivity|right].
      exists id. eexists. split; [exact Hu|]. split; [exact Hrole|].
      destruct (with_init_keys a) as [_ [_ [Han _]]]. cbv zeta in Han.
      split; [rewrite <- Han; exact Hid|].
      split; [reflexivity|]. split; reflexivity. }
    destruct (fst res) as [[]| | |]; simpl snd; try (apply Hsent; reflexivity).
    destruct (filtered_data (session_state (snd res))) as [[|u units]|];
      apply Hsent; reflexivity.
Qed.

(** Where the key [annotator_id] of the next state comes from: it was
    there, or the annotator form of this run signed that user in. *)
Lemma run_main_annotator_id (env : Env) (b : Backend) (p : Page) (a : App)
    (id : str) :
  app_ok a ->
  key_annotator_id (keys (run_main a (env, b, p))) = Some id ->
  key_annotator_id (keys a) = Some id \/
  signed_in_annotator [(env, b, p)] id.
Proof.
  intros Hok. unfold run_main. simpl fst. simpl snd.
  destruct (with_init_keys a) as [_ [_ [Han _]]]. cbv zeta in Han.
  destruct (main_cases env b p a Hok)
    as [[_ ->]|[[id' [_ [_ ->]]]|[id' [i [data [_ [_ [Hid [Hi [Hd [Hcur ->]]]]]]]]]]].
  - simpl snd.
    destruct (register_frame b p (snd (login b p (with_init a))))
      as [answer [_ [Hk _]]]. rewrite Hk.
    destruct (login_effect b p (with_init a)) as [_ [[_ Hk']|[_ [id' [H|H]]]]].
    + rewrite Hk', Han. auto.
    + destruct H as [Hl [Hsign [Hr Hk']]]. rewrite Hk'. simpl.
      intros H. injection H as <-. right.
      exists env, b, p. repeat split; trivial. left. reflexivity.
    + destruct H as [_ [_ [_ Hk']]]. rewrite Hk'. cbn [key_annotator_id].
      rewrite Han. auto.
  - destruct (admin_logout p) eqn:Hl.
    + rewrite (admin_dashboard_logout b p _ Hl), logout_run.
      destruct (sign_out_error b); cbn [snd keys key_annotator_id logged_out];
        [rewrite Han; auto|discriminate].
    + destruct (dashboard_queries b p (with_init a) Hl) as [ns ->].
      cbn [snd keys key_annotator_id with_notices]. rewrite Han. auto.
  - rewrite (annotator_branch_run env b p (with_init a) id' i data Hid Hi Hd Hcur).
    destruct (logout_button p).
    { rewrite logout_run.
      destruct (sign_out_error b); cbn [snd keys key_annotator_id logged_out];
        [rewrite Han; auto|discriminate]. }
    destruct (fst (annotator_interface env (work p) _)) as [[]| | |];
      cbn [snd keys key_annotator_id after_interface with_notices];
      try (rewrite Han; auto).
    destruct (filtered_data _) as [[|u units]|];
      cbn [snd keys key_annotator_id after_interface with_notices];
      rewrite Han; auto.
Qed.

Lemma runs_main_snoc (inputs : list (Env * Backend * Page))
    (x : Env * Backend * Page) (a : App) :
  runs_main (inputs ++ [x]) a = run_main (runs_main inputs a) x.
Proof. unfold runs_main. rewrite fold_left_app. reflexivity. Qed.

Lemma signed_in_annotator_more (inputs more : list (Env * Backend * Page))
    (id : str) :
  signed_in_annotator inputs id \/ signed_in_annotator more id ->
  signed_in_annotator (inputs ++ more) id.
Proof.
  intros [[env [b [p [Hin H]]]]|[env [b [p [Hin H]]]]];
    exists env, b, p; (split; [apply in_or_app; auto|exact H]).
Qed.

(** Over the runs from a fresh session: the key [annotator_id] and every
    record sent belong to a user who signed in as an annotator, and the
    table holds the rows it had and records that were sent. *)
Lemma writers_signed_in (rows : list Annotation.t)
    (inputs : list (Env * Backend * Page)) :
  let a := runs_main inputs (fresh_app rows) in
  (forall id, key_annotator_id (keys a) = Some id ->
              signed_in_annotator inputs id) /\
  Forall (fun r => signed_in_annotator inputs (Annotation.annotator_id r)) (sent a) /\
  exists stored, table a = rows ++ stored /\ Forall (fun r => In r (sent a)) stored.
Proof.
  induction inputs as [|x inputs IH] using rev_ind.
  - simpl. split; [intros id H; discriminate H|]. split; [constructor|].
    exists []. rewrite app_nil_r. split; [reflexivity|constructor].
  - cbv zeta in *. rewrite runs_main_snoc.
    set (a := runs_main inputs (fresh_app rows)) in *.
    assert (Hok : app_ok a) by (apply runs_main_ok, fresh_app_ok).
    destruct IH as [Hid [Hsent [stored [Htable Hstored]]]].
    destruct x as [[env b] p].
    destruct (run_main_sent env b p a Hok) as [new [Hs [Ht Hnew]]].
    split; [|split].
    + intros id H. apply signed_in_annotator_more.
      destruct (run_main_annotator_id env b p a id Hok H) as [H'|H']; auto.
    + rewrite Hs. apply Forall_app. split.
      * apply Forall_forall. intros r Hr. rewrite Forall_forall in Hsent.
        apply signed_in_annotator_more. left. apply Hsent, Hr.
      * destruct Hnew as [->|[id [r [_ [_ [Hkid [_ [-> Hr]]]]]]]]; constructor;
          [|constructor].
        apply signed_in_annotator_more. left. rewrite Hr. apply Hid, Hkid.
    + exists (stored ++ filter (store_accepts env) new).
      rewrite Ht, Htable, Hs, <- app_assoc. split; [reflexivity|].
      apply Forall_app. split.
      * apply Forall_forall. intros r Hr. rewrite Forall_forall in Hstored.
        apply in_or_app. left. apply Hstored, Hr.
      * apply Forall_forall. intros r Hr. apply filter_In in Hr as [Hr _].
        apply in_or_app. right. exact Hr.
Qed.

(** X17. Only a signed-in annotator writes. Over any runs of [main] from a
    fresh session, every record sent to the store, and so every record added
    to the table, carries as [annotator_id] the id of a user for whom, in one
    of these runs, the annotator form was submitted, the sign-in answered
    with that user and the profile had the role [annotator]. A run on a
    state with no signed-in user, or with a signed-in admin, sends nothing,
    whatever the widgets of the annotator interface hold. *)
Theorem only_signed_in_annotators_write (rows : list Annotation.t)
    (inputs : list (Env * Backend * Page)) :
  let a := runs_main inputs (fresh_app rows) in
  Forall (fun r => signed_in_annotator inputs (Annotation.annotator_id r)) (sent a) /\
  (exists stored,
      table a = rows ++ stored /\
      Forall (fun r => signed_in_annotator inputs (Annotation.annotator_id r))
             stored) /\
  (forall env b p,
      (forall id, key_user (keys a) = Some (Some id) ->
                  key_user_role (keys a) = Some (Some (py "admin"))) ->
      sent (run_main a (env, b, p)) = sent a /\
      table (run_main a (env, b, p)) = table a).
Proof.
  intros a.
  destruct (writers_signed_in rows inputs) as [_ [Hsent [stored [Ht Hstored]]]].
  fold a in Hsent, Ht, Hstored.
  split; [exact Hsent|]. split.
  - exists stored. split; [exact Ht|].
    apply Forall_forall. intros r Hr.
    rewrite Forall_forall in Hstored, Hsent. apply Hsent, Hstored, Hr.
  - intros env b p Hadmin.
    assert (Hok : app_ok a) by (apply runs_main_ok, fresh_app_ok).
    destruct (run_main_sent env b p a Hok) as [new [Hs [Htab Hnew]]].
    destruct Hnew as [->|[id [r [Hu [Hrole _]]]]].
    + rewrite Hs, Htab. simpl. rewrite !app_nil_r. split; reflexivity.
    + rewrite (Hadmin id Hu) in Hrole. discriminate Hrole.
Qed.

(** ** Logout and the dashboard *)

(** X18. A logout that the service accepts, from the annotator interface
    or from the dashboard, ends the run with a rerun and removes every key
    of the session (the worklist and the cursor with them), leaving table,
    insert log and annotator page as they were. Whatever the next run is
    given, it is the login page: it ends with the [return] of [main], sends
    nothing to the store, and leaves no worklist and the cursor at 0. *)
Theorem logout_drops_the_session (rows : list Annotation.t)
    (inputs : list (Env * Backend * Page))
    (env : Env) (b : Backend) (p : Page) (id : str) :
  let a := runs_main inputs (fresh_app rows) in
  key_user (keys a) = Some (Some id) ->
  (key_user_role (keys a) = Some (Some (py "annotator")) /\ logout_button p = true) \/
  (key_user_role (keys a) = Some (Some (py "admin")) /\ admin_logout p = true) ->
  sign_out_error b = None ->
  main env b p a = (Reran, logged_out (with_init a)) /\
  keys (logged_out (with_init a)) = no_keys /\
  forall env' b' p',
    let r := main env' b' p' (logged_out (with_init a)) in
    fst r = Returned /\
    sent (snd r) = sent a /\ table (snd r) = table a /\ drawn (snd r) = drawn a /\
    key_filtered_data (keys (snd r)) = Some None /\
    key_current_index (keys (snd r)) = Some 0%Z.
Proof.
  intros a Hu Hrole Hout.
  assert (Hok : app_ok a) by (apply runs_main_ok, fresh_app_ok).
  split; [|split; [reflexivity|]].
  - destruct (main_cases env b p a Hok)
      as [[[H|H] _]|[[id' [_ [Hr ->]]]|[id' [i [data [_ [Hr [Hid [Hi [Hd [Hcur ->]]]]]]]]]]].
    + rewrite Hu in H. discriminate H.
    + rewrite Hu in H. discriminate H.
    + destruct Hrole as [[Hr' _]|[_ Hl]];
        [rewrite Hr in Hr'; discriminate Hr'|].
      rewrite (admin_dashboard_logout b p _ Hl), logout_run, Hout. reflexivity.
    + destruct Hrole as [[_ Hl]|[Hr' _]];
        [|rewrite Hr in Hr'; discriminate Hr'].
      rewrite (annotator_branch_run env b p (with_init a) id' i data Hid Hi Hd Hcur).
      rewrite Hl, logout_run, Hout. reflexivity.
  - intros env' b' p' r. subst r.
    rewrite main_signed_out by (left; reflexivity). simpl fst. simpl snd.
    set (a1 := with_init (logged_out (with_init a))).
    destruct (register_frame b' p' (snd (login b' p' a1)))
      as [answer [_ [Hk [Ht [Hs Hd]]]]].
    destruct (login_effect b' p' a1) as [[Ht' [Hs' [Hd' _]]] Hl].
    rewrite Hk, Ht, Hs, Hd, Ht', Hs', Hd'.
    split; [reflexivity|]. split; [reflexivity|]. split; [reflexivity|].
    split; [reflexivity|].
    destruct Hl as [[_ ->]|[_ [id' [[_ [_ [_ ->]]]|[_ [_ [_ ->]]]]]]];
      split; reflexivity.
Qed.

(** X18 after the example annotator signed in. *)
Lemma logout_drops_the_session_witness :
  main example_env example_backend logout_page example_signed_in
  = (Reran, logged_out (with_init example_signed_in)).
Proof.
  refine (proj1 (logout_drops_the_session []
                   [(example_env, example_backend,
                     annotator_login_page (py "ann@example.org") (py "secret1"))]
                   example_env example_backend logout_page example_user
                   _ _ eq_refl)).
  - vm_compute. reflexivity.
  - left. split; vm_compute; reflexivity.
Defined.

Lemma dashboard_run (b : Backend) (p : Page) (a : App) :
  admin_logout p = false ->
  admin_dashboard b p a = (Done tt, with_notices a (dashboard_notices b p)).
Proof.
  intros Hlogout. unfold admin_dashboard, dashboard_notices. rewrite Hlogout.
  unfold whenA at 1, bindA at 1, retA, try_exceptA.
  unfold bindA, liftA, notice, whenA, retA, failA, with_notices. simpl.
  destruct (count_annotations b) as [e|n1]; simpl; [reflexivity|].
  destruct (count_annotators b) as [e|n2]; simpl; [reflexivity|].
  destruct (recent_annotations b) as [e|recent]; simpl;
    [rewrite <- app_assoc; reflexivity|].
  destruct (truthy recent); simpl.
  - destruct (recent_rows b recent) as [rows|]; simpl;
      [|rewrite <- !app_assoc; reflexivity].
    destruct (export_button p); simpl; [|rewrite <- !app_assoc; reflexivity].
    destruct (all_annotations b) as [e|data]; simpl;
      [rewrite <- !app_assoc; reflexivity|].
    destruct (truthy data); simpl; rewrite <- !app_assoc; reflexivity.
  - destruct (export_button p); simpl; [|reflexivity].
    destruct (all_annotations b) as [e|data]; simpl;
      [rewrite <- !app_assoc; reflexivity|].
    destruct (truthy data); simpl; rewrite <- ?app_assoc; reflexivity.
Qed.

(** X19. Without a logout the dashboard never raises and never writes: it
    ends normally with session, table, insert log, annotator page and calls
    to the service unchanged, whatever the queries answer. The two totals
    are drawn only when both counts are answered, a missing count shown as
    0; a download is offered only after a click on the export button, and
    only of a non-empty answer; the error of the handler, when it is drawn,
    is the last thing drawn; and a count that fails gives the error
    alone. *)
Theorem dashboard_is_read_only (b : Backend) (p : Page) (a : App) :
  admin_logout p = false ->
  exists ns,
    admin_dashboard b p a = (Done tt, with_notices a ns) /\
    (forall m n, In (statistics m n) ns ->
       exists c1 c2,
         count_annotations b = inr c1 /\ count_annotators b = inr c2 /\
         m = or_zero c1 /\ n = or_zero c2) /\
    (forall data, In (download_button data) ns ->
       export_button p = true /\ all_annotations b = inr data /\ data <> []) /\
    (forall front back, ns = front ++ dashboard_error :: back -> back = []) /\
    ((exists e, count_annotations b = inl e) \/
     (exists e, count_annotators b = inl e) -> ns = [dashboard_error]).
Proof.
  intros Hlogout. exists (dashboard_notices b p).
  split; [apply dashboard_run, Hlogout|].
  unfold dashboard_notices.
  assert (Hlast : forall (ns : list Notice) front back,
             ~ In dashboard_error ns ->
             ns ++ [dashboard_error] = front ++ dashboard_error :: back ->
             back = []).
  { intros ns front back Hn H.
    destruct back as [|x back] using rev_ind; [reflexivity|].
    exfalso. clear IHback.
    change (front ++ dashboard_error :: back ++ [x])
      with (front ++ (dashboard_error :: back) ++ [x]) in H.
    rewrite app_assoc in H. apply app_inj_tail in H as [H _].
    apply Hn. rewrite H. apply in_or_app. right. left. reflexivity. }
  assert (Honly : (forall m n, In (statistics m n) [dashboard_error] ->
                     exists c1 c2,
                       count_annotations b = inr c1 /\ count_annotators b = inr c2 /\
                       m = or_zero c1 /\ n = or_zero c2) /\
                  (forall data, In (download_button data) [dashboard_error] ->
                     export_button p = true /\ all_annotations b = inr data /\
                     data <> []) /\
                  (forall front back,
                     [dashboard_error] = front ++ dashboard_error :: back ->
                     back = [])).
  { split; [|split].
    - intros m n [Hin|[]]. discriminate Hin.
    - intros data [Hin|[]]. discriminate Hin.
    - intros front back. apply (Hlast []). intros []. }
  destruct Honly as [Honly1 [Honly2 Honly3]].
  destruct (count_annotations b) as [e1|n1] eqn:Hc1;
    [split; [|split; [|split]]; auto; intros m n Hin;
     destruct (Honly1 m n Hin) as [c1 [c2 [Hx _]]]; discriminate Hx|].
  destruct (count_annotators b) as [e2|n2] eqn:Hc2;
    [split; [|split; [|split]]; auto; intros m n Hin;
     destruct (Honly1 m n Hin) as [c1 [c2 [_ [Hx _]]]]; discriminate Hx|].
  clear Honly1 Honly2 Honly3.
  split; [|split; [|split]].
  - intros m n [H|H].
    + injection H as <- <-. exists n1, n2. repeat split.
    + exfalso. destruct (recent_annotations b) as [e|recent];
        [destruct H as [H|[]]; discriminate H|].
      destruct (if truthy recent then recent_rows b recent else Some []);
        [|destruct H as [H|[]]; discriminate H].
      apply in_app_or in H as [H|H].
      * destruct (truthy recent); [destruct H as [H|[]]; discriminate H|destruct H].
      * destruct (export_button p); [|destruct H].
        destruct (all_annotations b) as [e|data];
          [destruct H as [H|[]]; discriminate H|].
        destruct (truthy data); [destruct H as [H|[]]; discriminate H|destruct H].
  - intros data [H|H]; [discriminate H|].
    destruct (recent_annotations b) as [e|recent];
      [destruct H as [H|[]]; discriminate H|].
    destruct (if truthy recent then recent_rows b recent else Some []);
      [|destruct H as [H|[]]; discriminate H].
    apply in_app_or in H as [H|H].
    + destruct (truthy recent); [destruct H as [H|[]]; discriminate H|destruct H].
    + destruct (export_button p); [|destruct H].
      destruct (all_annotations b) as [e|data'];
        [destruct H as [H|[]]; discriminate H|].
      destruct data' as [|r data']; [destruct H|].
      destruct H as [H|[]]. injection H as <-.
      repeat split. discriminate.
  - assert (Hnone : forall (ns : list Notice) front back,
               ~ In dashboard_error ns ->
               ns = front ++ dashboard_error :: back -> back = []).
    { intros ns front back Hn H. exfalso. apply Hn. rewrite H.
      apply in_or_app. right. left. reflexivity. }
    intros front back.
    destruct (recent_annotations b) as [e|recent].
    { apply (Hlast [statistics (or_zero n1) (or_zero n2)]).
      intros [H|[]]. discriminate H. }
    destruct (truthy recent).
    + destruct (recent_rows b recent) as [rows|].
      * destruct (export_button p).
        -- destruct (all_annotations b) as [e|data].
           ++ apply (Hlast [statistics (or_zero n1) (or_zero n2); recent_table rows]).
              intros [H|[H|[]]]; discriminate H.
           ++ apply Hnone. destruct (truthy data).
              ** intros [H|[H|[H|[]]]]; discriminate H.
              ** intros [H|[H|[]]]; discriminate H.
        -- apply Hnone. intros [H|[H|[]]]; discriminate H.
      * apply (Hlast [statistics (or_zero n1) (or_zero n2)]).
        intros [H|[]]. discriminate H.
    + destruct (export_button p).
      * destruct (all_annotations b) as [e|data].
        -- apply (Hlast [statistics (or_zero n1) (or_zero n2)]).
           intros [H|[]]. discriminate H.
        -- apply Hnone. destruct (truthy data).
           ++ intros [H|[H|[]]]; discriminate H.
           ++ intros [H|[]]; discriminate H.
      * apply Hnone. intros [H|[]]; discriminate H.
  - intros [[e H]|[e H]]; discriminate H.
Qed.

(** X19 on the example service, with nothing clicked. *)
Lemma dashboard_is_read_only_witness :
  exists ns,
    admin_dashboard example_backend idle_page (fresh_app [])
    = (Done tt, with_notices (fresh_app []) ns).
Proof.
  destruct (dashboard_is_read_only example_backend idle_page (fresh_app [])
              eq_refl) as [ns [Hrun _]].
  exists ns. exact Hrun.
Defined.
